(** * Streaming chat relay and its Databricks store

    A shallow embedding of the session streaming relay
    ([app/routers/chat.py]) and of the storage adapter
    ([app/storage/databricks.py], behind the interface of
    [app/storage/base.py]), with the properties of the relay protocol,
    the connection registry, the query executor and the session store.

    Python values are modelled by the type [value]; dictionaries are finite
    maps over string keys; a coroutine that sends frames and may raise is a
    computation in the monad [M], which keeps the frames already sent when an
    exception escapes.  A write to the websocket of the connection being
    served is taken to succeed; writes that fail are modelled in the
    connection registry, whose [broadcast] writes to many websockets.  The
    workflow engine, the clock, the identifier generator and the network are
    inputs: a turn is given the events that the workflow yields, its clock
    readings, and so on.

    The first part has the definitions, the second part the properties. *)

From Stdlib Require Import String Ascii ZArith List Bool Lia Sorted Permutation.
From stdpp Require Import base option list gmap strings.

#[local] Set Warnings "-register-all".
#[local] Open Scope string_scope.
#[local] Open Scope Z_scope.
#[local] Open Scope list_scope.

(** ** Python strings *)

Module PyStr.

(** [str.isspace] on one character.  Characters are code points below 256;
    in that range Python counts as whitespace: TAB, LF, VT, FF, CR
    (9 to 13), the separators FS, GS, RS, US (28 to 31), SPACE (32),
    NEL (133) and NBSP (160). *)
Definition isspace (c : ascii) : bool :=
  let n := N_of_ascii c in
  ((9 <=? n) && (n <=? 13) || (28 <=? n) && (n <=? 32)
   || (n =? 133) || (n =? 160))%N.

(** [s.split()] with no argument: runs of whitespace separate the words,
    leading and trailing whitespace gives no empty word.  [cur] is the word
    being scanned. *)
Fixpoint split_go (cur s : string) : list string :=
  match s with
  | EmptyString => match cur with EmptyString => [] | _ => [cur] end
  | String c s' =>
      if isspace c then
        match cur with
        | EmptyString => split_go "" s'
        | _ => cur :: split_go "" s'
        end
      else split_go (cur +:+ String c "") s'
  end.

Definition split (s : string) : list string := split_go "" s.

(** [s.lstrip()], [s.rstrip()] and [s.strip()] with no argument. *)
Fixpoint lstrip (s : string) : string :=
  match s with
  | EmptyString => ""
  | String c s' => if isspace c then lstrip s' else s
  end.

Fixpoint rstrip (s : string) : string :=
  match s with
  | EmptyString => ""
  | String c s' =>
      match rstrip s' with
      | EmptyString => if isspace c then "" else String c ""
      | r => String c r
      end
  end.

Definition strip (s : string) : string := rstrip (lstrip s).

(** [sep.join(ws)] *)
Fixpoint join (sep : string) (ws : list string) : string :=
  match ws with
  | [] => ""
  | [w] => w
  | w :: ws' => w +:+ sep +:+ join sep ws'
  end.

(** [''.join(ws)] *)
Definition concat (ws : list string) : string := fold_right String.append "" ws.

(** [s[:n]] for [n >= 0] *)
Definition prefix (n : nat) (s : string) : string := substring 0 n s.

(** All characters of [s] are not whitespace. *)
Fixpoint nospace (s : string) : bool :=
  match s with
  | EmptyString => true
  | String c s' => negb (isspace c) && nospace s'
  end.

(** All characters of [s] are whitespace (true of the empty string). *)
Fixpoint allspace (s : string) : bool :=
  match s with
  | EmptyString => true
  | String c s' => isspace c && allspace s'
  end.

(** A word: what [split] can return as an element. *)
Definition is_word (w : string) : Prop := w <> "" /\ nospace w = true.

(** The tokens sent for a list of words: each word and one space. *)
Definition spaced (ws : list string) : list string :=
  map (fun word => word +:+ " ") ws.

End PyStr.

(** ** Python values and dictionaries *)

(** The values that travel through the relay: JSON-like data.  Numbers are
    integers. *)
Inductive value : Type :=
| VNone
| VBool (b : bool)
| VInt (z : Z)
| VStr (s : string)
| VList (l : list value)
| VDict (d : gmap string value).

Abbreviation dict := (gmap string value).

(** Truth value of a Python object, as [if v:] tests it. *)
Definition truthy (v : value) : bool :=
  match v with
  | VNone => false
  | VBool b => b
  | VInt z => negb (z =? 0)
  | VStr s => negb (String.eqb s "")
  | VList l => match l with [] => false | _ => true end
  | VDict d => negb (Nat.eqb (size d) 0)
  end.

(** [d.get(k, dflt)] and [d.get(k)] *)
Definition get (d : dict) (k : string) (dflt : value) : value :=
  default dflt (d !! k).

Definition get_none (d : dict) (k : string) : value := get d k VNone.

(** [v == "t"] for a string literal: a value that is not a string is
    different from every string. *)
Definition str_eq (v : value) (t : string) : bool :=
  match v with
  | VStr s => String.eqb s t
  | _ => false
  end.

(** ** Exceptions *)

Inductive exn : Type :=
| AttributeError                        (* a string method on a value that is not a string *)
| TypeError                             (* [+ 1] on a value that is not a number *)
| ClientError                           (* [aiohttp.ClientError]: network-level failure *)
| WebSocketDisconnect                   (* the peer of a websocket is gone *)
| SqlApiError (body : value)            (* [Exception("SQL API error: ...")] *)
| SqlExecutionFailed (error : value)    (* [Exception("SQL execution failed: ...")] *)
| UnexpectedSqlState (state : value)    (* [Exception("Unexpected SQL state: ...")] *)
| Raised (msg : string).                (* any other exception, with its message *)

(** [v.split()]: only strings have the method. *)
Definition py_split (v : value) : exn + list string :=
  match v with
  | VStr s => inr (PyStr.split s)
  | _ => inl AttributeError
  end.

(** [v.strip()] *)
Definition py_strip (v : value) : exn + string :=
  match v with
  | VStr s => inr (PyStr.strip s)
  | _ => inl AttributeError
  end.

(** [v + 1]: integers, and booleans as 0 and 1. *)
Definition py_add_one (v : value) : exn + Z :=
  match v with
  | VInt z => inr (z + 1)
  | VBool b => inr ((if b then 1 else 0) + 1)
  | _ => inl TypeError
  end.

(** ** Outbound frames *)

(** The text of a [status] frame: a value taken from the event, or the
    f-string [f"Completed {node}..."] for the node it names. *)
Inductive status_message : Type :=
| Msg (v : value)
| MsgCompleted (node : value).

(** The text of an [error] frame: a value taken from the event or a literal,
    or [str(e)] for a caught exception [e]. *)
Inductive error_text : Type :=
| ErrValue (v : value)
| ErrStr (e : exn).

(** One constructor per [websocket.send_json({"type": ...})] shape.  In a
    [Status] frame [node] is [None] when the frame has no "node" key. *)
Inductive frame : Type :=
| Pong
| Status (status : string) (message : status_message) (node : option value)
| Stream (token : string) (done : bool)
| DataSqlResult (data : value)
| DataChart (spec : value)
| DataFollowup (questions : value)
| Clarification (clarification_type : string) (message : value)
| Complete (response : value) (session_id : string) (turn_number : value)
           (metadata : dict)
| Error (error : error_text)
| History (session_id : string) (turns : list (Z * string * string)).

(** The [token] fields of the [stream] frames that carry a token
    ([done = false]), in order. *)
Definition stream_tokens (fs : list frame) : list string :=
  flat_map (fun f => match f with
                     | Stream token false => [token]
                     | _ => []
                     end) fs.

Definition is_complete (f : frame) : bool :=
  match f with Complete _ _ _ _ => true | _ => false end.

Definition is_error (f : frame) : bool :=
  match f with Error _ => true | _ => false end.

(** ** Coroutines that send frames

    [M St A]: a computation over local variables [St] that sends frames to
    one websocket and returns an [A] or raises.  Frames sent before an
    exception stay sent, and the local variables keep their values. *)

Definition M (St A : Type) : Type := St -> list frame * St * (exn + A).

Definition ret {St A} (a : A) : M St A := fun st => ([], st, inr a).

Definition bind {St A B} (m : M St A) (k : A -> M St B) : M St B :=
  fun st =>
    match m st with
    | (fs, st', inl e) => (fs, st', inl e)
    | (fs, st', inr a) =>
        match k a st' with
        | (fs', st'', r) => (fs ++ fs', st'', r)
        end
    end.

Definition send_json {St} (f : frame) : M St unit := fun st => ([f], st, inr tt).

Definition raise {St A} (e : exn) : M St A := fun st => ([], st, inl e).

Definition lift {St A} (r : exn + A) : M St A := fun st => ([], st, r).

Definition read {St} : M St St := fun st => ([], st, inr st).

(** [try: m  except Exception as e: h e] *)
Definition try_except {St A} (m : M St A) (h : exn -> M St A) : M St A :=
  fun st =>
    match m st with
    | (fs, st', inl e) =>
        match h e st' with
        | (fs', st'', r) => (fs ++ fs', st'', r)
        end
    | ok => ok
    end.

#[global] Instance M_ret {St} : MRet (M St) := @ret St.
#[global] Instance M_bind {St} : MBind (M St) := fun A B k m => bind m k.

(** [for x in xs: body x] *)
Fixpoint for_each {St A} (xs : list A) (body : A -> M St unit) : M St unit :=
  match xs with
  | [] => ret tt
  | x :: xs' => body x ;; for_each xs' body
  end.

(** ** Coroutines that send no frame

    [Db St A]: a computation over a state [St] that returns an [A] or
    raises; the storage operations and the query executor are of this
    kind. *)

Definition Db (St A : Type) : Type := St -> St * (exn + A).

Definition db_ret {St A} (a : A) : Db St A := fun st => (st, inr a).

Definition db_bind {St A B} (m : Db St A) (k : A -> Db St B) : Db St B :=
  fun st =>
    match m st with
    | (st', inl e) => (st', inl e)
    | (st', inr a) => k a st'
    end.

Definition db_raise {St A} (e : exn) : Db St A := fun st => (st, inl e).

Definition db_lift {St A} (r : exn + A) : Db St A := fun st => (st, r).

(** [try: m  except Exception as e: h e] *)
Definition db_try {St A} (m : Db St A) (h : exn -> Db St A) : Db St A :=
  fun st =>
    match m st with
    | (st', inl e) => h e st'
    | ok => ok
    end.

#[global] Instance Db_ret {St} : MRet (Db St) := @db_ret St.
#[global] Instance Db_bind {St} : MBind (Db St) := fun A B k m => db_bind m k.

(** A coroutine that sends no frame, called where frames can be sent. *)
Definition silent {St A} (m : Db St A) : M St A :=
  fun st => match m st with (st', r) => ([], st', r) end.

(** Run a computation over a part [In] of the state [St]. *)
Definition zoom {St In A} (proj : St -> In) (upd : In -> St -> St)
    (m : M In A) : M St A :=
  fun st =>
    match m (proj st) with
    | (fs, i, r) => (fs, upd i st, r)
    end.

(** ** The connection registry ([ConnectionManager]) *)

Module ConnectionManager.

(** [active_connections]: a Python dictionary from session id to
    websocket, in insertion order.  A websocket is named by a number. *)
Definition registry : Type := list (string * nat).

(** [active_connections[session_id] = websocket]: a key that is present
    keeps its position and takes the new value, a new key goes last. *)
Fixpoint assign (session_id : string) (websocket : nat) (r : registry)
    : registry :=
  match r with
  | [] => [(session_id, websocket)]
  | (k, w) :: r' =>
      if String.eqb k session_id then (k, websocket) :: r'
      else (k, w) :: assign session_id websocket r'
  end.

(** [connect]: accept and store. *)
Definition connect (websocket : nat) (session_id : string) (r : registry)
    : registry :=
  assign session_id websocket r.

(** [disconnect]: [active_connections.pop(session_id, None)] *)
Fixpoint disconnect (session_id : string) (r : registry) : registry :=
  match r with
  | [] => []
  | (k, w) :: r' =>
      if String.eqb k session_id then r' else (k, w) :: disconnect session_id r'
  end.

(** [active_connections.get(session_id)] *)
Fixpoint lookup (session_id : string) (r : registry) : option nat :=
  match r with
  | [] => None
  | (k, w) :: r' =>
      if String.eqb k session_id then Some w else lookup session_id r'
  end.

(** [active_connections.values()] *)
Definition values (r : registry) : list nat := map snd r.

(** A write to a websocket: [writable w] tells whether the write to
    websocket [w] succeeds; a write that fails raises.  The result lists
    the deliveries made, in order. *)
Definition write_to {A} (writable : nat -> bool) (websocket : nat)
    (payload : A) : list (nat * A) * (exn + unit) :=
  if writable websocket then ([(websocket, payload)], inr tt)
  else ([], inl WebSocketDisconnect).

(** [send_json(session_id, data)]: nothing happens for an id that is not
    registered. *)
Definition send_json {A} (writable : nat -> bool) (session_id : string)
    (data : A) (r : registry) : list (nat * A) * (exn + unit) :=
  match lookup session_id r with
  | Some websocket => write_to writable websocket data
  | None => ([], inr tt)
  end.

(** [for websocket in ...values(): await websocket.send_text(message)] *)
Fixpoint send_all {A} (writable : nat -> bool) (websockets : list nat)
    (message : A) : list (nat * A) * (exn + unit) :=
  match websockets with
  | [] => ([], inr tt)
  | w :: ws =>
      match write_to writable w message with
      | (sent, inl e) => (sent, inl e)
      | (sent, inr _) =>
          match send_all writable ws message with
          | (sent', r) => (sent ++ sent', r)
          end
      end
  end.

Definition broadcast {A} (writable : nat -> bool) (message : A)
    (r : registry) : list (nat * A) * (exn + unit) :=
  send_all writable (values r) message.

End ConnectionManager.

(** ** The storage interface ([StorageBackend]) *)

(** A session as the store returns it, and as a row of the sessions table. *)
Record session : Type := Session {
  s_session_id : string;
  s_user_id : value;
  s_title : string;
  s_state : dict;
  s_created_at : string;
  s_updated_at : string
}.

(** A turn as the store returns it (with the session it belongs to), and as
    a row of the turns table. *)
Record turn : Type := Turn {
  t_session_id : string;
  t_turn_number : Z;
  t_user_question : string;
  t_agent_response : string;
  t_state_snapshot : dict;
  t_metadata : dict;
  t_created_at : string
}.

(** The operations of the abstract class that the relay and the REST router
    call, over a store of type [S].  An operation is a coroutine on the
    store; [now] is the clock reading it takes. *)
Record StorageBackend (S : Type) : Type := MkStorage {
  save_session :
    forall (session_id : string) (user_id : value) (state : dict)
           (title : option string) (now : string), Db S unit;
  get_session : forall (session_id : string), Db S (option session);
  delete_session : forall (session_id : string), Db S bool;
  save_turn :
    forall (session_id : string) (turn_number : Z) (user_question : string)
           (agent_response : value) (state_snapshot : dict)
           (metadata : option dict) (now : string), Db S unit;
  get_turns : forall (session_id : string) (limit : option Z), Db S (list turn)
}.

Arguments save_session {S} _.
Arguments get_session {S} _.
Arguments delete_session {S} _.
Arguments save_turn {S} _.
Arguments get_turns {S} _.

(** ** The relay: [stream_response_workflow] *)

(** What the workflow service yields for one question: the events, in
    order, and the exception that ends the sequence if it ends by raising. *)
Record run : Type := Run {
  run_events : list dict;
  run_raises : option exn
}.

(** The clock readings of one turn: the timestamp of the [complete] frame
    and those that [save_turn] and [save_session] take. *)
Record times : Type := Times {
  at_complete : string;
  at_save_turn : string;
  at_save_session : string
}.

(** [question[:100] if turn_number == 1 else None] *)
Definition turn_title (question : string) (turn_number : Z) : option string :=
  if turn_number =? 1 then Some (PyStr.prefix 100 question) else None.

(** The word-by-word streaming loop of a narrative or a greeting:
    [for word in words: send_json({"type": "stream", "token": word + " ",
    "done": False})]. *)
Definition stream_words {St} (words : list string) : M St unit :=
  for_each words (fun word => send_json (Stream (word +:+ " ") false)).

Section Relay.

Context {S : Type}.

(** The global [storage] of [app.main]: a backend, or [None]. *)
Variable storage : option (StorageBackend S).

(** The local variables that the relay assigns while it streams, and the
    store behind [storage]. *)
Record locals : Type := Locals {
  full_response : value;
  final_state : dict;
  store : S
}.

Definition set_full_response (v : value) : M locals unit :=
  fun st => ([], Locals v (final_state st) (store st), inr tt).

Definition set_final_state (d : dict) : M locals unit :=
  fun st => ([], Locals (full_response st) d (store st), inr tt).

(** A call of a storage operation. *)
Definition storage_call {A} (op : Db S A) : M locals A :=
  zoom store (fun db st => Locals (full_response st) (final_state st) db)
    (silent op).

(** The [workflow_end] branch, given the dictionary bound to
    [final_state]: the first special field with a true value decides. *)
Definition relay_workflow_end (fs : dict) : M locals unit :=
  if truthy (get_none fs "greeting_response") then
    let greeting := get_none fs "greeting_response" in
    set_full_response greeting;;
    words ← lift (py_split greeting);
    stream_words words
  else if truthy (get_none fs "domain_followup_question") then
    let q := get_none fs "domain_followup_question" in
    set_full_response q;;
    send_json (Clarification "domain" q)
  else if truthy (get_none fs "dataset_followup_question") then
    let q := get_none fs "dataset_followup_question" in
    set_full_response q;;
    send_json (Clarification "dataset" q)
  else if truthy (get_none fs "sql_followup_question") then
    let q := get_none fs "sql_followup_question" in
    set_full_response q;;
    send_json (Clarification "sql" q)
  else mret tt.

(** The body of [async for event in workflow_service.run_workflow(...)]. *)
Definition relay_event (event : dict) : M locals unit :=
  let event_type := get event "type" (VStr "") in
  if str_eq event_type "workflow_start" then
    send_json (Status "started" (Msg (VStr "Workflow started...")) None)
  else if str_eq event_type "node_complete" then
    send_json (Status "processing"
                 (match event !! "status" with
                  | Some v => Msg v
                  | None => MsgCompleted (get event "node" (VStr ""))
                  end)
                 (Some (get_none event "node")))
  else if str_eq event_type "narrative" then
    let content := get event "content" (VStr "") in
    if truthy content then
      set_full_response content;;
      words ← lift (py_split content);
      stream_words words
    else mret tt
  else if str_eq event_type "sql_result" then
    send_json (DataSqlResult (get_none event "data"))
  else if str_eq event_type "chart" then
    send_json (DataChart (get_none event "spec"))
  else if str_eq event_type "followup_questions" then
    send_json (DataFollowup (get event "questions" (VList [])))
  else if str_eq event_type "workflow_end" then
    match get event "state" (VDict ∅) with
    | VDict fs => set_final_state fs;; relay_workflow_end fs
    | VNone | VBool _ | VInt _ | VStr _ | VList _ => raise AttributeError
    end
  else if str_eq event_type "error" then
    send_json (Error (ErrValue (get event "error" (VStr "Unknown error"))))
  else mret tt.

(** The whole [async for]: every event in order, then the exception of the
    sequence if it raises. *)
Definition relay_events (r : run) : M locals unit :=
  for_each (run_events r) relay_event;;
  match run_raises r with
  | Some e => raise e
  | None => mret tt
  end.

(** The metadata of the [complete] frame of a workflow turn. *)
Definition complete_metadata (now : string) (fs : dict) : dict :=
  <["timestamp" := VStr now]>
    (<["question_type" := get_none fs "question_type"]>
       (<["next_agent" := get_none fs "next_agent"]> ∅)).

(** [if storage: try: save_turn(...); save_session(...) except Exception:
    print(...)] of the workflow turn: a failure of either call is logged
    and goes no further. *)
Definition persist (session_id question : string) (user_id : value)
    (turn_number : Z) (response : value) (snapshot : dict) (tm : times)
    : M locals unit :=
  match storage with
  | Some sb =>
      try_except
        (storage_call
           (save_turn sb session_id turn_number question response snapshot
              (Some {["workflow" := VBool true]}) (at_save_turn tm));;
         storage_call
           (save_session sb session_id user_id
              (<["turn_number" := VInt turn_number]> snapshot)
              (turn_title question turn_number) (at_save_session tm)))
        (fun _ => mret tt)
  | None => mret tt
  end.

(** The [try] block of [stream_response_workflow]. *)
Definition workflow_turn (r : run) (session_id question : string)
    (user_id : value) (state : dict) (tm : times) : M locals unit :=
  relay_events r;;
  send_json (Stream "" true);;
  turn_number ← lift (py_add_one (get state "turn_number" (VInt 0)));
  st ← read;
  send_json (Complete (full_response st) session_id (VInt turn_number)
               (complete_metadata (at_complete tm) (final_state st)));;
  persist session_id question user_id turn_number (full_response st)
    (final_state st) tm.

(** [stream_response_workflow], for the events [r] that the workflow
    service yields: a coroutine on the store that returns
    [full_response]. *)
Definition stream_response_workflow (r : run) (session_id question : string)
    (user_id : value) (state : dict) (tm : times) : M S value :=
  zoom (fun db => Locals (VStr "") state db) (fun st _ => store st)
    (send_json (Status "processing" (Msg (VStr "Processing your question..."))
                  None);;
     try_except
       (workflow_turn r session_id question user_id state tm)
       (fun e => send_json (Error (ErrStr e)));;
     st ← read;
     mret (full_response st)).

(** The text that the placeholder streams. *)
Definition placeholder_response (question : string) : string :=
  "I received your question: '" +:+ question +:+ "'. "
  +:+ "This is a placeholder response for testing. "
  +:+ "Connect Databricks credentials to enable the full workflow.".

(** [stream_response_placeholder]: the same protocol without the
    workflow.  [full_response] accumulates the tokens sent. *)
Definition stream_response_placeholder (session_id question : string)
    (user_id : value) (state : dict) (tm : times) : M S value :=
  let words := PyStr.split (placeholder_response question) in
  let full_response := PyStr.concat (PyStr.spaced words) in
  let response := VStr (PyStr.strip full_response) in
  zoom (fun db => Locals (VStr full_response) state db) (fun st _ => store st)
    (send_json (Status "processing" (Msg (VStr "Processing your question..."))
                  None);;
     stream_words words;;
     send_json (Stream "" true);;
     send_json (Complete response session_id (get state "turn_number" (VInt 1))
                  (<["timestamp" := VStr (at_complete tm)]>
                     (<["mode" := VStr "placeholder"]> ∅)));;
     match storage with
     | Some sb =>
         try_except
           (turn_number ← lift (py_add_one (get state "turn_number" (VInt 0)));
            storage_call
              (save_turn sb session_id turn_number question response state
                 (Some {["placeholder" := VBool true]}) (at_save_turn tm));;
            storage_call
              (save_session sb session_id user_id
                 (<["turn_number" := VInt turn_number]> state)
                 (turn_title question turn_number) (at_save_session tm)))
           (fun _ => mret tt)
     | None => mret tt
     end;;
     mret response).

(** [USE_REAL_WORKFLOW] *)
Definition USE_REAL_WORKFLOW : bool := true.

(** [stream_response]: the workflow, or the placeholder when the workflow
    modules cannot be imported ([ImportError]). *)
Definition stream_response (workflow_importable : bool) (r : run)
    (session_id question : string) (user_id : value) (state : dict)
    (tm : times) : M S value :=
  if USE_REAL_WORKFLOW then
    if workflow_importable then
      stream_response_workflow r session_id question user_id state tm
    else stream_response_placeholder session_id question user_id state tm
  else stream_response_placeholder session_id question user_id state tm.

End Relay.

(** ** The websocket endpoints *)

(** The value of the "session_id" key of a frame, as far as [websocket_chat]
    tells values apart: a string, or a JSON array or object, which Python
    cannot hash and so cannot use as a dictionary key.  A frame whose
    "session_id" is [null], [false] or 0 is handled as a frame without the
    key (all of them get a fresh id).  [true] and the numbers other than 0
    are not modelled: they are hashable and go through the endpoint as a
    string does. *)
Inductive session_key : Type :=
| KeyStr (s : string)
| KeyList (l : list value)
| KeyDict (d : dict).

Definition key_value (k : session_key) : value :=
  match k with
  | KeyStr s => VStr s
  | KeyList l => VList l
  | KeyDict d => VDict d
  end.

(** An inbound frame, after [receive_json].  A field is [None] when the
    frame has no such key.  [type], [user_id] and [question] are any JSON
    value; [user_email], which is only passed on to the workflow, is a
    string. *)
Record inbound : Type := Inbound {
  in_type : option value;
  in_session_id : option session_key;
  in_user_id : option value;
  in_user_email : option string;
  in_question : option value
}.

(** What handling one frame reads from outside: the identifier that
    [uuid.uuid4()] would give, and the clock. *)
Record message_env : Type := MessageEnv {
  uuid4 : string;
  clock : times
}.

(** One [await websocket.receive_json()]: a frame, or the exception it
    raises ([WebSocketDisconnect] when the client is gone). *)
Inductive received : Type :=
| Receive (data : inbound) (env : message_env)
| ReceiveRaises (e : exn).

(** How a connection coroutine stands after the frames given: waiting in
    [receive_json] for the next frame, or ended. *)
Inductive connection : Type := Open | Closed.

Section Endpoints.

Context {S : Type}.
Variable storage : option (StorageBackend S).

(** The workflow service: the events it yields for a question, a session
    id, a user id, a user email and the existing state. *)
Variable run_workflow : string -> string -> value -> option string -> dict -> run.

(** Whether the workflow modules can be imported. *)
Variable workflow_importable : bool.

(** The process state that the endpoints share: the registry of the global
    [manager] and the store behind the global [storage]. *)
Record server : Type := Server {
  active_connections : ConnectionManager.registry;
  db : S
}.

(** The local variables of a connection coroutine ([session_id] in
    [websocket_chat], [state] in [websocket_chat_session]) and the
    server. *)
Record conn : Type := Conn {
  session_id : option session_key;
  state : dict;
  srv : server
}.

Definition set_session_id (key : session_key) : M conn unit :=
  fun c => ([], Conn (Some key) (state c) (srv c), inr tt).

Definition set_state (d : dict) : M conn unit :=
  fun c => ([], Conn (session_id c) d (srv c), inr tt).

Definition on_registry
    (f : ConnectionManager.registry -> ConnectionManager.registry)
    : M conn unit :=
  fun c =>
    ([], Conn (session_id c) (state c)
           (Server (f (active_connections (srv c))) (db (srv c))), inr tt).

(** A call of a coroutine on the store. *)
Definition on_store {A} (m : M S A) : M conn A :=
  zoom (fun c => db (srv c))
    (fun d c => Conn (session_id c) (state c)
                  (Server (active_connections (srv c)) d)) m.

(** The four assignments [state["current_question"] = question], ... *)
Definition update_state (question sid : string) (user_id : value)
    (st : dict) : dict :=
  <["user_id" := user_id]>
    (<["session_id" := VStr sid]>
       (<["user_question" := VStr question]>
          (<["current_question" := VStr question]> st))).

(** [try: await stream_response(...) except Exception as e:
    send_json({"type": "error", "error": str(e)})] *)
Definition respond (sid question : string) (user_id : value)
    (user_email : option string) (st : dict) (tm : times) : M conn unit :=
  try_except
    (on_store
       (stream_response storage workflow_importable
          (run_workflow question sid user_id user_email st)
          sid question user_id st tm);;
     mret tt)
    (fun e => send_json (Error (ErrStr e))).

(** [state = {}] and, if there is a storage, [try: existing_session = await
    storage.get_session(session_id); if existing_session: state =
    existing_session.get("state", {})  except Exception: pass]. *)
Definition load_state (sid : string) : M conn unit :=
  set_state ∅;;
  match storage with
  | Some sb =>
      try_except
        (existing_session ← on_store (silent (get_session sb sid));
         match existing_session with
         | Some row => set_state (s_state row)
         | None => mret tt
         end)
        (fun _ => mret tt)
  | None => mret tt
  end.

(** The body of the [while True] of [websocket_chat] for one frame. *)
Definition chat_frame (websocket : nat) (data : inbound) (env : message_env)
    : M conn unit :=
  let msg_type := default (VStr "message") (in_type data) in
  if str_eq msg_type "ping" then send_json Pong
  else if str_eq msg_type "message" then
    let key :=
      match in_session_id data with
      | Some k => if truthy (key_value k) then k else KeyStr (uuid4 env)
      | None => KeyStr (uuid4 env)
      end in
    set_session_id key;;
    let user_id := default (VStr "anonymous") (in_user_id data) in
    let user_email := in_user_email data in
    question ← lift (py_strip (default (VStr "") (in_question data)));
    if String.eqb question "" then
      send_json (Error (ErrValue (VStr "Question cannot be empty")))
    else
      match key with
      | KeyStr sid =>
          on_registry (ConnectionManager.assign sid websocket);;
          load_state sid;;
          c ← read;
          let st := update_state question sid user_id (state c) in
          set_state st;;
          respond sid question user_id user_email st (clock env)
      | KeyList _ | KeyDict _ =>
          (* [manager.active_connections[session_id] = websocket] *)
          raise TypeError
      end
  else mret tt.

(** The [while True] loop over the frames received. *)
Fixpoint chat_loop (websocket : nat) (inputs : list received) : M conn unit :=
  match inputs with
  | [] => mret tt
  | Receive data env :: rest =>
      chat_frame websocket data env;; chat_loop websocket rest
  | ReceiveRaises e :: _ => raise e
  end.

(** [manager.disconnect(session_id)], that is
    [self.active_connections.pop(session_id, None)], for the local
    [session_id] of [websocket_chat]: [pop] on an empty dictionary returns
    the default without hashing the key, and on any other dictionary it
    raises [TypeError] for a key that cannot be hashed. *)
Definition disconnect_key (key : session_key) : M conn unit :=
  match key with
  | KeyStr sid => on_registry (ConnectionManager.disconnect sid)
  | KeyList _ | KeyDict _ =>
      c ← read;
      match active_connections (srv c) with
      | [] => mret tt
      | _ :: _ => raise TypeError
      end
  end.

(** [if session_id: manager.disconnect(session_id)] *)
Definition disconnect_if_set : M conn unit :=
  c ← read;
  match session_id c with
  | Some key =>
      if truthy (key_value key) then disconnect_key key else mret tt
  | None => mret tt
  end.

(** [websocket_chat] on the frames [inputs]: both [except] clauses
    unregister the session id, if one was assigned, and end.  An exception
    that [manager.disconnect] raises there leaves the coroutine. *)
Definition websocket_chat (websocket : nat) (inputs : list received)
    : M server connection :=
  zoom (fun s => Conn None ∅ s) (fun c _ => srv c)
    (try_except
       (chat_loop websocket inputs;; mret Open)
       (fun _ => disconnect_if_set;; mret Closed)).

(** The body of the [while True] of [websocket_chat_session] for one
    frame: the session id is that of the path, and [state] is the local
    dictionary of the connection. *)
Definition session_frame (sid : string) (data : inbound) (env : message_env)
    : M conn unit :=
  let msg_type := default (VStr "message") (in_type data) in
  if str_eq msg_type "ping" then send_json Pong
  else if str_eq msg_type "message" then
    c ← read;
    let user_id :=
      match in_user_id data with
      | Some u => u
      | None => get (state c) "user_id" (VStr "anonymous")
      end in
    let user_email := in_user_email data in
    question ← lift (py_strip (default (VStr "") (in_question data)));
    if String.eqb question "" then
      send_json (Error (ErrValue (VStr "Question cannot be empty")))
    else
      let st := update_state question sid user_id (state c) in
      set_state st;;
      respond sid question user_id user_email st (clock env)
  else mret tt.

Fixpoint session_loop (sid : string) (inputs : list received) : M conn unit :=
  match inputs with
  | [] => mret tt
  | Receive data env :: rest =>
      session_frame sid data env;; session_loop sid rest
  | ReceiveRaises e :: _ => raise e
  end.

(** The history sent when a stored session is resumed. *)
Definition history_of (turns : list turn) : list (Z * string * string) :=
  map (fun t => (t_turn_number t, t_user_question t, t_agent_response t)) turns.

(** [websocket_chat_session] on the frames [inputs]. *)
Definition websocket_chat_session (websocket : nat) (sid : string)
    (inputs : list received) : M server connection :=
  zoom (fun s => Conn (Some (KeyStr sid)) ∅ s) (fun c _ => srv c)
    (try_except
       (on_registry (ConnectionManager.assign sid websocket);;
        match storage with
        | Some sb =>
            try_except
              (existing_session ← on_store (silent (get_session sb sid));
               match existing_session with
               | Some row =>
                   set_state (s_state row);;
                   turns ← on_store (silent (get_turns sb sid None));
                   send_json (History sid (history_of turns))
               | None => mret tt
               end)
              (fun _ => mret tt)
        | None => mret tt
        end;;
        session_loop sid inputs;;
        mret Open)
       (fun _ => on_registry (ConnectionManager.disconnect sid);; mret Closed)).

End Endpoints.

(** ** The query executor ([DatabricksStorage._execute_sql]) *)

Module QueryExecutor.

(** The outcome of one HTTP request of the executor: the request (or the
    reading of its JSON body) raises [aiohttp.ClientError], or it gives a
    status code and a JSON object. *)
Inductive http : Type :=
| Fails
| Responds (status : Z) (result : dict).

(** What the executor does to the outside, in order. *)
Inductive io : Type :=
| Post                          (* [session.post(sql_api_url, json=payload)] *)
| Poll (statement_id : value)   (* [session.get(sql_api_url + statement_id)] *)
| Sleep (seconds : Z).          (* [asyncio.sleep(seconds)] *)

(** The requests made so far and the log of what was done. *)
Record client : Type := Client {
  requests : nat;
  log : list io
}.

Definition start : client := Client 0 [].

Definition max_retries : nat := 3.
Definition base_delay : Z := 2.

(** [result.get("status", {}).get(key, dflt)] *)
Definition status_field (result : dict) (key : string) (dflt : value)
    : exn + value :=
  match get result "status" (VDict ∅) with
  | VDict status => inr (get status key dflt)
  | VNone | VBool _ | VInt _ | VStr _ | VList _ => inl AttributeError
  end.

(** [d.get(key, {})] where a dictionary is expected next. *)
Definition sub_dict (d : dict) (key : string) : exn + dict :=
  match get d key (VDict ∅) with
  | VDict x => inr x
  | VNone | VBool _ | VInt _ | VStr _ | VList _ => inl AttributeError
  end.

(** [[col["name"] for col in columns]], for column names that are
    strings. *)
Fixpoint column_names (columns : list value) : exn + list string :=
  match columns with
  | [] => inr []
  | VDict col :: rest =>
      match col !! "name" with
      | Some (VStr name) =>
          match column_names rest with
          | inr names => inr (name :: names)
          | inl e => inl e
          end
      | _ => inl TypeError
      end
  | _ :: _ => inl TypeError
  end.

(** [dict(zip(columns, row))]: the pairs are stored in order, so the last
    column of a name wins. *)
Definition zip_row (columns : list string) (row : list value) : dict :=
  fold_left (fun d cv => <[fst cv := snd cv]> d) (combine columns row) ∅.

(** The elements of a value that is iterated.  The results of the
    statement API have lists here; for anything else the model raises
    [TypeError] (Python would iterate the characters of a string or the keys
    of a dictionary). *)
Definition as_list (v : value) : exn + list value :=
  match v with
  | VList l => inr l
  | _ => inl TypeError
  end.

Fixpoint zip_rows (columns : list string) (data : list value)
    : exn + list dict :=
  match data with
  | [] => inr []
  | row :: rest =>
      match as_list row, zip_rows columns rest with
      | inr r, inr rs => inr (zip_row columns r :: rs)
      | inl e, _ => inl e
      | _, inl e => inl e
      end
  end.

(** The rows of a result in state [SUCCEEDED]. *)
Definition parse_rows (result : dict) : exn + list dict :=
  match sub_dict result "manifest" with
  | inl e => inl e
  | inr manifest =>
      match sub_dict manifest "schema" with
      | inl e => inl e
      | inr schema =>
          match as_list (get schema "columns" (VList [])) with
          | inl e => inl e
          | inr cols =>
              match column_names cols with
              | inl e => inl e
              | inr columns =>
                  match sub_dict result "result" with
                  | inl e => inl e
                  | inr res =>
                      match as_list (get res "data_array" (VList [])) with
                      | inl e => inl e
                      | inr data => zip_rows columns data
                      end
                  end
              end
          end
      end
  end.

Section Executor.

(** The network: the outcome of the [n]-th request of this call. *)
Variable net : nat -> http.

Definition sleep (seconds : Z) : Db client unit :=
  fun c => (Client (requests c) (log c ++ [Sleep seconds]), inr tt).

(** One request: logged, counted, and answered by the network. *)
Definition request (what : io) : Db client (Z * dict) :=
  fun c =>
    let c' := Client (Datatypes.S (requests c)) (log c ++ [what]) in
    match net (requests c) with
    | Fails => (c', inl ClientError)
    | Responds status result => (c', inr (status, result))
    end.

(** [state in ("PENDING", "RUNNING")] *)
Definition pending (state : value) : bool :=
  str_eq state "PENDING" || str_eq state "RUNNING".

(** The polling loop: [polls] is what is left of [max_polls]. *)
Fixpoint poll (polls : nat) (statement_id state : value) (result : dict)
    : Db client (value * dict) :=
  if pending state then
    match polls with
    | O => mret (state, result)
    | Datatypes.S polls' =>
        sleep 2;;
        response ← request (Poll statement_id);
        state' ← db_lift (status_field (snd response) "state" (VStr ""));
        poll polls' statement_id state' (snd response)
    end
  else mret (state, result).

(** The body of the [try]: submit, poll, classify. *)
Definition submit_and_poll (timeout : Z) : Db client (list dict) :=
  response ← request Post;
  let result := snd response in
  if negb (fst response =? 200) then db_raise (SqlApiError (VDict result))
  else
    state ← db_lift (status_field result "state" (VStr ""));
    let statement_id := get_none result "statement_id" in
    let max_polls := Z.to_nat (timeout / 2) in
    final ← poll max_polls statement_id state result;
    if str_eq (fst final) "SUCCEEDED" then db_lift (parse_rows (snd final))
    else if str_eq (fst final) "FAILED" then
      error ← db_lift (status_field (snd final) "error" (VDict ∅));
      db_raise (SqlExecutionFailed error)
    else db_raise (UnexpectedSqlState (fst final)).

(** [for attempt in range(max_retries)], from [attempt] on, with
    [remaining] attempts left; [except aiohttp.ClientError] sleeps and
    goes on, or re-raises on the last attempt; any other exception
    leaves the loop. *)
Fixpoint attempts (attempt remaining : nat) (timeout : Z)
    : Db client (list dict) :=
  match remaining with
  | O => mret []
  | Datatypes.S remaining' =>
      db_try (submit_and_poll timeout)
        (fun e =>
           match e with
           | ClientError =>
               if (attempt <? max_retries - 1)%nat then
                 sleep (base_delay * 2 ^ Z.of_nat attempt);;
                 attempts (Datatypes.S attempt) remaining' timeout
               else db_raise ClientError
           | _ => db_raise e
           end)
  end.

(** [_execute_sql(sql_query, timeout)] *)
Definition execute_sql (timeout : Z) : Db client (list dict) :=
  attempts 0 max_retries timeout.

End Executor.

End QueryExecutor.

(** ** The Databricks store ([DatabricksStorage]) *)

Module Databricks.

(** The two Delta tables.  A row keeps the decoded values: the state and
    the metadata are the dictionaries that [json.dumps] wrote, and a text
    escaped by [replace("'", "''")] is the text itself.  Session ids and
    user ids are interpolated as they are; the model is that of ids
    without a quote character. *)
Record tables : Type := Tables {
  sessions : list session;
  turns : list turn
}.

(** The statements that the storage operations build. *)
Inductive statement : Type :=
| MergeSession (session_id : string) (user_id : value) (title : string)
               (state : dict) (now : string)
| SelectSession (session_id : string)
| DeleteTurns (session_id : string)
| DeleteSession (session_id : string)
| InsertTurn (row : turn)
| SelectTurns (session_id : string) (limit : option Z).

(** The rows that a statement returns. *)
Inductive rows : Type :=
| NoRows
| SessionRows (result : list session)
| TurnRows (result : list turn).

Definition has_id (session_id : string) (row : session) : bool :=
  String.eqb (s_session_id row) session_id.

Definition of_session (session_id : string) (row : turn) : bool :=
  String.eqb (t_session_id row) session_id.

(** [WHEN MATCHED THEN UPDATE SET state = ..., title = ..., updated_at =
    ...] on one row. *)
Definition merge_update (session_id title : string) (state : dict)
    (now : string) (row : session) : session :=
  if has_id session_id row then
    Session (s_session_id row) (s_user_id row) title state
      (s_created_at row) now
  else row.

(** [ORDER BY turn_number ASC]: insertion in a sorted list, after the rows
    of the same number. *)
Fixpoint insert_turn (row : turn) (sorted : list turn) : list turn :=
  match sorted with
  | [] => [row]
  | r :: rest =>
      if t_turn_number row <? t_turn_number r then row :: r :: rest
      else r :: insert_turn row rest
  end.

Definition order_by_turn_number (l : list turn) : list turn :=
  fold_left (fun sorted row => insert_turn row sorted) l [].

(** What the warehouse does with a statement. *)
Definition run_statement (q : statement) (t : tables) : tables * rows :=
  match q with
  | MergeSession session_id user_id title state now =>
      if existsb (has_id session_id) (sessions t) then
        (Tables (map (merge_update session_id title state now) (sessions t))
           (turns t), NoRows)
      else
        (Tables (sessions t ++ [Session session_id user_id title state now now])
           (turns t), NoRows)
  | SelectSession session_id =>
      (t, SessionRows (List.filter (has_id session_id) (sessions t)))
  | DeleteTurns session_id =>
      (Tables (sessions t)
         (List.filter (fun r => negb (of_session session_id r)) (turns t)),
       NoRows)
  | DeleteSession session_id =>
      (Tables (List.filter (fun r => negb (has_id session_id r)) (sessions t))
         (turns t), NoRows)
  | InsertTurn row => (Tables (sessions t) (turns t ++ [row]), NoRows)
  | SelectTurns session_id limit =>
      let found :=
        order_by_turn_number (List.filter (of_session session_id) (turns t)) in
      (t, TurnRows match limit with
                   | Some n => firstn (Z.to_nat n) found
                   | None => found
                   end)
  end.

Section Storage.

(** [self._execute_sql]: how a statement is executed against the
    tables. *)
Variable execute_sql : statement -> Db tables rows.

(** [save_session]: one MERGE; [title or ""] is what it writes. *)
Definition save_session (session_id : string) (user_id : value)
    (state : dict) (title : option string) (now : string) : Db tables unit :=
  let title_escaped := default "" title in
  execute_sql (MergeSession session_id user_id title_escaped state now);;
  mret tt.

(** [get_session]: the first row found, if any. *)
Definition get_session (session_id : string) : Db tables (option session) :=
  results ← execute_sql (SelectSession session_id);
  match results with
  | SessionRows (row :: _) => mret (Some row)
  | _ => mret None
  end.

(** [delete_session] *)
Definition delete_session (session_id : string) : Db tables bool :=
  execute_sql (DeleteTurns session_id);;
  execute_sql (DeleteSession session_id);;
  mret true.

(** [save_turn]: [agent_response.replace] needs a string. *)
Definition save_turn (session_id : string) (turn_number : Z)
    (user_question : string) (agent_response : value)
    (state_snapshot : dict) (metadata : option dict) (now : string)
    : Db tables unit :=
  response ← db_lift (match agent_response with
                   | VStr r => inr r
                   | _ => inl AttributeError
                   end);
  execute_sql
    (InsertTurn (Turn session_id turn_number user_question response
                   state_snapshot (default ∅ metadata) now));;
  mret tt.

(** [get_turns]: [limit_clause] is empty for no limit and for 0. *)
Definition get_turns (session_id : string) (limit : option Z)
    : Db tables (list turn) :=
  let limit_clause :=
    match limit with
    | Some n => if n =? 0 then None else Some n
    | None => None
    end in
  results ← execute_sql (SelectTurns session_id limit_clause);
  match results with
  | TurnRows found => mret found
  | _ => mret []
  end.

Definition backend : StorageBackend tables :=
  MkStorage tables save_session get_session delete_session save_turn
    get_turns.

End Storage.

(** A warehouse that executes every statement it is given. *)
Definition warehouse (q : statement) : Db tables rows :=
  fun t => match run_statement q t with (t', r) => (t', inr r) end.

(** The storage backend over that warehouse. *)
Definition storage : StorageBackend tables := backend warehouse.

Definition empty : tables := Tables [] [].

End Databricks.

(** ** The vocabulary of the statements *)

(** A [narrative] event with the content [content] (and any other keys). *)
Definition narrative_event (content : value) (rest : dict) : dict :=
  <["type" := VStr "narrative"]> (<["content" := content]> rest).

(** A final state with the greeting [greeting] (and any other fields). *)
Definition greeting_state (greeting : value) (rest : dict) : dict :=
  <["greeting_response" := greeting]> rest.

Section Observations.

Context {S : Type}.

(** The frames that the event loop sends for one event. *)
Definition frames_of_event (event : dict) (st : locals (S:=S)) : list frame :=
  fst (fst (relay_event event st)).

(** The frames that the [workflow_end] branch sends for a final state. *)
Definition frames_of_end (fs : dict) (st : locals (S:=S)) : list frame :=
  fst (fst (relay_workflow_end fs st)).

(** The frames of a turn: after the [status] frame, those of the events;
    then the end of the stream and [complete], or [error] if an event
    handler, the event sequence or the turn number raised. *)
Definition turn_frames (r : run) (sid : string) (state : dict) (tm : times)
    (db : S) : list frame :=
  Status "processing" (Msg (VStr "Processing your question...")) None ::
  match relay_events r (Locals (VStr "") state db) with
  | (fs, st, inr _) =>
      match py_add_one (get state "turn_number" (VInt 0)) with
      | inr n =>
          fs ++ [Stream "" true;
                 Complete (full_response st) sid (VInt n)
                   (complete_metadata (at_complete tm) (final_state st))]
      | inl e => fs ++ [Stream "" true; Error (ErrStr e)]
      end
  | (fs, _, inl e) => fs ++ [Error (ErrStr e)]
  end.

End Observations.

(** A [workflow_end] event with the final state [fs] (and any other keys). *)
Definition workflow_end_event (fs rest : dict) : dict :=
  <["type" := VStr "workflow_end"]> (<["state" := VDict fs]> rest).

(** The special fields in the priority order of the specification, each
    with the clarification type it stands for (none for the greeting). *)
Definition special_fields : list (string * option string) :=
  [("greeting_response", None);
   ("domain_followup_question", Some "domain");
   ("dataset_followup_question", Some "dataset");
   ("sql_followup_question", Some "sql")].

(** The special field that takes effect: the first one in priority order
    whose value is true. *)
Definition selected (fs : dict) : option (string * option string) :=
  find (fun field => truthy (get_none fs (fst field))) special_fields.

Definition workflow_start_event : dict := {["type" := VStr "workflow_start"]}.

(** An [error] event with the text [err] (and any other keys). *)
Definition error_event (err : value) (rest : dict) : dict :=
  <["type" := VStr "error"]> (<["error" := err]> rest).

(** The frame [data] with its [type] field set, or removed. *)
Definition with_type (t : option value) (data : inbound) : inbound :=
  Inbound t (in_session_id data) (in_user_id data) (in_user_email data)
    (in_question data).

(** [data.get("question", "").strip()] *)
Definition question_text (data : inbound) : exn + string :=
  py_strip (default (VStr "") (in_question data)).

(** The first frame of every turn. *)
Definition processing : frame :=
  Status "processing" (Msg (VStr "Processing your question...")) None.

(** The reply to a blank question. *)
Definition empty_question : frame :=
  Error (ErrValue (VStr "Question cannot be empty")).

Definition no_workflow : string -> string -> value -> option string -> dict -> run :=
  fun _ _ _ _ _ => Run [] None.

Definition an_env : message_env := MessageEnv "uuid-1" (Times "t0" "t1" "t2").

(** The websockets that a broadcast reaches: those before the first one
    whose write fails. *)
Fixpoint reached (writable : nat -> bool) (websockets : list nat) : list nat :=
  match websockets with
  | [] => []
  | w :: ws => if writable w then w :: reached writable ws else []
  end.

(** The tables after an operation, and its result. *)
Definition after {A} (op : Db Databricks.tables A) (t : Databricks.tables)
    : Databricks.tables :=
  fst (op t).

Definition result {A} (op : Db Databricks.tables A) (t : Databricks.tables)
    : exn + A :=
  snd (op t).

(** The rows of a session and of its turns. *)
Definition session_rows (sid : string) (t : Databricks.tables) : list session :=
  List.filter (Databricks.has_id sid) (Databricks.sessions t).

Definition turn_rows (sid : string) (t : Databricks.tables) : list turn :=
  List.filter (Databricks.of_session sid) (Databricks.turns t).

(** The number of submissions in a log of the executor. *)
Definition submissions (l : list QueryExecutor.io) : nat :=
  length (List.filter (fun a => match a with
                                | QueryExecutor.Post => true
                                | _ => false
                                end) l).

(** A statement that is pending after its submission. *)
Definition pending_response : dict :=
  <["statement_id" := VStr "st-1"]>
    {["status" := VDict {["state" := VStr "PENDING"]}]}.

(** The result of a statement that succeeded with one row. *)
Definition succeeded_response : dict :=
  <["status" := VDict {["state" := VStr "SUCCEEDED"]}]>
    (<["manifest" :=
         VDict {["schema" :=
                   VDict {["columns" := VList [VDict {["name" := VStr "health"]}]]}]}]>
       {["result" := VDict {["data_array" := VList [VList [VStr "1"]]]}]}).

(** A network that accepts the submission, fails the first poll, and works
    from then on. *)
Definition poll_fails_once (n : nat) : QueryExecutor.http :=
  match n with
  | O => QueryExecutor.Responds 200 pending_response
  | Datatypes.S O => QueryExecutor.Fails
  | _ => QueryExecutor.Responds 200 succeeded_response
  end.

(** A workflow that answers every question with the same narrative. *)
Definition answering : string -> string -> value -> option string -> dict -> run :=
  fun question sid uid email st =>
    Run [workflow_start_event;
         narrative_event (VStr "Total spend is 42.") ∅;
         workflow_end_event {["question_type" := VStr "what"]} ∅]
      None.

(** A [message] frame with a question, from user [u1]. *)
Definition message_frame (sid : option string) (question : string) : inbound :=
  Inbound (Some (VStr "message")) (option_map KeyStr sid) (Some (VStr "u1"))
    None (Some (VStr question)).

(** The turn numbers stored for a session, in the order of their saving. *)
Definition stored_turn_numbers (sid : string) (t : Databricks.tables) : list Z :=
  map t_turn_number (turn_rows sid t).

(** The turn numbers that the [complete] frames carry. *)
Definition completed_turn_numbers (fs : list frame) : list value :=
  flat_map (fun f => match f with
                     | Complete _ _ n _ => [n]
                     | _ => []
                     end) fs.

(** What a turn stores: the turn row, then the session with the turn
    number in its state. *)
Definition store_turn (sid question : string) (uid : value) (n : Z)
    (response : string) (snapshot metadata : dict) (tm : times)
    (t : Databricks.tables) : Databricks.tables :=
  fst (Databricks.run_statement
         (Databricks.MergeSession sid uid (default "" (turn_title question n))
            (<["turn_number" := VInt n]> snapshot) (at_save_session tm))
         (fst (Databricks.run_statement
                 (Databricks.InsertTurn
                    (Turn sid n question response snapshot metadata
                       (at_save_turn tm))) t))).

(** What a turn can do to the store: nothing, or store a turn whose number
    is one more than the turn number of the state it was given. *)
Definition turn_effect (sid question : string) (uid : value) (state : dict)
    (tm : times) (t t' : Databricks.tables) : Prop :=
  t' = t
  \/ exists n response snapshot metadata,
      py_add_one (get state "turn_number" (VInt 0)) = inr n
      /\ t' = store_turn sid question uid n response snapshot metadata tm t.

(** The number of turns stored for a session, and the numbers 1 to [n]. *)
Definition turn_count (sid : string) (t : Databricks.tables) : nat :=
  length (turn_rows sid t).

Definition numbered (n : nat) : list Z := map Z.of_nat (seq 1 n).

(** The invariant of the store under [/chat]: for every session, the turns
    stored carry the numbers 1 to N in the order of their saving, every row
    of the session has N as the turn number of its state, and a session
    without a row has no turn. *)
Definition sequential (t : Databricks.tables) : Prop :=
  forall sid,
    stored_turn_numbers sid t = numbered (turn_count sid t)
    /\ List.Forall
         (fun row =>
            s_state row !! "turn_number"
            = Some (VInt (Z.of_nat (turn_count sid t))))
         (session_rows sid t)
    /\ (session_rows sid t = [] -> turn_count sid t = 0%nat).

(** The session id that [websocket_chat] uses for a frame:
    [data.get("session_id") or str(uuid.uuid4())]. *)
Definition chosen_session_id (data : inbound) (env : message_env)
    : session_key :=
  match in_session_id data with
  | Some k => if truthy (key_value k) then k else KeyStr (uuid4 env)
  | None => KeyStr (uuid4 env)
  end.

(** The order of [ORDER BY turn_number ASC]. *)
Definition turn_le (a b : turn) : Prop := t_turn_number a <= t_turn_number b.

(** All the turns of a session as [get_turns] orders them. *)
Definition ordered_turns (sid : string) (t : Databricks.tables) : list turn :=
  Databricks.order_by_turn_number (turn_rows sid t).

(** The state with which a connection to [/chat/{session_id}] starts, and
    the frames it sends on opening: those of a stored session are its state
    and one [history] frame with its turns; a session that is not stored
    starts empty and gets no frame. *)
Definition resumed_state (sid : string) (t : Databricks.tables) : dict :=
  match head (session_rows sid t) with
  | Some row => s_state row
  | None => ∅
  end.

Definition resumed_history (sid : string) (t : Databricks.tables)
    : list frame :=
  match head (session_rows sid t) with
  | Some _ => [History sid (history_of (ordered_turns sid t))]
  | None => []
  end.

(** The local variables of the relay without the store. *)
Definition forget_store {S : Type} (st : locals (S:=S)) : locals (S:=unit) :=
  Locals (full_response st) (final_state st) tt.

(** The words that the placeholder streams, the metadata of its [complete]
    frame and the metadata of the turn it stores. *)
Definition placeholder_words (question : string) : list string :=
  PyStr.split (placeholder_response question).

Definition placeholder_metadata (tm : times) : dict :=
  <["timestamp" := VStr (at_complete tm)]> (<["mode" := VStr "placeholder"]> ∅).

Definition placeholder_turn_metadata : dict := {["placeholder" := VBool true]}.

(** The executor after one submission, and what [k] polls of a statement
    add to its log: each poll is preceded by a sleep of 2 seconds. *)
Definition posted (c : QueryExecutor.client) : QueryExecutor.client :=
  QueryExecutor.Client (Datatypes.S (QueryExecutor.requests c))
    (QueryExecutor.log c ++ [QueryExecutor.Post]).

Definition polls_of (statement_id : value) (k : nat) : list QueryExecutor.io :=
  List.concat
    (List.repeat [QueryExecutor.Sleep 2; QueryExecutor.Poll statement_id] k).

(** The outcome of a statement that ended in [state], by its last
    response [result] with the status object [status]. *)
Definition outcome (state : value) (status result : dict) : exn + list dict :=
  if str_eq state "SUCCEEDED" then QueryExecutor.parse_rows result
  else if str_eq state "FAILED" then
    inl (SqlExecutionFailed (get status "error" (VDict ∅)))
  else inl (UnexpectedSqlState state).

(** The response to a statement that succeeded with the columns [names]
    and the rows [data]. *)
Definition succeeded_with (names : list string) (data : list (list value))
    : dict :=
  <["status" := VDict {["state" := VStr "SUCCEEDED"]}]>
    (<["manifest" :=
         VDict {["schema" :=
                   VDict {["columns" :=
                             VList (map (fun name =>
                                           VDict {["name" := VStr name]})
                                      names)]}]}]>
       {["result" := VDict {["data_array" := VList (map VList data)]}]}).

(** ** The workflow service ([WorkflowService]) *)

Module WorkflowService.

(** One event of [self._workflow.astream_events(...)] as [run_workflow]
    reads it: [event.get("type", "unknown")], [event.get("name", "")] and
    [event.get("data", {})].  Node names are strings and the data of a node
    is a dictionary, as the workflow has them. *)
Record stream_event : Type := StreamEvent {
  ev_type : string;
  ev_name : string;
  ev_data : dict
}.

(** The events of the workflow, in order, and the text [str(e)] of the
    exception that ends them if they end by raising. *)
Record stream : Type := Events {
  stream_events : list stream_event;
  stream_raises : option string
}.

(** [status_messages] *)
Definition status_messages : list (string * string) :=
  [("entry_router", "Analyzing your question...");
   ("navigation_controller", "Understanding intent and context...");
   ("router_agent", "Selecting relevant data sources...");
   ("strategy_planner_agent", "Planning analysis strategy...");
   ("drillthrough_planner_agent", "Performing detailed analysis...");
   ("narrative_agent", "Generating response...");
   ("followup_question_agent", "Suggesting follow-up questions...")].

(** [status_messages.get(node_name)] *)
Definition status_of (node_name : string) : option string :=
  option_map snd (find (fun entry => String.eqb (fst entry) node_name)
                    status_messages).

(** [_get_node_status_message(node_name, node_data)] *)
Definition get_node_status_message (node_name : string) (node_data : dict)
    : string :=
  if truthy (get_none node_data "requires_domain_clarification") then
    "Need clarification on which area to analyze..."
  else if truthy (get_none node_data "requires_dataset_clarification") then
    "Need clarification on which dataset to use..."
  else if truthy (get_none node_data "greeting_response") then
    "Responding to greeting..."
  else
    match status_of node_name with
    | Some message => message
    | None => "Processing " +:+ node_name +:+ "..."
    end.

(** [include_fields] *)
Definition include_fields : list string :=
  ["session_id"; "user_id"; "current_question"; "user_question";
   "question_type"; "rewritten_question"; "next_agent";
   "domain_selection"; "selected_dataset"; "functional_names";
   "greeting_response"; "narrative_response"; "followup_questions";
   "chart_spec"; "report_found"; "report_url"; "report_name";
   "requires_domain_clarification"; "domain_followup_question";
   "requires_dataset_clarification"; "dataset_followup_question";
   "needs_followup"; "sql_followup_question";
   "errors"; "nav_error_msg"; "user_friendly_message"].

(** [k in include_fields] and [v is not None] *)
Definition included (k : string) : bool :=
  existsb (String.eqb k) include_fields.

Definition is_not_none (v : value) : bool :=
  match v with
  | VNone => false
  | _ => true
  end.

(** [_sanitize_state_for_response(state)] *)
Definition sanitize_state_for_response (state : dict) : dict :=
  filter (fun kv => Is_true (included (fst kv) && is_not_none (snd kv))) state.

(** [_build_initial_state(question, session_id, user_id, user_email,
    existing_state)]; [now] is the clock reading of the timestamp. *)
Definition build_initial_state (question session_id : string) (user_id : value)
    (user_email : option string) (existing_state : option dict) (now : string)
    : dict :=
  let state :=
    match existing_state with
    | Some existing => if truthy (VDict existing) then existing else ∅
    | None => ∅
    end in
  let state := <["user_question" := VStr question]> state in
  let state := <["current_question" := VStr question]> state in
  let state := <["session_id" := VStr session_id]> state in
  let state := <["user_id" := user_id]> state in
  let state :=
    <["user_email" := match user_email with
                      | Some email => VStr email
                      | None => VNone
                      end]> state in
  let state := <["timestamp" := VStr now]> state in
  let state :=
    match state !! "user_question_history" with
    | Some _ => state
    | None => <["user_question_history" := VList []]> state
    end in
  match state !! "errors" with
  | Some _ => state
  | None => <["errors" := VList []]> state
  end.

(** [key in node_data and node_data[key]] *)
Definition present (node_data : dict) (key : string) : option value :=
  match node_data !! key with
  | Some v => if truthy v then Some v else None
  | None => None
  end.

(** What [run_workflow] yields for one event of the workflow. *)
Definition yielded (event : stream_event) : list dict :=
  let node_name := ev_name event in
  let node_data := ev_data event in
  if String.eqb (ev_type event) "node_end" then
    [<["type" := VStr "node_complete"]>
       (<["node" := VStr node_name]>
          {["status" := VStr (get_node_status_message node_name node_data)]})]
    ++ (if String.eqb node_name "narrative_agent" then
          let narrative := get node_data "narrative_response" (VStr "") in
          if truthy narrative then
            [<["type" := VStr "narrative"]> {["content" := narrative]}]
          else []
        else [])
    ++ match present node_data "sql_result" with
       | Some v => [<["type" := VStr "sql_result"]> {["data" := v]}]
       | None => []
       end
    ++ match present node_data "chart_spec" with
       | Some v => [<["type" := VStr "chart"]> {["spec" := v]}]
       | None => []
       end
  else if String.eqb (ev_type event) "workflow_end" then
    [<["type" := VStr "workflow_end"]>
       {["state" := VDict (sanitize_state_for_response node_data)]}]
  else [].

Section Service.

(** Whether the service is initialised when the events are asked for:
    [self._initialized], or else the result of [await self.initialize()]. *)
Variable initialized : bool.

(** [self._workflow.astream_events(initial_state, config)], for the
    initial state and the thread id of [config]. *)
Variable astream_events : dict -> string -> stream.

(** The clock reading of [_build_initial_state]. *)
Variable now : string.

(** [run_workflow(question, session_id, user_id, user_email,
    existing_state)], with no [thread_id]: the events it yields.  An
    exception of the workflow is caught and yielded as an [error] event. *)
Definition run_workflow (question session_id : string) (user_id : value)
    (user_email : option string) (existing_state : dict) : run :=
  if negb initialized then
    Run [<["type" := VStr "error"]>
           {["error" := VStr "Workflow not initialized. Check server logs."]}]
      None
  else
    let initial_state :=
      build_initial_state question session_id user_id user_email
        (Some existing_state) now in
    let events := astream_events initial_state session_id in
    Run ([<["type" := VStr "workflow_start"]>
            (<["session_id" := VStr session_id]>
               {["question" := VStr question]})]
         ++ flat_map yielded (stream_events events)
         ++ match stream_raises events with
            | Some text =>
                [<["type" := VStr "error"]> {["error" := VStr text]}]
            | None => []
            end)
      None.

End Service.

End WorkflowService.

(** The [data] frames for the data of a node: the SQL result, then the
    chart, each when the node has one. *)
Definition data_frames (node_data : dict) : list frame :=
  match WorkflowService.present node_data "sql_result" with
  | Some v => [DataSqlResult v]
  | None => []
  end
  ++ match WorkflowService.present node_data "chart_spec" with
     | Some v => [DataChart v]
     | None => []
     end.

(** The [status] frames of the workflow's start and of a node. *)
Definition started : frame :=
  Status "started" (Msg (VStr "Workflow started...")) None.

Definition node_status (node_name : string) (node_data : dict) : frame :=
  Status "processing"
    (Msg (VStr (WorkflowService.get_node_status_message node_name node_data)))
    (Some (VStr node_name)).

(** The text of the service that is not initialised. *)
Definition not_initialized : value :=
  VStr "Workflow not initialized. Check server logs.".

(** ** The REST router of the sessions ([app.routers.sessions]) *)

Module SessionsRouter.

(** What an endpoint raises: an [HTTPException] with its status code and
    detail, or any other exception. *)
Inductive raised : Type :=
| HTTPException (status_code : Z) (detail : error_text)
| Uncaught (e : exn).

(** An endpoint on the store: it returns or raises. *)
Definition Ep (St A : Type) : Type := St -> St * (raised + A).

Definition ep_ret {St A} (a : A) : Ep St A := fun st => (st, inr a).

Definition ep_bind {St A B} (m : Ep St A) (k : A -> Ep St B) : Ep St B :=
  fun st =>
    match m st with
    | (st', inl e) => (st', inl e)
    | (st', inr a) => k a st'
    end.

Definition ep_raise {St A} (e : raised) : Ep St A := fun st => (st, inl e).

(** [await storage.op(...)] *)
Definition call {St A} (op : Db St A) : Ep St A :=
  fun st =>
    match op st with
    | (st', inl e) => (st', inl (Uncaught e))
    | (st', inr a) => (st', inr a)
    end.

(** [try: m  except HTTPException: raise  except Exception as e: raise
    HTTPException(status_code=500, detail=str(e))] *)
Definition guarded {St A} (m : Ep St A) : Ep St A :=
  fun st =>
    match m st with
    | (st', inl (Uncaught e)) => (st', inl (HTTPException 500 (ErrStr e)))
    | other => other
    end.

#[global] Instance Ep_ret {St} : MRet (Ep St) := @ep_ret St.
#[global] Instance Ep_bind {St} : MBind (Ep St) := fun A B k m => ep_bind m k.

(** [TurnResponse] and [DeleteResponse] *)
Record TurnResponse : Type := MkTurnResponse {
  turn_number : Z;
  question : string;
  response : string;
  created_at : option string
}.

Record DeleteResponse : Type := MkDeleteResponse {
  success : bool;
  message : string
}.

(** [TurnResponse(turn_number=t["turn_number"], question=t["user_question"],
    response=t["agent_response"], created_at=str(t.get("created_at")) if
    t.get("created_at") else None)] *)
Definition turn_response (t : turn) : TurnResponse :=
  MkTurnResponse (t_turn_number t) (t_user_question t) (t_agent_response t)
    (if String.eqb (t_created_at t) "" then None else Some (t_created_at t)).

Definition not_found (session_id : string) : raised :=
  HTTPException 404 (ErrValue (VStr ("Session not found: " +:+ session_id))).

Section Router.

Context {S : Type}.

(** The global [storage] of [app.main]. *)
Variable storage : option (StorageBackend S).

(** [get_storage()], the dependency of every endpoint. *)
Definition get_storage : Ep S (StorageBackend S) :=
  match storage with
  | None =>
      ep_raise (HTTPException 503 (ErrValue (VStr "Storage not initialized")))
  | Some sb => mret sb
  end.

(** [GET /{session_id}/history], for a [limit] that passed the validation
    of the query ([None], or from 1 to 100). *)
Definition get_session_history (session_id : string) (limit : option Z)
    : Ep S (list TurnResponse) :=
  sb ← get_storage;
  guarded
    (session ← call (get_session sb session_id);
     match session with
     | None => ep_raise (not_found session_id)
     | Some _ =>
         turns ← call (get_turns sb session_id limit);
         mret (map turn_response turns)
     end).

(** [DELETE /{session_id}] *)
Definition delete_session (session_id : string) : Ep S DeleteResponse :=
  sb ← get_storage;
  guarded
    (session ← call (get_session sb session_id);
     match session with
     | None => ep_raise (not_found session_id)
     | Some _ =>
         call (delete_session sb session_id);;
         mret (MkDeleteResponse true
                 ("Session " +:+ session_id +:+ " deleted successfully"))
     end).

(** [GET /{session_id}/state]: the session id and the stored state. *)
Definition get_session_state (session_id : string) : Ep S (string * dict) :=
  sb ← get_storage;
  guarded
    (session ← call (get_session sb session_id);
     match session with
     | None => ep_raise (not_found session_id)
     | Some row => mret (session_id, s_state row)
     end).

End Router.

End SessionsRouter.

(** An endpoint returned, or raised an [HTTPException] with one of the
    status codes [codes]. *)
Definition answers_with {A : Type} (codes : list Z)
    (r : SessionsRouter.raised + A) : Prop :=
  match r with
  | inr _ => True
  | inl (SessionsRouter.HTTPException code _) => List.In code codes
  | inl (SessionsRouter.Uncaught _) => False
  end.

(** Whether a session id can be the key of a Python dictionary. *)
Definition hashable (key : session_key) : bool :=
  match key with
  | KeyStr _ => true
  | KeyList _ | KeyDict _ => false
  end.

(** * Properties *)

(** ** Facts about Python strings *)

Module PyStrFacts.

Import PyStr.

(** The two equations of string concatenation. *)
Lemma append_nil_l (s : string) : "" +:+ s = s.
Proof. reflexivity. Qed.

Lemma append_cons (c : ascii) (a b : string) :
  String c a +:+ b = String c (a +:+ b).
Proof. reflexivity. Qed.

Lemma append_nil_r (s : string) : s +:+ "" = s.
Proof.
  induction s as [|c s IH]; [reflexivity |].
  now rewrite append_cons, IH.
Qed.

Lemma append_assoc (a b c : string) : (a +:+ b) +:+ c = a +:+ (b +:+ c).
Proof.
  induction a as [|x a IH]; [reflexivity |].
  now rewrite !append_cons, IH.
Qed.

Lemma nospace_append (a b : string) :
  nospace (a +:+ b) = nospace a && nospace b.
Proof.
  induction a as [|x a IH]; [reflexivity |].
  rewrite append_cons. simpl. rewrite IH. now rewrite andb_assoc.
Qed.

(** Scanning a run of non-whitespace characters extends the current word. *)
Lemma split_go_nospace (w : string) :
  nospace w = true ->
  forall cur rest, split_go cur (w +:+ rest) = split_go (cur +:+ w) rest.
Proof.
  induction w as [|c w IH]; intros Hw cur rest; simpl in *.
  - now rewrite append_nil_r.
  - apply andb_prop in Hw as [Hc Hw]. apply negb_true_iff in Hc.
    rewrite Hc, IH by assumption.
    now rewrite append_assoc.
Qed.

(** A whitespace character closes a non-empty current word. *)
Lemma split_go_space (c : ascii) (cur rest : string) :
  isspace c = true -> cur <> "" ->
  split_go cur (String c rest) = cur :: split_go "" rest.
Proof.
  intros Hc Hcur. simpl. rewrite Hc.
  destruct cur; [congruence | reflexivity].
Qed.

Lemma isspace_space : isspace " " = true.
Proof. reflexivity. Qed.

(** A word followed by one space is split off as that word. *)
Lemma split_word_space (w rest : string) :
  is_word w -> split (w +:+ " " +:+ rest) = w :: split rest.
Proof.
  intros [Hne Hns]. unfold split.
  rewrite split_go_nospace by assumption. simpl append at 1.
  change (" " +:+ rest) with (String " " rest).
  apply split_go_space; [apply isspace_space | assumption].
Qed.

(** Every element of a split is a word, whatever word is being scanned. *)
Lemma split_go_words (s : string) :
  forall cur, nospace cur = true -> Forall is_word (split_go cur s).
Proof.
  induction s as [|c s IH]; intros cur Hcur; simpl.
  - destruct cur; constructor; [split; [discriminate | assumption] | constructor].
  - destruct (isspace c) eqn:Hc.
    + destruct cur.
      * apply IH. reflexivity.
      * constructor; [split; [discriminate | assumption] | now apply IH].
    + apply IH. rewrite nospace_append, Hcur. simpl. now rewrite Hc.
Qed.

Lemma split_words (s : string) : Forall is_word (split s).
Proof. now apply split_go_words. Qed.

(** Splitting the concatenated tokens gives the words back. *)
Lemma split_concat_spaced (ws : list string) :
  Forall is_word ws -> split (concat (spaced ws)) = ws.
Proof.
  induction 1 as [|w ws Hw _ IH]; simpl; [reflexivity |].
  rewrite append_assoc, split_word_space by assumption.
  now rewrite IH.
Qed.

(** The concatenated tokens are the words joined by single spaces, and one
    more space at the end. *)
Lemma concat_spaced_join (ws : list string) :
  ws <> [] -> concat (spaced ws) = join " " ws +:+ " ".
Proof.
  induction ws as [|w ws IH]; intros Hne; [congruence |].
  destruct ws as [|w' ws].
  - simpl. now rewrite append_nil_r.
  - change (concat (spaced (w :: w' :: ws)))
      with ((w +:+ " ") +:+ concat (spaced (w' :: ws))).
    rewrite IH by discriminate.
    change (join " " (w :: w' :: ws)) with (w +:+ " " +:+ join " " (w' :: ws)).
    now rewrite !append_assoc.
Qed.

(** Splitting single-spaced words gives the words. *)
Lemma split_join (ws : list string) :
  Forall is_word ws -> split (join " " ws) = ws.
Proof.
  induction 1 as [|w ws Hw Hws IH]; [reflexivity |].
  destruct ws as [|w' ws].
  - simpl. destruct Hw as [Hne Hns]. unfold split.
    rewrite <- (append_nil_r w) at 1.
    rewrite split_go_nospace by assumption. simpl.
    destruct w; [congruence | reflexivity].
  - change (join " " (w :: w' :: ws)) with (w +:+ " " +:+ join " " (w' :: ws)).
    rewrite split_word_space by assumption. now rewrite IH.
Qed.

(** A string of whitespace only strips to the empty string, and only such
    a string does. *)
Lemma lstrip_allspace (s : string) : lstrip s = "" <-> allspace s = true.
Proof.
  induction s as [|c s IH]; simpl; [tauto |].
  destruct (isspace c); simpl; [exact IH |].
  split; discriminate.
Qed.

Lemma rstrip_nil (s : string) : rstrip s = "" <-> allspace s = true.
Proof.
  induction s as [|c s IH]; simpl; [tauto |].
  destruct (rstrip s) eqn:Hr.
  - destruct (isspace c); simpl.
    + split; [intros _; now apply IH | reflexivity].
    + split; discriminate.
  - split; [discriminate |].
    intros H. apply andb_prop in H as [_ H]. apply IH in H. discriminate.
Qed.

Lemma allspace_lstrip (s : string) : allspace (lstrip s) = allspace s.
Proof.
  induction s as [|c s IH]; simpl; [reflexivity |].
  destruct (isspace c) eqn:Hc; simpl; [exact IH | now rewrite Hc].
Qed.

Lemma strip_nil (s : string) : strip s = "" <-> allspace s = true.
Proof. unfold strip. now rewrite rstrip_nil, allspace_lstrip. Qed.

End PyStrFacts.


(** ** Running the monad *)

Lemma bind_run {St A B} (m : M St A) (k : A -> M St B) (st : St) :
  (m ≫= k) st =
  match m st with
  | (fs, st', inl e) => (fs, st', inl e)
  | (fs, st', inr a) =>
      match k a st' with
      | (fs', st'', r) => (fs ++ fs', st'', r)
      end
  end.
Proof. reflexivity. Qed.

(** Unfold the monad operations in the goal. *)
Ltac run_m :=
  cbv beta iota zeta delta
    [mbind mret M_bind M_ret bind ret send_json read lift raise
     try_except zoom silent fst snd].

Lemma get_insert (d : dict) (k : string) (v dflt : value) :
  get (<[k := v]> d) k dflt = v.
Proof. unfold get. now rewrite lookup_insert_eq. Qed.

Lemma get_insert_ne (d : dict) (k k' : string) (v dflt : value) :
  k <> k' -> get (<[k := v]> d) k' dflt = get d k' dflt.
Proof. intros Hne. unfold get. now rewrite lookup_insert_ne. Qed.

Lemma get_lookup (d : dict) (k : string) (v dflt : value) :
  d !! k = Some v -> get d k dflt = v.
Proof. intros H. unfold get. now rewrite H. Qed.

(** The streaming loop sends one frame per word, changes no variable and
    does not raise. *)
Lemma stream_words_run {St} (words : list string) (st : St) :
  stream_words words st =
  (map (fun word => Stream (word +:+ " ") false) words, st, inr tt).
Proof.
  unfold stream_words.
  induction words as [|w ws IH]; [reflexivity |].
  cbn [for_each]. rewrite bind_run. cbn [send_json].
  rewrite IH. reflexivity.
Qed.

Lemma stream_tokens_words (words : list string) :
  stream_tokens (map (fun word => Stream (word +:+ " ") false) words)
  = PyStr.spaced words.
Proof.
  unfold stream_tokens, PyStr.spaced.
  induction words as [|w ws IH]; [reflexivity |].
  cbn [map flat_map app]. now rewrite IH.
Qed.

(** ** Streaming of narratives and greetings *)

Section Streaming.

Context {S : Type}.

Lemma truthy_str (s : string) : truthy (VStr s) = negb (String.eqb s "").
Proof. reflexivity. Qed.

(** The branch that the event loop takes for a [narrative] event. *)
Lemma relay_event_narrative (event : dict) :
  event !! "type" = Some (VStr "narrative") ->
  relay_event (S:=S) event =
  let content := get event "content" (VStr "") in
  if truthy content then
    set_full_response content;;
    words ← lift (py_split content);
    stream_words words
  else mret tt.
Proof.
  intros Ht. unfold relay_event.
  rewrite (get_lookup _ _ _ _ Ht). reflexivity.
Qed.

(** A narrative event is streamed word by word. *)
Lemma narrative_frames (content : string) (rest : dict) (st : locals (S:=S)) :
  frames_of_event (narrative_event (VStr content) rest) st
  = map (fun word => Stream (word +:+ " ") false) (PyStr.split content).
Proof.
  unfold frames_of_event.
  rewrite relay_event_narrative by apply lookup_insert_eq.
  unfold narrative_event. cbv zeta.
  rewrite get_insert_ne by discriminate. rewrite get_insert.
  rewrite truthy_str.
  destruct (String.eqb content "") eqn:He.
  - apply String.eqb_eq in He. subst content. reflexivity.
  - cbn [negb]. rewrite bind_run. cbn [set_full_response].
    rewrite bind_run. cbn [lift py_split]. rewrite stream_words_run.
    reflexivity.
Qed.

(** A greeting is streamed word by word; an empty greeting is no greeting,
    and whatever the other fields give, no token is streamed. *)
Lemma greeting_tokens (greeting : string) (rest : dict) (st : locals (S:=S)) :
  stream_tokens (frames_of_end (greeting_state (VStr greeting) rest) st)
  = PyStr.spaced (PyStr.split greeting).
Proof.
  unfold frames_of_end, relay_workflow_end, greeting_state, get_none.
  cbv zeta. rewrite get_insert, truthy_str.
  destruct (String.eqb greeting "") eqn:He.
  - apply String.eqb_eq in He. subst greeting. cbn [negb].
    repeat match goal with
           | |- context [if ?b then _ else _] => destruct b
           end; reflexivity.
  - cbn [negb]. rewrite bind_run. cbn [set_full_response].
    rewrite bind_run. cbn [lift py_split]. rewrite stream_words_run.
    cbn [fst app]. apply stream_tokens_words.
Qed.

End Streaming.

(** C1 (as amended).  For a narrative content string (and for a greeting
    streamed from [workflow_end]) the relay sends one [stream] frame per
    whitespace-delimited word, whose token is the word and one space.  The
    concatenation of the tokens is the words, each followed by one space: it
    splits into the same words as the content, so the content is reproduced
    up to its whitespace. *)
Theorem streamed_tokens_reproduce_words
    {S : Type} (content : string) (rest : dict) (st : locals (S:=S)) :
  let frames := frames_of_event (narrative_event (VStr content) rest) st in
  let greeted := frames_of_end (greeting_state (VStr content) rest) st in
  frames = map (fun word => Stream (word +:+ " ") false) (PyStr.split content)
  /\ stream_tokens frames = PyStr.spaced (PyStr.split content)
  /\ stream_tokens greeted = PyStr.spaced (PyStr.split content)
  /\ PyStr.concat (stream_tokens frames)
     = PyStr.concat (PyStr.spaced (PyStr.split content))
  /\ PyStr.split (PyStr.concat (stream_tokens frames)) = PyStr.split content
  /\ PyStr.split (PyStr.concat (stream_tokens greeted)) = PyStr.split content.
Proof.
  cbv zeta.
  rewrite narrative_frames, greeting_tokens, stream_tokens_words.
  repeat split; apply PyStrFacts.split_concat_spaced, PyStrFacts.split_words.
Qed.

(** C1 as stated fails: the tokens of the content [hello] concatenate to
    [hello] and a space, and those of a content with two spaces between its
    words have one. *)
Lemma streamed_tokens_differ_from_content :
  let st := Locals (VStr "") ∅ tt in
  PyStr.concat (stream_tokens
                  (frames_of_event (narrative_event (VStr "hello") ∅) st))
  = "hello "
  /\ PyStr.concat (stream_tokens
                     (frames_of_event (narrative_event (VStr "hello") ∅) st))
     <> "hello"
  /\ PyStr.concat (stream_tokens
                     (frames_of_event (narrative_event (VStr "a  b") ∅) st))
     <> "a  b"
  /\ PyStr.concat (stream_tokens
                     (frames_of_end (greeting_state (VStr "hello") ∅) st))
     <> "hello".
Proof. vm_compute. repeat split; discriminate. Qed.

(** ** The shape of a workflow turn *)

Lemma for_each_app_run {St A} (xs ys : list A) (body : A -> M St unit)
    (st st1 : St) (fs1 : list frame) :
  for_each xs body st = (fs1, st1, inr tt) ->
  for_each (xs ++ ys) body st =
  match for_each ys body st1 with
  | (fs2, st2, r) => (fs1 ++ fs2, st2, r)
  end.
Proof.
  revert st fs1. induction xs as [|x xs IH]; intros st fs1 H.
  - cbn in H. injection H as <- <-. cbn [app for_each].
    destruct (for_each ys body st) as [[fs2 st2] r]. reflexivity.
  - cbn [app for_each] in *. rewrite bind_run in *.
    destruct (body x st) as [[f0 s0] [e|[]]]; [discriminate |].
    destruct (for_each xs body s0) as [[f1 s1] r1] eqn:Hxs.
    injection H as <- <- ->.
    rewrite (IH _ _ Hxs).
    destruct (for_each ys body s1) as [[f2 s2] r2].
    now rewrite app_assoc.
Qed.

Section Turn.

Context {S : Type}.
Variable storage : option (StorageBackend S).

(** Persistence sends no frame, does not raise, and leaves the response
    and the final state as they are. *)
Lemma persist_run (sid question : string) (uid : value) (n : Z)
    (response : value) (snapshot : dict) (tm : times) (st : locals) :
  exists db',
    persist storage sid question uid n response snapshot tm st
    = ([], Locals (full_response st) (final_state st) db', inr tt).
Proof.
  unfold persist. destruct storage as [sb|].
  - unfold try_except. rewrite bind_run.
    unfold storage_call, zoom, silent.
    destruct (save_turn sb sid n question response snapshot _ _ (store st))
      as [db1 [e|[]]].
    + eexists. reflexivity.
    + cbn [full_response final_state store].
      destruct (save_session sb sid uid _ _ _ db1) as [db2 [e|[]]];
        eexists; reflexivity.
  - destruct st. eexists. reflexivity.
Qed.

Lemma stream_response_workflow_frames (r : run) (sid question : string)
    (uid : value) (state : dict) (tm : times) (db : S) :
  fst (fst (stream_response_workflow storage r sid question uid state tm db))
  = turn_frames r sid state tm db.
Proof.
  unfold stream_response_workflow, turn_frames, workflow_turn.
  run_m.
  destruct (relay_events r _) as [[fs st] [e|[]]];
    [cbn [app]; now rewrite !app_nil_r |].
  destruct (py_add_one _) as [e|n].
  - cbn [app]. rewrite ?app_nil_r, <- ?app_assoc. reflexivity.
  - destruct (persist_run sid question uid n (full_response st)
                (final_state st) tm st) as [db' ->].
    cbn [app]. rewrite ?app_nil_r, <- ?app_assoc. reflexivity.
Qed.

End Turn.

(** ** The end of the workflow: greeting and clarifications *)

Section WorkflowEnd.

Context {S : Type}.

Lemma relay_event_end (fs rest : dict) :
  relay_event (S:=S) (workflow_end_event fs rest)
  = (set_final_state fs;; relay_workflow_end fs).
Proof.
  unfold relay_event, workflow_end_event.
  rewrite get_insert. cbv zeta.
  replace (get (<["type" := VStr "workflow_end"]> (<["state" := VDict fs]> rest))
             "state" (VDict ∅)) with (VDict fs)
    by (rewrite get_insert_ne by discriminate; now rewrite get_insert).
  reflexivity.
Qed.

(** The [workflow_end] branch does what the selected field asks, and
    nothing for the fields of lower priority. *)
Lemma relay_workflow_end_run (fs : dict) (st : locals (S:=S)) :
  relay_workflow_end fs st =
  match selected fs with
  | Some (field, Some kind) =>
      ([Clarification kind (get_none fs field)],
       Locals (get_none fs field) (final_state st) (store st), inr tt)
  | Some (field, None) =>
      match py_split (get_none fs field) with
      | inr words =>
          (map (fun word => Stream (word +:+ " ") false) words,
           Locals (get_none fs field) (final_state st) (store st), inr tt)
      | inl e =>
          ([], Locals (get_none fs field) (final_state st) (store st), inl e)
      end
  | None => ([], st, inr tt)
  end.
Proof.
  unfold relay_workflow_end, selected, special_fields.
  cbn [find fst].
  destruct (truthy (get_none fs "greeting_response")).
  - run_m. unfold set_full_response.
    destruct (py_split _) as [e|words]; [reflexivity |].
    rewrite stream_words_run. reflexivity.
  - destruct (truthy (get_none fs "domain_followup_question"));
      [reflexivity |].
    destruct (truthy (get_none fs "dataset_followup_question"));
      [reflexivity |].
    destruct (truthy (get_none fs "sql_followup_question")); reflexivity.
Qed.

End WorkflowEnd.

(** The first field of a list with a true value is the one found. *)
Lemma find_first {A : Type} (p : A -> bool) (before later : list A) (x : A) :
  List.Forall (fun y => p y = false) before ->
  p x = true ->
  find p (before ++ x :: later) = Some x.
Proof.
  intros Hbefore Hx. induction Hbefore as [|y before Hy _ IH].
  - cbn. now rewrite Hx.
  - cbn. now rewrite Hy.
Qed.

Lemma find_nothing {A : Type} (p : A -> bool) (l : list A) :
  List.Forall (fun y => p y = false) l -> find p l = None.
Proof.
  induction 1 as [|y l Hy _ IH]; [reflexivity |].
  cbn. now rewrite Hy.
Qed.

(** C2 (as amended).  On [workflow_end] the relay looks at the special
    fields of the final state in the order greeting, domain, dataset, sql,
    and only the first one with a true value takes effect, whatever the
    fields after it hold: a true greeting is streamed word by word and no
    [clarification] frame is sent; a clarification field that is the first
    true one gives one [clarification] frame of its type.  Then, as at the
    end of every turn that did not raise, the final [stream] frame and a
    [complete] frame follow, whose response is the value of that field.  A
    final state none of whose special fields is true gives no frame. *)
Theorem clarification_is_followed_by_complete
    {S : Type} (storage : option (StorageBackend S))
    (events : list dict) (fs rest : dict)
    (before later : list (string * option string)) (field : string)
    (kind : option string) (words : list string)
    (sid question : string) (uid : value) (state : dict) (tm : times) (db : S)
    (sent : list frame) (st1 : locals (S:=S)) (n : Z) :
  for_each events relay_event (Locals (VStr "") state db) = (sent, st1, inr tt) ->
  py_add_one (get state "turn_number" (VInt 0)) = inr n ->
  special_fields = before ++ (field, kind) :: later ->
  List.Forall (fun higher => truthy (get_none fs (fst higher)) = false) before ->
  truthy (get_none fs field) = true ->
  (kind = None -> py_split (get_none fs field) = inr words) ->
  let special :=
    match kind with
    | Some clarification_type =>
        [Clarification clarification_type (get_none fs field)]
    | None => map (fun word => Stream (word +:+ " ") false) words
    end in
  (forall st : locals (S:=S), frames_of_end fs st = special)
  /\ fst (fst (stream_response_workflow storage
                 (Run (events ++ [workflow_end_event fs rest]) None)
                 sid question uid state tm db))
     = Status "processing" (Msg (VStr "Processing your question...")) None
       :: sent
       ++ special
       ++ [Stream "" true;
           Complete (get_none fs field) sid (VInt n)
             (complete_metadata (at_complete tm) fs)]
  /\ (forall (none : dict) (st : locals (S:=S)),
        List.Forall (fun any => truthy (get_none none (fst any)) = false)
          special_fields ->
        frames_of_end none st = []).
Proof.
  intros Hev Hn Hfields Hbefore Htrue Hwords. cbv zeta.
  assert (Hsel : selected fs = Some (field, kind)).
  { unfold selected. rewrite Hfields.
    apply (find_first (fun f => truthy (get_none fs (fst f)))); assumption. }
  assert (Hend : forall st : locals (S:=S),
            relay_workflow_end fs st
            = (match kind with
               | Some clarification_type =>
                   [Clarification clarification_type (get_none fs field)]
               | None => map (fun word => Stream (word +:+ " ") false) words
               end,
               Locals (get_none fs field) (final_state st) (store st), inr tt)).
  { intros st. rewrite relay_workflow_end_run, Hsel.
    destruct kind as [clarification_type|]; [reflexivity |].
    now rewrite (Hwords eq_refl). }
  split; [| split].
  - intros st. unfold frames_of_end. now rewrite Hend.
  - rewrite stream_response_workflow_frames.
    unfold turn_frames, relay_events. cbn [run_events run_raises].
    rewrite bind_run, (for_each_app_run _ _ _ _ _ _ Hev).
    cbn [for_each]. rewrite bind_run, relay_event_end, bind_run.
    unfold set_final_state at 1.
    rewrite Hend.
    run_m. cbn [full_response final_state store app].
    rewrite Hn, !app_nil_r, <- !app_assoc. reflexivity.
  - intros none st Hnone. unfold frames_of_end.
    rewrite relay_workflow_end_run.
    assert (Hfind : selected none = None).
    { unfold selected.
      now apply (find_nothing (fun f => truthy (get_none none (fst f)))). }
    now rewrite Hfind.
Qed.

(** A final state with a greeting and a domain question: the greeting is
    streamed and the question is not asked.  A final state where the dataset
    and the sql questions are both set: the dataset question is the one
    asked. *)
Lemma clarification_is_followed_by_complete_witness :
  let greeted : dict :=
    <["greeting_response" := VStr "Hello there"]>
      (<["domain_followup_question" := VStr "Which area?"]> ∅) in
  let asked : dict :=
    <["dataset_followup_question" := VStr "Which dataset?"]>
      (<["sql_followup_question" := VStr "Which year?"]> ∅) in
  let turn (fs : dict) :=
    fst (fst (stream_response_workflow (S:=unit) None
                (Run ([workflow_start_event] ++ [workflow_end_event fs ∅]) None)
                "s1" "spend" (VStr "u1") ∅ (Times "t0" "t1" "t2") tt)) in
  ((forall st : locals (S:=unit),
       frames_of_end greeted st = [Stream "Hello " false; Stream "there " false])
   /\ turn greeted
      = Status "processing" (Msg (VStr "Processing your question...")) None
        :: [Status "started" (Msg (VStr "Workflow started...")) None]
        ++ [Stream "Hello " false; Stream "there " false]
        ++ [Stream "" true;
            Complete (VStr "Hello there") "s1" (VInt 1)
              (complete_metadata "t0" greeted)])
  /\ ((forall st : locals (S:=unit),
          frames_of_end asked st
          = [Clarification "dataset" (VStr "Which dataset?")])
      /\ turn asked
         = Status "processing" (Msg (VStr "Processing your question...")) None
           :: [Status "started" (Msg (VStr "Workflow started...")) None]
           ++ [Clarification "dataset" (VStr "Which dataset?")]
           ++ [Stream "" true;
               Complete (VStr "Which dataset?") "s1" (VInt 1)
                 (complete_metadata "t0" asked)]).
Proof.
  intros greeted asked turn. split.
  - destruct (clarification_is_followed_by_complete (S:=unit) None
                [workflow_start_event] greeted ∅ []
                [("domain_followup_question", Some "domain");
                 ("dataset_followup_question", Some "dataset");
                 ("sql_followup_question", Some "sql")]
                "greeting_response" None ["Hello"; "there"]
                "s1" "spend" (VStr "u1") ∅ (Times "t0" "t1" "t2") tt
                [Status "started" (Msg (VStr "Workflow started...")) None]
                (Locals (VStr "") ∅ tt) 1) as (Hend & Hturn & _);
      try reflexivity; [constructor |].
    split; [exact Hend | exact Hturn].
  - destruct (clarification_is_followed_by_complete (S:=unit) None
                [workflow_start_event] asked ∅
                [("greeting_response", None);
                 ("domain_followup_question", Some "domain")]
                [("sql_followup_question", Some "sql")]
                "dataset_followup_question" (Some "dataset") []
                "s1" "spend" (VStr "u1") ∅ (Times "t0" "t1" "t2") tt
                [Status "started" (Msg (VStr "Workflow started...")) None]
                (Locals (VStr "") ∅ tt) 1) as (Hend & Hturn & _);
      try reflexivity; [repeat constructor | discriminate |].
    split; [exact Hend | exact Hturn].
Defined.

(** C2 as stated fails: after the [clarification] frame of a turn the relay
    still sends a [complete] frame. *)
Lemma clarification_does_not_replace_complete :
  let fs : dict := {["domain_followup_question" := VStr "Which area?"]} in
  let frames :=
    fst (fst (stream_response_workflow (S:=unit) None
                (Run [workflow_end_event fs ∅] None)
                "s1" "spend" (VStr "u1") ∅ (Times "t0" "t1" "t2") tt)) in
  map is_complete frames = [false; false; false; true]
  /\ frames
     = [Status "processing" (Msg (VStr "Processing your question...")) None;
        Clarification "domain" (VStr "Which area?");
        Stream "" true;
        Complete (VStr "Which area?") "s1" (VInt 1) (complete_metadata "t0" fs)].
Proof. split; reflexivity. Qed.


(** ** Error events *)

(** C3 (the code departs from it).  When the workflow yields an [error]
    event and then ends, the relay sends the [error] frame and goes on to
    the end of the turn: it sends the final [stream] frame and a [complete]
    frame with an empty response, and it stores a turn with an empty
    response.  Only when the event sequence raises does the relay do what
    the claim says: [error] frame, no completion frames, nothing stored. *)
Theorem error_event_still_completes
    (err : value) (e : exn) (sid question : string) (uid : value) (tm : times) :
  let yielded :=
    stream_response_workflow (Some Databricks.storage)
      (Run [error_event err ∅] None) sid question uid ∅ tm Databricks.empty in
  let raised :=
    stream_response_workflow (Some Databricks.storage)
      (Run [] (Some e)) sid question uid ∅ tm Databricks.empty in
  fst (fst yielded)
  = [Status "processing" (Msg (VStr "Processing your question...")) None;
     Error (ErrValue err);
     Stream "" true;
     Complete (VStr "") sid (VInt 1) (complete_metadata (at_complete tm) ∅)]
  /\ Databricks.turns (snd (fst yielded))
     = [Turn sid 1 question "" ∅ {["workflow" := VBool true]} (at_save_turn tm)]
  /\ fst (fst raised)
     = [Status "processing" (Msg (VStr "Processing your question...")) None;
        Error (ErrStr e)]
  /\ Databricks.turns (snd (fst raised)) = [].
Proof. repeat split; reflexivity. Qed.

(** ** Inbound frames *)

(** A question that is missing, empty or made of whitespace only has an
    empty text, and no other string question has. *)
Lemma question_text_blank (data : inbound) :
  question_text data = inr ""
  <-> in_question data = None
      \/ exists s, in_question data = Some (VStr s) /\ PyStr.allspace s = true.
Proof.
  unfold question_text. destruct (in_question data) as [[| | |s| |]|];
    cbn; try (split; [discriminate | intros [H|[s' [H _]]]; discriminate]).
  - split.
    + intros H. right. exists s. split; [reflexivity |].
      apply PyStrFacts.strip_nil. congruence.
    + intros [H|[s' [H Hs]]]; [discriminate |].
      injection H as ->. apply PyStrFacts.strip_nil in Hs. now rewrite Hs.
  - split; [now left | reflexivity].
Qed.

Section Frames.

Context {S : Type}.
Variable storage : option (StorageBackend S).
Variable run_workflow : string -> string -> value -> option string -> dict -> run.
Variable workflow_importable : bool.

Lemma zoom_frames {St In A} (proj : St -> In) (upd : In -> St -> St)
    (m : M In A) (st : St) :
  fst (fst (zoom proj upd m st)) = fst (fst (m (proj st))).
Proof. unfold zoom. now destruct (m (proj st)) as [[fs i] r]. Qed.

Lemma send_then {St A} (f : frame) (k : M St A) (st : St) :
  fst (fst ((send_json f;; k) st)) = f :: fst (fst (k st)).
Proof.
  rewrite bind_run. cbn [send_json].
  now destruct (k st) as [[fs st'] r].
Qed.

(** Every turn, by the workflow or by the placeholder, begins with the
    [status] frame "processing". *)
Lemma stream_response_head (r : run) (sid question : string) (uid : value)
    (st : dict) (tm : times) (db : S) :
  exists rest,
    fst (fst (stream_response storage workflow_importable r sid question uid
                st tm db))
    = processing :: rest.
Proof.
  unfold stream_response, USE_REAL_WORKFLOW. destruct workflow_importable.
  - rewrite stream_response_workflow_frames. unfold turn_frames. eauto.
  - unfold stream_response_placeholder. rewrite zoom_frames, send_then.
    eauto.
Qed.

(** Answering never raises, and begins with "processing". *)
Lemma respond_head (sid question : string) (uid : value)
    (email : option string) (st : dict) (tm : times) (c : conn (S:=S)) :
  exists rest c',
    respond storage run_workflow workflow_importable sid question uid email
      st tm c
    = (processing :: rest, c', inr tt).
Proof.
  unfold respond, try_except. rewrite bind_run. unfold on_store, zoom.
  destruct (stream_response_head (run_workflow question sid uid email st)
              sid question uid st tm (db (srv c))) as [rest Hrest].
  destruct (stream_response _ _ _ _ _ _ _ _ _) as [[fs db'] [e|v]];
    cbn [fst] in Hrest; subst fs.
  - cbn. eauto.
  - cbn. eauto.
Qed.

(** Loading the state sends nothing, does not raise, and changes only the
    local [state] and the store. *)
Lemma load_state_run (sid : string) (c : conn (S:=S)) :
  exists st' db',
    load_state storage sid c
    = ([], Conn (session_id c) st'
             (Server (active_connections (srv c)) db'), inr tt).
Proof.
  unfold load_state. rewrite bind_run. cbn [set_state].
  destruct storage as [sb|].
  - unfold try_except. rewrite bind_run. unfold on_store, zoom, silent.
    cbn [session_id state srv db active_connections].
    destruct (get_session sb sid (db (srv c))) as [db' [e|[row|]]];
      cbn; eauto.
  - destruct c as [sid0 st0 [reg db0]]. cbn. eauto.
Qed.

End Frames.

(** C9 (as amended).  An inbound frame whose type is neither [ping] nor
    [message] is ignored by both endpoints: no frame is sent for it, not
    even an [error] frame, nothing changes, and the connection stays open,
    waiting for the next frame. *)
Theorem unknown_type_is_ignored
    {S : Type} (storage : option (StorageBackend S))
    (run_workflow : string -> string -> value -> option string -> dict -> run)
    (importable : bool) (websocket : nat) (sid : string) (data : inbound)
    (env : message_env) (t : value) (c : conn (S:=S)) (s : server (S:=S)) :
  in_type data = Some t ->
  str_eq t "ping" = false ->
  str_eq t "message" = false ->
  chat_frame storage run_workflow importable websocket data env c
  = ([], c, inr tt)
  /\ session_frame storage run_workflow importable sid data env c
     = ([], c, inr tt)
  /\ websocket_chat storage run_workflow importable websocket
       [Receive data env] s
     = ([], s, inr Open).
Proof.
  intros Ht Hping Hmsg.
  assert (Hchat : chat_frame storage run_workflow importable websocket data
                    env c = ([], c, inr tt)).
  { unfold chat_frame. rewrite Ht. cbn [default from_option id].
    now rewrite Hping, Hmsg. }
  split; [exact Hchat | split].
  - unfold session_frame. rewrite Ht. cbn [default from_option id].
    now rewrite Hping, Hmsg.
  - unfold websocket_chat, zoom, try_except. cbn [chat_loop].
    rewrite !bind_run.
    unfold chat_frame. rewrite Ht. cbn [default from_option id].
    rewrite Hping, Hmsg. reflexivity.
Qed.

Lemma unknown_type_is_ignored_witness :
  let data := Inbound (Some (VStr "subscribe")) None None None None in
  let c := Conn None ∅ (Server [] Databricks.empty) in
  chat_frame (Some Databricks.storage) no_workflow true 0 data an_env c
  = ([], c, inr tt)
  /\ session_frame (Some Databricks.storage) no_workflow true "s1" data an_env c
     = ([], c, inr tt)
  /\ websocket_chat (Some Databricks.storage) no_workflow true 0
       [Receive data an_env] (Server [] Databricks.empty)
     = ([], Server [] Databricks.empty, inr Open).
Proof.
  intros data c.
  apply (unknown_type_is_ignored (Some Databricks.storage) no_workflow true 0
           "s1" data an_env (VStr "subscribe") c (Server [] Databricks.empty));
    reflexivity.
Defined.

(** C9 as stated fails: a frame of type [subscribe] gets no [error] frame,
    on either endpoint. *)
Lemma unknown_type_gets_no_error_frame :
  let data := Inbound (Some (VStr "subscribe")) None None None None in
  let chat :=
    websocket_chat (Some Databricks.storage) no_workflow true 0
      [Receive data an_env] (Server [] Databricks.empty) in
  let resumed :=
    websocket_chat_session (Some Databricks.storage) no_workflow true 0 "s1"
      [Receive data an_env] (Server [] Databricks.empty) in
  fst (fst chat) = []
  /\ fst (fst resumed) = []
  /\ ~ (exists f, In f (fst (fst chat)) /\ is_error f = true)
  /\ ~ (exists f, In f (fst (fst resumed)) /\ is_error f = true).
Proof.
  cbv zeta.
  assert (H1 : fst (fst (websocket_chat (Some Databricks.storage) no_workflow
                           true 0
                           [Receive (Inbound (Some (VStr "subscribe")) None
                                       None None None) an_env]
                           (Server [] Databricks.empty))) = [])
    by reflexivity.
  assert (H2 : fst (fst (websocket_chat_session (Some Databricks.storage)
                           no_workflow true 0 "s1"
                           [Receive (Inbound (Some (VStr "subscribe")) None
                                       None None None) an_env]
                           (Server [] Databricks.empty))) = [])
    by reflexivity.
  rewrite H1, H2.
  repeat split; intros [f [[] _]].
Qed.

(** C10 (as amended).  A frame without a [type] is handled by both
    endpoints exactly as the same frame with the type [message].  If its
    question is missing, or a string that is empty or whitespace only (its
    text is then empty, see [question_text_blank]), the one frame sent is the
    [error] frame "Question cannot be empty", nothing is registered or stored
    and the loop goes on.  If its question is any other string, a turn
    starts with the [status] frame "processing"; on [/chat] this needs a
    session id that can be a dictionary key, for with an array or an object
    the registration raises [TypeError] and no frame is sent.  If its
    question is not a string, [strip] raises: no frame is sent, neither the
    frames of a turn nor the [error] frame, and the exception leaves the
    receive loop. *)
Theorem untyped_frame_is_a_message
    {S : Type} (storage : option (StorageBackend S))
    (run_workflow : string -> string -> value -> option string -> dict -> run)
    (importable : bool) (websocket : nat) (sid : string) (data : inbound)
    (env : message_env) (c : conn (S:=S)) :
  let untyped := with_type None data in
  let typed := with_type (Some (VStr "message")) data in
  let chat :=
    chat_frame storage run_workflow importable websocket untyped env c in
  let resumed :=
    session_frame storage run_workflow importable sid untyped env c in
  let assigned :=
    Conn (Some (chosen_session_id data env)) (state c) (srv c) in
  chat = chat_frame storage run_workflow importable websocket typed env c
  /\ resumed = session_frame storage run_workflow importable sid typed env c
  /\ match question_text data with
     | inr q =>
         if String.eqb q "" then
           chat = ([empty_question], assigned, inr tt)
           /\ resumed = ([empty_question], c, inr tt)
         else
           match chosen_session_id data env with
           | KeyStr _ =>
               snd chat = inr tt
               /\ exists rest, fst (fst chat) = processing :: rest
           | KeyList _ | KeyDict _ => chat = ([], assigned, inl TypeError)
           end
           /\ snd resumed = inr tt
           /\ exists rest, fst (fst resumed) = processing :: rest
     | inl e =>
         chat = ([], assigned, inl e)
         /\ resumed = ([], c, inl e)
     end.
Proof.
  cbv zeta. split; [reflexivity | split; [reflexivity |]].
  unfold chat_frame, session_frame, with_type, question_text,
    chosen_session_id.
  cbn [in_type in_session_id in_user_id in_user_email in_question
       default from_option id str_eq String.eqb Ascii.eqb Bool.eqb].
  rewrite !bind_run. cbn [set_session_id read].
  rewrite !bind_run. unfold lift.
  destruct (py_strip (default (VStr "") (in_question data))) as [e|q];
    [split; [reflexivity | now destruct c] |].
  destruct (String.eqb q "") eqn:Hblank.
  { cbn. split; [reflexivity | now destruct c]. }
  split; [| split].
  - match goal with
    | |- context [match ?k with KeyStr _ => _ | KeyList _ => _ | KeyDict _ => _ end] =>
        destruct k as [key|l|d]
    end; try reflexivity.
    rewrite !bind_run. cbn [on_registry set_state].
    rewrite !bind_run.
    match goal with
    | |- context [load_state storage ?s ?c'] =>
        destruct (load_state_run storage s c') as [st' [db' ->]]
    end.
    rewrite !bind_run. cbn [read]. rewrite !bind_run. cbn [set_state].
    match goal with
    | |- context [respond ?a ?b ?i ?s ?qq ?u ?e ?st ?tm ?c'] =>
        destruct (respond_head a b i s qq u e st tm c') as [rest [c2 ->]]
    end.
    cbn. eauto.
  - rewrite !bind_run. unfold set_state. cbn beta iota.
    match goal with
    | |- context [respond ?a ?b ?i ?s ?qq ?u ?e ?st ?tm ?c'] =>
        destruct (respond_head a b i s qq u e st tm c') as [rest [c2 ->]]
    end.
    reflexivity.
  - rewrite !bind_run. unfold set_state. cbn beta iota.
    match goal with
    | |- context [respond ?a ?b ?i ?s ?qq ?u ?e ?st ?tm ?c'] =>
        destruct (respond_head a b i s qq u e st tm c') as [rest [c2 ->]]
    end.
    cbn. eauto.
Qed.

(** C10 as stated fails: an untyped frame whose question is [null], or the
    number 123, gets neither a turn nor the [error] frame.  No frame is sent
    for it and the [/chat] connection is closed; the frame that follows is
    not handled. *)
Lemma untyped_frame_with_a_question_that_is_not_a_string :
  let null := Inbound None (Some (KeyStr "s1")) None None (Some VNone) in
  let number := Inbound None (Some (KeyStr "s1")) None None (Some (VInt 123)) in
  let next := Receive (message_frame (Some "s1") "hello") an_env in
  let start := Server [] Databricks.empty in
  let c := Conn None ∅ start in
  chat_frame (Some Databricks.storage) answering true 0 null an_env c
  = ([], Conn (Some (KeyStr "s1")) ∅ start, inl AttributeError)
  /\ chat_frame (Some Databricks.storage) answering true 0 number an_env c
     = ([], Conn (Some (KeyStr "s1")) ∅ start, inl AttributeError)
  /\ session_frame (Some Databricks.storage) answering true "s1" null an_env c
     = ([], c, inl AttributeError)
  /\ websocket_chat (Some Databricks.storage) answering true 0
       [Receive null an_env; next] start
     = ([], start, inr Closed)
  /\ websocket_chat (Some Databricks.storage) answering true 0
       [Receive number an_env; next] start
     = ([], start, inr Closed).
Proof. repeat split. Qed.

(** ** Broadcast *)

(** C8 (as amended).  [broadcast] writes the message to the registered
    channels in registration order and stops at the first write that fails:
    the channels before it have the message, the failure goes to the caller,
    and no channel after it gets the message.  When no write fails every
    registered channel gets it. *)
Theorem broadcast_stops_at_first_failure
    {A : Type} (writable : nat -> bool) (message : A)
    (r : ConnectionManager.registry) :
  ConnectionManager.broadcast writable message r
  = (map (fun w => (w, message)) (reached writable (ConnectionManager.values r)),
     if forallb writable (ConnectionManager.values r) then inr tt
     else inl WebSocketDisconnect)
  /\ (forallb writable (ConnectionManager.values r) = true ->
      reached writable (ConnectionManager.values r) = ConnectionManager.values r).
Proof.
  unfold ConnectionManager.broadcast.
  induction (ConnectionManager.values r) as [|w ws [IH1 IH2]]; [now split |].
  cbn [ConnectionManager.send_all reached forallb map].
  unfold ConnectionManager.write_to.
  destruct (writable w); cbn [andb].
  - rewrite IH1. split; [reflexivity |].
    intros H. now rewrite IH2.
  - split; [reflexivity | discriminate].
Qed.

(** C8 as stated fails: with three channels registered and the second one
    closed, the third one, which is open, does not get the message. *)
Lemma broadcast_failure_blocks_later_channels :
  let r := ConnectionManager.connect 2 "c"
             (ConnectionManager.connect 1 "b"
                (ConnectionManager.connect 0 "a" [])) in
  let writable := fun w => negb (Nat.eqb w 1) in
  ConnectionManager.lookup "c" r = Some 2%nat
  /\ writable 2%nat = true
  /\ ConnectionManager.broadcast writable "hello" r
     = ([(0%nat, "hello")], inl WebSocketDisconnect)
  /\ ~ In (2%nat, "hello")
         (fst (ConnectionManager.broadcast writable "hello" r)).
Proof.
  cbv zeta. repeat split.
  intros [H|[]]. discriminate.
Qed.

(** ** The session store *)

Section Store.

Lemma has_id_refl (sid : string) (row : session) :
  s_session_id row = sid -> Databricks.has_id sid row = true.
Proof. intros <-. unfold Databricks.has_id. apply String.eqb_refl. Qed.

(** [save_session] is one MERGE, and does not raise. *)
Lemma save_session_run (sid : string) (uid : value) (st : dict)
    (title : option string) (now : string) (t : Databricks.tables) :
  save_session Databricks.storage sid uid st title now t
  = (fst (Databricks.run_statement
            (Databricks.MergeSession sid uid (default "" title) st now) t),
     inr tt).
Proof.
  change (save_session Databricks.storage)
    with (Databricks.save_session Databricks.warehouse).
  unfold Databricks.save_session, Databricks.warehouse.
  cbv [mbind mret Db_bind Db_ret db_bind db_ret].
  now destruct (Databricks.run_statement _ t).
Qed.

(** After [save_session] every row of the session has the title and the
    state written and the clock reading as [updated_at]. *)
Lemma save_session_rows (sid : string) (uid : value) (st : dict)
    (title : option string) (now : string) (t : Databricks.tables) :
  List.Forall (fun row =>
            s_session_id row = sid ->
            s_title row = default "" title
            /\ s_state row = st
            /\ s_updated_at row = now)
    (Databricks.sessions
       (after (save_session Databricks.storage sid uid st title now) t)).
Proof.
  unfold after. rewrite save_session_run. cbn [fst Databricks.run_statement].
  destruct (existsb (Databricks.has_id sid) (Databricks.sessions t)) eqn:Hex;
    cbn [fst Databricks.sessions].
  - apply List.Forall_forall. intros row Hin Hid.
    apply List.in_map_iff in Hin as [row0 [<- Hin]].
    unfold Databricks.merge_update in *.
    destruct (Databricks.has_id sid row0) eqn:Hrow; cbn in *; [auto |].
    rewrite has_id_refl in Hrow by assumption. discriminate.
  - apply List.Forall_app. split.
    + apply List.Forall_forall. intros row Hin Hid. exfalso.
      assert (existsb (Databricks.has_id sid) (Databricks.sessions t) = true)
        by (apply List.existsb_exists; exists row;
            split; [assumption | now apply has_id_refl]).
      congruence.
    + repeat constructor.
Qed.

Lemma get_session_run (sid : string) (t : Databricks.tables) :
  get_session Databricks.storage sid t
  = (t, inr (head (session_rows sid t))).
Proof.
  change (get_session Databricks.storage)
    with (Databricks.get_session Databricks.warehouse).
  unfold Databricks.get_session, Databricks.warehouse, session_rows.
  cbv [mbind mret Db_bind Db_ret db_bind db_ret].
  cbn [Databricks.run_statement].
  now destruct (List.filter _ _).
Qed.

Lemma delete_session_run (sid : string) (t : Databricks.tables) :
  delete_session Databricks.storage sid t
  = (Databricks.Tables
       (List.filter (fun r => negb (Databricks.has_id sid r))
          (Databricks.sessions t))
       (List.filter (fun r => negb (Databricks.of_session sid r))
          (Databricks.turns t)),
     inr true).
Proof. reflexivity. Qed.

Lemma filter_out {A} (p : A -> bool) (l : list A) :
  List.filter p (List.filter (fun x => negb (p x)) l) = [].
Proof.
  induction l as [|x l IH]; [reflexivity |].
  cbn [List.filter]. destruct (p x) eqn:Hp; cbn [negb List.filter]; [exact IH |].
  now rewrite Hp.
Qed.

End Store.

(** C4 (the code departs from it).  [save_session] called without a title
    on a session that has a row writes the empty title over the stored one:
    every row of the session has the title [""] afterwards.  So the title
    that the first turn sets is lost at the second, for which the relay
    passes no title.  The state and [updated_at] are refreshed as the claim
    says. *)
Theorem save_session_without_title_erases_it
    (sid : string) (uid1 uid2 : value) (st1 st2 : dict)
    (title now1 now2 : string) (t : Databricks.tables) :
  let t1 :=
    after (save_session Databricks.storage sid uid1 st1 (Some title) now1)
      Databricks.empty in
  let t2 := after (save_session Databricks.storage sid uid2 st2 None now2) t1 in
  result (get_session Databricks.storage sid) t1
  = inr (Some (Session sid uid1 title st1 now1 now1))
  /\ result (get_session Databricks.storage sid) t2
     = inr (Some (Session sid uid1 "" st2 now1 now2))
  /\ turn_title "a second question" 2 = None
  /\ List.Forall (fun row => s_session_id row = sid -> s_title row = "")
       (Databricks.sessions
          (after (save_session Databricks.storage sid uid2 st2 None now2) t)).
Proof.
  cbv zeta. unfold after, result.
  rewrite !save_session_run, !get_session_run.
  unfold session_rows.
  repeat (progress
            (cbn [fst snd Databricks.run_statement Databricks.empty
                  Databricks.sessions Databricks.turns existsb app orb default
                  from_option id map List.filter head s_session_id s_user_id
                  s_created_at];
             unfold Databricks.merge_update, Databricks.has_id;
             rewrite ?String.eqb_refl)).
  repeat split.
  pose proof (save_session_rows sid uid2 st2 None now2 t) as H.
  unfold after in H. rewrite save_session_run in H.
  eapply List.Forall_impl; [| exact H].
  intros row Hrow Hid. now apply Hrow.
Qed.

(** C6 (the code departs from it).  [delete_session] removes the turns of
    the session, then its rows, and returns [True] whether a session was
    stored or not: on the empty store, where [get_session] finds nothing,
    it returns [True] too. *)
Theorem delete_session_always_returns_true
    (sid : string) (t : Databricks.tables) :
  result (delete_session Databricks.storage sid) t = inr true
  /\ turn_rows sid (after (delete_session Databricks.storage sid) t) = []
  /\ session_rows sid (after (delete_session Databricks.storage sid) t) = []
  /\ result (get_session Databricks.storage sid) Databricks.empty = inr None
  /\ result (delete_session Databricks.storage sid) Databricks.empty = inr true.
Proof.
  unfold result, after, turn_rows, session_rows.
  rewrite delete_session_run.
  cbn [fst snd Databricks.turns Databricks.sessions].
  repeat split; apply filter_out.
Qed.

(** ** The query executor: network failures *)

Section Retry.

Import QueryExecutor.

Variable net : nat -> http.

(** Unfold the operations of [Db] in the goal. *)
Ltac run_db :=
  cbv beta iota zeta delta
    [mbind mret Db_bind Db_ret db_bind db_ret db_lift db_raise db_try].

Lemma column_names_error (cols : list value) (e : exn) :
  column_names cols = inl e -> e = TypeError.
Proof.
  revert e. induction cols as [|col cols IH]; intros e H; [discriminate |].
  cbn in H. destruct col as [| | | | |d]; try congruence.
  destruct (d !! "name") as [[| | |name| |]|]; try congruence.
  destruct (column_names cols) as [e'|names]; [| discriminate].
  injection H as <-. now apply IH.
Qed.

Lemma zip_rows_error (columns : list string) (data : list value) (e : exn) :
  zip_rows columns data = inl e -> e = TypeError.
Proof.
  revert e. induction data as [|row data IH]; intros e H; [discriminate |].
  cbn in H. destruct row as [| | | |r|]; cbn in H; try congruence.
  destruct (zip_rows columns data) as [e'|rs]; [| discriminate].
  injection H as <-. now apply IH.
Qed.

Lemma sub_dict_error (d : dict) (key : string) (e : exn) :
  sub_dict d key = inl e -> e = AttributeError.
Proof. unfold sub_dict. destruct (get d key (VDict ∅)); congruence. Qed.

Lemma as_list_error (v : value) (e : exn) : as_list v = inl e -> e = TypeError.
Proof. destruct v; cbn; congruence. Qed.

(** Reading the rows of a result never raises [ClientError]. *)
Lemma parse_rows_error (result : dict) (e : exn) :
  parse_rows result = inl e -> e <> ClientError.
Proof.
  unfold parse_rows. intros H.
  destruct (sub_dict result "manifest") as [e1|manifest] eqn:E1.
  { apply sub_dict_error in E1. congruence. }
  destruct (sub_dict manifest "schema") as [e2|schema] eqn:E2.
  { apply sub_dict_error in E2. congruence. }
  destruct (as_list (get schema "columns" (VList []))) as [e3|cols] eqn:E3.
  { apply as_list_error in E3. congruence. }
  destruct (column_names cols) as [e4|columns] eqn:E4.
  { apply column_names_error in E4. congruence. }
  destruct (sub_dict result "result") as [e5|res] eqn:E5.
  { apply sub_dict_error in E5. congruence. }
  destruct (as_list (get res "data_array" (VList []))) as [e6|data] eqn:E6.
  { apply as_list_error in E6. congruence. }
  apply zip_rows_error in H. congruence.
Qed.

(** Reading a field of the status never raises [ClientError]. *)
Lemma status_field_error (result : dict) (key : string) (dflt : value) (e : exn) :
  status_field result key dflt = inl e -> e <> ClientError.
Proof.
  unfold status_field.
  destruct (get result "status" (VDict ∅)); congruence.
Qed.

(** A request that raises is the last one made, and the network failed it. *)
Lemma request_error (what : io) (c c1 : client) (e : exn) :
  request net what c = (c1, inl e) ->
  e = ClientError /\ requests c1 = Datatypes.S (requests c)
  /\ net (requests c) = Fails.
Proof.
  unfold request. destruct (net (requests c)); intros H; [| discriminate].
  injection H as <- <-. auto.
Qed.

Lemma request_ok (what : io) (c c1 : client) (response : Z * dict) :
  request net what c = (c1, inr response) ->
  requests c1 = Datatypes.S (requests c).
Proof.
  unfold request. destruct (net (requests c)); intros H; [discriminate |].
  now injection H as <- _.
Qed.

(** The polling loop raises [ClientError] only for a request that the
    network failed, and that request is the last one made. *)
Lemma poll_client_error (polls : nat) (id state : value) (result : dict)
    (c c1 : client) :
  poll net polls id state result c = (c1, inl ClientError) ->
  (requests c < requests c1)%nat /\ net (Nat.pred (requests c1)) = Fails.
Proof.
  revert state result c.
  induction polls as [|polls IH]; intros state result c H; cbn [poll] in H.
  - destruct (pending state); discriminate.
  - destruct (pending state); [| discriminate].
    revert H. run_db. unfold sleep at 1.
    destruct (request net (Poll id) _) as [c2 [e|response]] eqn:Hreq.
    + intros H. injection H as <-.
      apply request_error in Hreq as [_ [Hn Hf]]. cbn [requests] in *.
      rewrite Hn. cbn [Nat.pred]. split; [lia | exact Hf].
    + apply request_ok in Hreq. cbn [requests] in Hreq.
      destruct (status_field (snd response) "state" (VStr "")) as [e|state'] eqn:Hs.
      * intros H. injection H as _ ->.
        now apply status_field_error in Hs.
      * intros H. apply IH in H as [Hlt Hf]. split; [lia | exact Hf].
Qed.

Lemma poll_requests (polls : nat) (id state : value) (result : dict)
    (c c1 : client) (r : exn + (value * dict)) :
  poll net polls id state result c = (c1, r) ->
  (requests c <= requests c1)%nat.
Proof.
  revert state result c.
  induction polls as [|polls IH]; intros state result c H; cbn [poll] in H.
  - destruct (pending state); injection H as <- _; lia.
  - destruct (pending state); [| injection H as <- _; lia].
    revert H. run_db. unfold sleep at 1.
    destruct (request net (Poll id) _) as [c2 [e|response]] eqn:Hreq.
    + intros H. injection H as <- _.
      apply request_error in Hreq as [_ [Hn _]]. cbn [requests] in *. lia.
    + apply request_ok in Hreq. cbn [requests] in Hreq.
      destruct (status_field (snd response) "state" (VStr "")) as [e|state'].
      * intros H. injection H as <- _. lia.
      * intros H. apply IH in H. lia.
Qed.

(** An attempt raises [ClientError] only because the network failed its
    last request: the submission, or a poll. *)
Lemma attempt_client_error (timeout : Z) (c c1 : client) :
  submit_and_poll net timeout c = (c1, inl ClientError) ->
  (requests c < requests c1)%nat /\ net (Nat.pred (requests c1)) = Fails.
Proof.
  unfold submit_and_poll. run_db.
  destruct (request net Post c) as [c2 [e|response]] eqn:Hreq.
  - intros H. injection H as <- _.
    apply request_error in Hreq as [_ [Hn Hf]].
    rewrite Hn. cbn [Nat.pred]. split; [lia | exact Hf].
  - apply request_ok in Hreq.
    destruct (negb (fst response =? 200)); [discriminate |].
    destruct (status_field (snd response) "state" (VStr "")) as [e|state] eqn:Hs.
    { intros H. injection H as _ ->. now apply status_field_error in Hs. }
    destruct (poll net _ _ state (snd response) c2) as [c3 [e|final]] eqn:Hpoll.
    { intros H. injection H as <- ->.
      apply poll_client_error in Hpoll as [Hlt Hf]. split; [lia | exact Hf]. }
    destruct (str_eq (fst final) "SUCCEEDED").
    { destruct (parse_rows (snd final)) as [e|rows] eqn:Hp; [| discriminate].
      intros H. injection H as _ ->. now apply parse_rows_error in Hp. }
    destruct (str_eq (fst final) "FAILED"); [| discriminate].
    destruct (status_field (snd final) "error" (VDict ∅)) as [e|err] eqn:He;
      [| discriminate].
    intros H. injection H as _ ->. now apply status_field_error in He.
Qed.

(** The retry loop, one attempt at a time. *)
Lemma attempts_step (attempt remaining : nat) (timeout : Z) (c : client) :
  attempts net attempt (Datatypes.S remaining) timeout c =
  match submit_and_poll net timeout c with
  | (c1, inl ClientError) =>
      if (attempt <? max_retries - 1)%nat then
        attempts net (Datatypes.S attempt) remaining timeout
          (Client (requests c1) (log c1 ++ [Sleep (base_delay * 2 ^ Z.of_nat attempt)]))
      else (c1, inl ClientError)
  | other => other
  end.
Proof.
  cbn [attempts]. run_db.
  destruct (submit_and_poll net timeout c) as [c1 [e|rows]]; [| reflexivity].
  destruct e; try reflexivity.
  destruct (attempt <? max_retries - 1)%nat; reflexivity.
Qed.

Lemma submissions_app (l1 l2 : list io) :
  submissions (l1 ++ l2) = (submissions l1 + submissions l2)%nat.
Proof. unfold submissions. now rewrite List.filter_app, length_app. Qed.

(** Polling submits nothing. *)
Lemma poll_submissions (polls : nat) (id state : value) (result : dict)
    (c c1 : client) (r : exn + (value * dict)) :
  poll net polls id state result c = (c1, r) ->
  submissions (log c1) = submissions (log c).
Proof.
  revert state result c.
  induction polls as [|polls IH]; intros state result c H; cbn [poll] in H.
  - destruct (pending state); now injection H as <- _.
  - destruct (pending state); [| now injection H as <- _].
    revert H. run_db. unfold sleep at 1, request.
    cbn [requests log].
    destruct (net (requests c)) as [|status result'].
    + intros H. injection H as <- _. cbn [log].
      now rewrite !submissions_app, !Nat.add_0_r.
    + cbn [fst snd].
      destruct (status_field result' "state" (VStr "")) as [e|state'].
      * intros H. injection H as <- _. cbn [log].
        now rewrite !submissions_app, !Nat.add_0_r.
      * intros H. apply IH in H. rewrite H. cbn [log].
        now rewrite !submissions_app, !Nat.add_0_r.
Qed.

(** An attempt submits once. *)
Lemma attempt_submissions (timeout : Z) (c c1 : client)
    (r : exn + list dict) :
  submit_and_poll net timeout c = (c1, r) ->
  submissions (log c1) = Datatypes.S (submissions (log c)).
Proof.
  unfold submit_and_poll. run_db. unfold request at 1.
  assert (Hpost : submissions (log c ++ [Post]) = Datatypes.S (submissions (log c)))
    by (rewrite submissions_app; cbn; lia).
  destruct (net (requests c)) as [|status result].
  - intros H. injection H as <- _. exact Hpost.
  - cbn [fst snd].
    destruct (negb (status =? 200)); [intros H; injection H as <- _; exact Hpost |].
    destruct (status_field result "state" (VStr "")) as [e|state];
      [intros H; injection H as <- _; exact Hpost |].
    destruct (poll net _ _ state result _) as [c2 [e|final]] eqn:Hpoll;
      apply poll_submissions in Hpoll; cbn [log] in Hpoll.
    + intros H. injection H as <- _. congruence.
    + destruct (str_eq (fst final) "SUCCEEDED");
        [intros H; injection H as <- _; congruence |].
      destruct (str_eq (fst final) "FAILED").
      * destruct (status_field (snd final) "error" (VDict ∅));
          intros H; injection H as <- _; congruence.
      * intros H. injection H as <- _. congruence.
Qed.

(** The retry loop submits at most as many times as it has attempts left. *)
Lemma attempts_submissions (remaining : nat) :
  forall (attempt : nat) (timeout : Z) (c c1 : client) (r : exn + list dict),
    attempts net attempt remaining timeout c = (c1, r) ->
    (submissions (log c1) <= submissions (log c) + remaining)%nat.
Proof.
  induction remaining as [|remaining IH]; intros attempt timeout c c1 r H.
  - cbn in H. injection H as <- _. lia.
  - rewrite attempts_step in H.
    destruct (submit_and_poll net timeout c) as [c2 [e|rows]] eqn:Hsub;
      apply attempt_submissions in Hsub.
    + destruct e; try (injection H as <- _; lia).
      destruct (attempt <? max_retries - 1)%nat;
        [| injection H as <- _; lia].
      apply IH in H. cbn [log] in H.
      rewrite submissions_app in H. cbn in H. lia.
    + injection H as <- _. lia.
Qed.

(** [_execute_sql] submits the statement at most three times. *)
Lemma execute_sql_submissions (timeout : Z) (c c1 : client)
    (r : exn + list dict) :
  execute_sql net timeout c = (c1, r) ->
  (submissions (log c1) <= submissions (log c) + 3)%nat.
Proof. apply attempts_submissions. Qed.

End Retry.

Section RetryPolicy.

Import QueryExecutor.

Variable net : nat -> http.

(** A failed submission ends the attempt with [ClientError]. *)
Lemma submission_failure_ends_attempt (timeout : Z) (c : client) :
  net (requests c) = Fails ->
  submit_and_poll net timeout c
  = (Client (Datatypes.S (requests c)) (log c ++ [Post]), inl ClientError).
Proof.
  intros Hf. unfold submit_and_poll.
  cbv beta iota zeta delta [mbind Db_bind db_bind request].
  now rewrite Hf.
Qed.

(** A failed first poll ends the attempt with [ClientError] as well. *)
Lemma polling_failure_ends_attempt (timeout : Z) (c : client) (result : dict)
    (state : value) :
  net (requests c) = Responds 200 result ->
  status_field result "state" (VStr "") = inr state ->
  pending state = true ->
  2 <= timeout ->
  net (Datatypes.S (requests c)) = Fails ->
  submit_and_poll net timeout c
  = (Client (Datatypes.S (Datatypes.S (requests c)))
       (log c ++ [Post; Sleep 2; Poll (get_none result "statement_id")]),
     inl ClientError).
Proof.
  intros Hsub Hstate Hpending Htimeout Hpoll. unfold submit_and_poll.
  cbv beta iota zeta delta
    [mbind mret Db_bind Db_ret db_bind db_ret db_lift db_raise request fst snd].
  rewrite Hsub. cbn [fst snd negb Z.eqb Pos.eqb]. rewrite Hstate.
  destruct (Z.to_nat (timeout / 2)) as [|polls] eqn:Hpolls.
  { assert (1 <= timeout / 2) by (apply Z.div_le_lower_bound; lia). lia. }
  cbn [poll]. rewrite Hpending.
  cbv beta iota zeta delta
    [mbind mret Db_bind Db_ret db_bind db_ret db_lift db_raise request sleep].
  cbn [requests log]. rewrite Hpoll, <- !app_assoc. reflexivity.
Qed.

(** A poll that the network fails, after [j] polls that found the
    statement pending, ends the polling with [ClientError]. *)
Lemma poll_fails_at (id : value) (j : nat) :
  forall (polls : nat) (results : nat -> dict) (states : nat -> value)
         (state : value) (result : dict) (c : client),
    pending state = true ->
    (forall i, (i < j)%nat ->
               net (requests c + i)%nat = Responds 200 (results i)
               /\ status_field (results i) "state" (VStr "") = inr (states i)
               /\ pending (states i) = true) ->
    net (requests c + j)%nat = Fails ->
    (j < polls)%nat ->
    poll net polls id state result c
    = (Client (requests c + Datatypes.S j) (log c ++ polls_of id (Datatypes.S j)),
       inl ClientError).
Proof.
  induction j as [|j IH];
    intros polls results states state result c Hp Hbefore Hfails Hbudget;
    (destruct polls as [|polls]; [lia |]); cbn [poll]; rewrite Hp;
    cbv beta iota zeta delta
      [mbind mret Db_bind Db_ret db_bind db_ret db_lift request sleep];
    cbn [requests log].
  - rewrite Nat.add_0_r in Hfails. rewrite Hfails.
    unfold polls_of. cbn [List.repeat List.concat app].
    rewrite <- app_assoc. cbn [app]. do 2 f_equal. lia.
  - destruct (Hbefore 0%nat ltac:(lia)) as (H0 & Hs0 & Hp0).
    rewrite Nat.add_0_r in H0. rewrite H0. cbn [fst snd]. rewrite Hs0.
    rewrite (IH polls (fun i => results (Datatypes.S i))
               (fun i => states (Datatypes.S i)) _ _ _ Hp0).
    + cbn [requests log]. unfold polls_of.
      cbn [List.repeat List.concat app]. rewrite <- !app_assoc. cbn [app].
      do 2 f_equal. lia.
    + intros i Hi. cbn [requests].
      replace (Datatypes.S (requests c) + i)%nat
        with (requests c + Datatypes.S i)%nat by lia.
      apply Hbefore. lia.
    + cbn [requests].
      now replace (Datatypes.S (requests c) + j)%nat
        with (requests c + Datatypes.S j)%nat by lia.
    + lia.
Qed.

(** An attempt in which the network fails the request number [j] (0 for
    the submission, [j] for the [j]-th poll) ends with [ClientError]. *)
Lemma network_failure_ends_attempt (timeout : Z) (c : client)
    (results : nat -> dict) (states : nat -> value) (j : nat) :
  (forall i, (i < j)%nat ->
             net (requests c + i)%nat = Responds 200 (results i)
             /\ status_field (results i) "state" (VStr "") = inr (states i)
             /\ pending (states i) = true) ->
  net (requests c + j)%nat = Fails ->
  (j <= Z.to_nat (timeout / 2))%nat ->
  submit_and_poll net timeout c
  = (Client (requests c + Datatypes.S j)
       (log c ++ Post :: polls_of (get_none (results 0%nat) "statement_id") j),
     inl ClientError).
Proof.
  intros Hbefore Hfails Hbudget. destruct j as [|j].
  - rewrite Nat.add_0_r in Hfails.
    rewrite submission_failure_ends_attempt by exact Hfails.
    do 2 f_equal. lia.
  - unfold submit_and_poll.
    cbv beta iota zeta delta
      [mbind mret Db_bind Db_ret db_bind db_ret db_lift db_raise request].
    destruct (Hbefore 0%nat ltac:(lia)) as (H0 & Hs0 & Hp0).
    rewrite Nat.add_0_r in H0. rewrite H0.
    cbn [fst snd negb Z.eqb Pos.eqb]. rewrite Hs0.
    rewrite (poll_fails_at _ j _ (fun i => results (Datatypes.S i))
               (fun i => states (Datatypes.S i)) _ _ _ Hp0).
    + cbn [requests log]. rewrite <- app_assoc. cbn [app].
      do 2 f_equal. lia.
    + intros i Hi. cbn [requests].
      replace (Datatypes.S (requests c) + i)%nat
        with (requests c + Datatypes.S i)%nat by lia.
      apply Hbefore. lia.
    + cbn [requests].
      now replace (Datatypes.S (requests c) + j)%nat
        with (requests c + Datatypes.S j)%nat by lia.
    + lia.
Qed.

End RetryPolicy.

(** C5 (as amended).  A network-level failure ([ClientError]) ends the
    attempt in which it occurs, whether the network fails the submission
    ([j = 0]) or, after a successful submission and polls that found the
    statement pending, the [j]-th poll.  The executor then sleeps and
    submits the statement again: 2 seconds after the first attempt, 4 after
    the second; the [ClientError] of the third attempt is raised to the
    caller.  An attempt raises [ClientError] only this way: the network
    failed the last request it made.  In all, the statement is submitted at
    most three times. *)
Theorem network_failure_is_retried
    (net : nat -> QueryExecutor.http) (timeout : Z)
    (c : QueryExecutor.client) (results : nat -> dict)
    (states : nat -> value) (j : nat) :
  (forall i, (i < j)%nat ->
             net (QueryExecutor.requests c + i)%nat
             = QueryExecutor.Responds 200 (results i)
             /\ QueryExecutor.status_field (results i) "state" (VStr "")
                = inr (states i)
             /\ QueryExecutor.pending (states i) = true) ->
  net (QueryExecutor.requests c + j)%nat = QueryExecutor.Fails ->
  (j <= Z.to_nat (timeout / 2))%nat ->
  let failed :=
    QueryExecutor.Client (QueryExecutor.requests c + Datatypes.S j)
      (QueryExecutor.log c
       ++ QueryExecutor.Post
          :: polls_of (get_none (results 0%nat) "statement_id") j) in
  QueryExecutor.submit_and_poll net timeout c = (failed, inl ClientError)
  /\ QueryExecutor.execute_sql net timeout c =
     match QueryExecutor.submit_and_poll net timeout
             (QueryExecutor.Client (QueryExecutor.requests failed)
                (QueryExecutor.log failed ++ [QueryExecutor.Sleep 2])) with
     | (c2, inl ClientError) =>
         QueryExecutor.submit_and_poll net timeout
           (QueryExecutor.Client (QueryExecutor.requests c2)
              (QueryExecutor.log c2 ++ [QueryExecutor.Sleep 4]))
     | other => other
     end
  /\ (forall c0 c1 : QueryExecutor.client,
        QueryExecutor.submit_and_poll net timeout c0 = (c1, inl ClientError) ->
        (QueryExecutor.requests c0 < QueryExecutor.requests c1)%nat
        /\ net (Nat.pred (QueryExecutor.requests c1)) = QueryExecutor.Fails)
  /\ (submissions (QueryExecutor.log
                     (fst (QueryExecutor.execute_sql net timeout c)))
      <= submissions (QueryExecutor.log c) + 3)%nat.
Proof.
  intros Hbefore Hfails Hbudget failed.
  pose proof (network_failure_ends_attempt net timeout c results states j
                Hbefore Hfails Hbudget) as H.
  fold failed in H.
  split; [exact H |].
  split; [| split;
    [intros c0 c1; apply (attempt_client_error net timeout)
    | apply (execute_sql_submissions net timeout c _
               (snd (QueryExecutor.execute_sql net timeout c)));
      now destruct (QueryExecutor.execute_sql net timeout c)]].
  unfold QueryExecutor.execute_sql, QueryExecutor.max_retries.
  rewrite attempts_step, H. clear H.
  cbn [Nat.ltb Nat.leb Nat.sub QueryExecutor.max_retries].
  change (QueryExecutor.base_delay * 2 ^ Z.of_nat 0) with 2.
  rewrite attempts_step.
  destruct (QueryExecutor.submit_and_poll net timeout
              (QueryExecutor.Client (QueryExecutor.requests failed) _))
    as [c2 [e|rows]]; [| reflexivity].
  destruct e; try reflexivity.
  cbn [Nat.ltb Nat.leb Nat.sub QueryExecutor.max_retries].
  change (QueryExecutor.base_delay * 2 ^ Z.of_nat 1) with 4.
  rewrite attempts_step.
  destruct (QueryExecutor.submit_and_poll net timeout
              (QueryExecutor.Client (QueryExecutor.requests c2) _))
    as [c3 [e|rows]]; [| reflexivity].
  destruct e; reflexivity.
Qed.

(** The network of the counterexample below: the submission is accepted
    and the first poll fails. *)
Lemma network_failure_is_retried_witness :
  let failed :=
    QueryExecutor.Client (QueryExecutor.requests QueryExecutor.start + 2)
      (QueryExecutor.log QueryExecutor.start
       ++ QueryExecutor.Post
          :: polls_of (get_none pending_response "statement_id") 1) in
  QueryExecutor.submit_and_poll poll_fails_once 300 QueryExecutor.start
  = (failed, inl ClientError)
  /\ QueryExecutor.execute_sql poll_fails_once 300 QueryExecutor.start =
     match QueryExecutor.submit_and_poll poll_fails_once 300
             (QueryExecutor.Client (QueryExecutor.requests failed)
                (QueryExecutor.log failed ++ [QueryExecutor.Sleep 2])) with
     | (c2, inl ClientError) =>
         QueryExecutor.submit_and_poll poll_fails_once 300
           (QueryExecutor.Client (QueryExecutor.requests c2)
              (QueryExecutor.log c2 ++ [QueryExecutor.Sleep 4]))
     | other => other
     end
  /\ (forall c0 c1 : QueryExecutor.client,
        QueryExecutor.submit_and_poll poll_fails_once 300 c0
        = (c1, inl ClientError) ->
        (QueryExecutor.requests c0 < QueryExecutor.requests c1)%nat
        /\ poll_fails_once (Nat.pred (QueryExecutor.requests c1))
           = QueryExecutor.Fails)
  /\ (submissions (QueryExecutor.log
                     (fst (QueryExecutor.execute_sql poll_fails_once 300
                             QueryExecutor.start)))
      <= submissions (QueryExecutor.log QueryExecutor.start) + 3)%nat.
Proof.
  apply (network_failure_is_retried poll_fails_once 300 QueryExecutor.start
           (fun _ => pending_response) (fun _ => VStr "PENDING") 1%nat).
  - intros i Hi. repeat split.
    destruct i as [|i]; [reflexivity | lia].
  - reflexivity.
  - vm_compute. lia.
Defined.

(** C5 as stated fails: the first poll fails, after a successful
    submission, and the executor submits the statement again and returns
    its rows; the failure of the poll does not reach the caller. *)
Lemma polling_failure_is_retried :
  QueryExecutor.execute_sql poll_fails_once 300 QueryExecutor.start
  = (QueryExecutor.Client 3
       [QueryExecutor.Post; QueryExecutor.Sleep 2;
        QueryExecutor.Poll (VStr "st-1");
        QueryExecutor.Sleep 2; QueryExecutor.Post],
     inr [{["health" := VStr "1"]}])
  /\ poll_fails_once 1 = QueryExecutor.Fails
  /\ (forall e, snd (QueryExecutor.execute_sql poll_fails_once 300
                       QueryExecutor.start) <> inl e).
Proof. repeat split. intros e. vm_compute. discriminate. Qed.

(** ** Turn numbers *)

(** C7 (the code departs from it).  Two messages sent one after the other
    on a connection to [/chat/{session_id}], for a fresh session, each fully
    processed and stored: both turns are stored, and announced, with turn
    number 1.  The endpoint reads the session state once, when the
    connection opens, and nothing puts the new turn number into the local
    state.  The same two messages on [/chat], which reads the stored state
    for every message, are stored as turns 1 and 2. *)
Theorem resumed_session_repeats_turn_number :
  let inputs :=
    [Receive (message_frame (Some "s1") "What is total spend?") an_env;
     Receive (message_frame (Some "s1") "And last year?") an_env] in
  let start := Server [] Databricks.empty in
  let resumed :=
    websocket_chat_session (Some Databricks.storage) answering true 0 "s1"
      inputs start in
  let chat :=
    websocket_chat (Some Databricks.storage) answering true 0 inputs start in
  snd resumed = inr Open
  /\ stored_turn_numbers "s1" (db (snd (fst resumed))) = [1; 1]
  /\ completed_turn_numbers (fst (fst resumed)) = [VInt 1; VInt 1]
  /\ map t_user_question (turn_rows "s1" (db (snd (fst resumed))))
     = ["What is total spend?"; "And last year?"]
  /\ stored_turn_numbers "s1" (db (snd (fst chat))) = [1; 2]
  /\ completed_turn_numbers (fst (fst chat)) = [VInt 1; VInt 2].
Proof. vm_compute. repeat split. Qed.

(** ** Turn numbers on [/chat] *)

Section Sequential.

(** The event loop does not touch the store. *)
Lemma relay_event_store {S : Type} (event : dict) (st : locals (S:=S)) :
  store (snd (fst (relay_event event st))) = store st.
Proof.
  unfold relay_event, relay_workflow_end.
  repeat case_match; run_m; unfold set_full_response, set_final_state;
    repeat case_match; rewrite ?stream_words_run in *; try reflexivity;
    simplify_eq; cbn; try reflexivity.
Qed.

Lemma for_each_store {S A : Type} (xs : list A)
    (body : A -> M (locals (S:=S)) unit) :
  (forall x st, store (snd (fst (body x st))) = store st) ->
  forall st, store (snd (fst (for_each xs body st))) = store st.
Proof.
  intros Hbody. induction xs as [|x xs IH]; intros st; [reflexivity |].
  cbn [for_each]. rewrite bind_run.
  specialize (Hbody x st).
  destruct (body x st) as [[fs st1] [e|[]]]; cbn [fst snd] in *; [exact Hbody |].
  specialize (IH st1).
  destruct (for_each xs body st1) as [[fs2 st2] r]. cbn [fst snd] in *.
  congruence.
Qed.

Lemma relay_events_store {S : Type} (r : run) (st : locals (S:=S)) :
  store (snd (fst (relay_events r st))) = store st.
Proof.
  unfold relay_events. rewrite bind_run.
  pose proof (for_each_store (run_events r) relay_event relay_event_store st)
    as H.
  destruct (for_each (run_events r) relay_event st) as [[fs st1] [e|[]]];
    cbn [fst snd] in *; [exact H |].
  destruct (run_raises r); exact H.
Qed.

(** What [persist] does on the Databricks store: the turn is stored when
    the response is a string, and nothing is stored otherwise (the
    [AttributeError] of [save_turn] is caught). *)
Lemma persist_databricks (sid question : string) (uid : value) (n : Z)
    (response : value) (snapshot : dict) (tm : times)
    (st : locals (S:=Databricks.tables)) :
  persist (Some Databricks.storage) sid question uid n response snapshot tm st
  = ([], Locals (full_response st) (final_state st)
           match response with
           | VStr r =>
               store_turn sid question uid n r snapshot
                 {["workflow" := VBool true]} tm (store st)
           | _ => store st
           end, inr tt).
Proof.
  unfold persist, try_except. rewrite bind_run.
  unfold storage_call, zoom, silent.
  change (save_turn Databricks.storage)
    with (Databricks.save_turn Databricks.warehouse).
  change (save_session Databricks.storage)
    with (Databricks.save_session Databricks.warehouse).
  unfold Databricks.save_turn, Databricks.save_session, Databricks.warehouse.
  cbv beta iota zeta delta
    [mbind mret Db_bind Db_ret db_bind db_ret db_lift M_ret ret].
  destruct response; try reflexivity.
  unfold store_turn. cbn [Databricks.run_statement fst snd].
  cbn [full_response final_state store Databricks.sessions].
  destruct (existsb (Databricks.has_id sid) (Databricks.sessions (store st)));
    reflexivity.
Qed.

Lemma stream_response_workflow_store (r : run) (sid question : string)
    (uid : value) (state : dict) (tm : times) (t : Databricks.tables) :
  turn_effect sid question uid state tm t
    (snd (fst (stream_response_workflow (Some Databricks.storage) r sid
                 question uid state tm t))).
Proof.
  unfold stream_response_workflow, workflow_turn. run_m.
  pose proof (relay_events_store r (Locals (VStr "") state t)) as Hstore.
  destruct (relay_events r _) as [[fs st] [e|[]]]; cbn [fst snd store] in *.
  - left. exact Hstore.
  - destruct (py_add_one _) as [e|n] eqn:Hn; cbn [fst snd store].
    + left. exact Hstore.
    + rewrite persist_databricks. cbn [fst snd store].
      destruct (full_response st); try (left; exact Hstore).
      right. rewrite Hstore. eauto 10.
Qed.

Lemma stream_response_placeholder_store (sid question : string) (uid : value)
    (state : dict) (tm : times) (t : Databricks.tables) :
  turn_effect sid question uid state tm t
    (snd (fst (stream_response_placeholder (Some Databricks.storage) sid
                 question uid state tm t))).
Proof.
  unfold stream_response_placeholder. run_m.
  rewrite stream_words_run.
  unfold storage_call, zoom, silent.
  change (save_turn Databricks.storage)
    with (Databricks.save_turn Databricks.warehouse).
  change (save_session Databricks.storage)
    with (Databricks.save_session Databricks.warehouse).
  unfold Databricks.save_turn, Databricks.save_session, Databricks.warehouse.
  cbv beta iota zeta delta
    [mbind mret Db_bind Db_ret db_bind db_ret db_lift M_ret M_bind bind ret lift].
  destruct (py_add_one _) as [e|n] eqn:Hn; cbn [fst snd store].
  - now left.
  - right. exists n.
    exists (PyStr.strip
              (PyStr.concat
                 (PyStr.spaced (PyStr.split (placeholder_response question))))).
    exists state, {["placeholder" := VBool true]}.
    split; [exact Hn |].
    unfold store_turn.
    cbn [Databricks.run_statement fst snd Databricks.sessions Databricks.turns
         store full_response final_state].
    destruct (existsb (Databricks.has_id sid) (Databricks.sessions t));
      reflexivity.
Qed.

Lemma stream_response_store (importable : bool) (r : run)
    (sid question : string) (uid : value) (state : dict) (tm : times)
    (t : Databricks.tables) :
  turn_effect sid question uid state tm t
    (snd (fst (stream_response (Some Databricks.storage) importable r sid
                 question uid state tm t))).
Proof.
  unfold stream_response, USE_REAL_WORKFLOW. destruct importable.
  - apply stream_response_workflow_store.
  - apply stream_response_placeholder_store.
Qed.

Lemma sequential_empty : sequential Databricks.empty.
Proof. intros sid. repeat split. constructor. Qed.

Lemma numbered_succ (n : nat) :
  numbered (Datatypes.S n) = numbered n ++ [Z.of_nat n + 1].
Proof.
  unfold numbered. rewrite seq_S, map_app. cbn [map].
  do 2 f_equal. lia.
Qed.

Lemma store_turn_turns (sid question : string) (uid : value) (n : Z)
    (response : string) (snapshot metadata : dict) (tm : times)
    (t : Databricks.tables) :
  Databricks.turns
    (store_turn sid question uid n response snapshot metadata tm t)
  = Databricks.turns t
    ++ [Turn sid n question response snapshot metadata (at_save_turn tm)].
Proof.
  unfold store_turn.
  cbn [Databricks.run_statement fst snd Databricks.sessions Databricks.turns].
  destruct (existsb _ _); reflexivity.
Qed.

Lemma store_turn_sessions (sid question : string) (uid : value) (n : Z)
    (response : string) (snapshot metadata : dict) (tm : times)
    (t : Databricks.tables) :
  Databricks.sessions
    (store_turn sid question uid n response snapshot metadata tm t)
  = if existsb (Databricks.has_id sid) (Databricks.sessions t) then
      map (Databricks.merge_update sid (default "" (turn_title question n))
             (<["turn_number" := VInt n]> snapshot) (at_save_session tm))
        (Databricks.sessions t)
    else
      Databricks.sessions t
      ++ [Session sid uid (default "" (turn_title question n))
            (<["turn_number" := VInt n]> snapshot)
            (at_save_session tm) (at_save_session tm)].
Proof.
  unfold store_turn.
  cbn [Databricks.run_statement fst snd Databricks.sessions Databricks.turns].
  destruct (existsb _ _); reflexivity.
Qed.

(** The MERGE keeps the session id of every row. *)
Lemma merge_update_id (sid sid' title : string) (st : dict) (now : string)
    (row : session) :
  Databricks.has_id sid' (Databricks.merge_update sid title st now row)
  = Databricks.has_id sid' row.
Proof.
  unfold Databricks.merge_update. now destruct (Databricks.has_id sid row).
Qed.

(** The rows of another session are as they were. *)
Lemma merge_update_other (sid sid' title : string) (st : dict) (now : string)
    (rows : list session) :
  sid' <> sid ->
  List.filter (Databricks.has_id sid')
    (map (Databricks.merge_update sid title st now) rows)
  = List.filter (Databricks.has_id sid') rows.
Proof.
  intros Hne. induction rows as [|row rows IH]; [reflexivity |].
  cbn [map List.filter]. rewrite merge_update_id, IH.
  destruct (Databricks.has_id sid' row) eqn:Hrow; [| reflexivity].
  f_equal. unfold Databricks.merge_update.
  destruct (Databricks.has_id sid row) eqn:Hrow'; [| reflexivity].
  unfold Databricks.has_id in *.
  apply String.eqb_eq in Hrow, Hrow'. congruence.
Qed.

(** The rows of the session itself all have the state written. *)
Lemma merge_update_same (sid title : string) (st : dict) (now : string)
    (rows : list session) :
  List.Forall (fun row => s_state row = st)
    (List.filter (Databricks.has_id sid)
       (map (Databricks.merge_update sid title st now) rows)).
Proof.
  induction rows as [|row rows IH]; [constructor |].
  cbn [map List.filter]. rewrite merge_update_id.
  destruct (Databricks.has_id sid row) eqn:Hrow; [| exact IH].
  constructor; [| exact IH].
  unfold Databricks.merge_update. now rewrite Hrow.
Qed.

Lemma filter_nil_existsb {A} (p : A -> bool) (l : list A) :
  List.filter p l = [] -> existsb p l = false.
Proof.
  induction l as [|x l IH]; [reflexivity |].
  cbn [List.filter existsb]. destruct (p x); [discriminate | exact IH].
Qed.

(** Storing the turn after the last one keeps the invariant. *)
Lemma store_turn_sequential (sid question : string) (uid : value) (n : Z)
    (response : string) (snapshot metadata : dict) (tm : times)
    (t : Databricks.tables) :
  sequential t ->
  n = Z.of_nat (turn_count sid t) + 1 ->
  sequential (store_turn sid question uid n response snapshot metadata tm t).
Proof.
  intros Hseq Hn sid'.
  destruct (Hseq sid') as [Hnum [Hrows Hnone]].
  unfold stored_turn_numbers, turn_count, turn_rows, session_rows in *.
  rewrite store_turn_turns, store_turn_sessions, List.filter_app.
  cbn [List.filter].
  change (Databricks.of_session sid'
            (Turn sid n question response snapshot metadata (at_save_turn tm)))
    with (String.eqb sid sid').
  set (row_state := <["turn_number" := VInt n]> snapshot : dict).
  set (new_row := Session sid uid (default "" (turn_title question n)) row_state
                    (at_save_session tm) (at_save_session tm)).
  assert (Hnew : Databricks.has_id sid' new_row = String.eqb sid sid')
    by reflexivity.
  destruct (String.eqb sid sid') eqn:Hsid.
  - apply String.eqb_eq in Hsid. subst sid'.
    rewrite length_app, map_app. cbn [length map t_turn_number].
    replace (length (List.filter (Databricks.of_session sid) (Databricks.turns t)) + 1)%nat
      with (Datatypes.S (length (List.filter (Databricks.of_session sid)
                                   (Databricks.turns t)))) by lia.
    rewrite numbered_succ, Hnum, <- Hn.
    assert (Hlast : row_state !! "turn_number"
                    = Some (VInt (Z.of_nat
                                    (Datatypes.S
                                       (length (List.filter (Databricks.of_session sid)
                                                  (Databricks.turns t))))))).
    { unfold row_state. rewrite lookup_insert_eq. do 2 f_equal. lia. }
    split; [reflexivity |].
    destruct (existsb (Databricks.has_id sid) (Databricks.sessions t)) eqn:Hex.
    + split.
      * eapply List.Forall_impl; [| apply (merge_update_same sid _ row_state)].
        intros row ->. exact Hlast.
      * intros Hnil. apply filter_nil_existsb in Hnil.
        apply List.existsb_exists in Hex as [row [Hin Hrow]].
        assert (existsb (Databricks.has_id sid)
                  (map (Databricks.merge_update sid
                          (default "" (turn_title question n)) row_state
                          (at_save_session tm)) (Databricks.sessions t)) = true).
        { apply List.existsb_exists.
          exists (Databricks.merge_update sid (default "" (turn_title question n))
                    row_state (at_save_session tm) row).
          split; [now apply List.in_map | now rewrite merge_update_id]. }
        congruence.
    + rewrite List.filter_app. cbn [List.filter]. rewrite Hnew. split.
      * apply List.Forall_app. split; [| repeat constructor; exact Hlast].
        assert (Hnone' : List.filter (Databricks.has_id sid) (Databricks.sessions t) = []).
        { clear -Hex. induction (Databricks.sessions t) as [|r l IH];
            [reflexivity |].
          cbn [existsb List.filter] in *.
          apply orb_false_iff in Hex as [-> Hl]. now apply IH. }
        rewrite Hnone'. constructor.
      * intros Hnil. apply app_eq_nil in Hnil as [_ Hnil]. discriminate.
  - assert (Hne : sid' <> sid).
    { intros ->. rewrite String.eqb_refl in Hsid. discriminate. }
    rewrite app_nil_r.
    split; [exact Hnum |].
    destruct (existsb (Databricks.has_id sid) (Databricks.sessions t)).
    + rewrite merge_update_other by assumption. now split.
    + rewrite List.filter_app. cbn [List.filter]. rewrite Hnew, app_nil_r.
      now split.
Qed.

Lemma update_state_turn_number (question sid : string) (uid : value)
    (st : dict) (dflt : value) :
  get (update_state question sid uid st) "turn_number" dflt
  = get st "turn_number" dflt.
Proof.
  unfold update_state. now rewrite !get_insert_ne by discriminate.
Qed.

(** The store after answering is the store after the turn. *)
Lemma respond_store {S : Type} (storage : option (StorageBackend S))
    (run_workflow : string -> string -> value -> option string -> dict -> run)
    (importable : bool) (sid question : string) (uid : value)
    (email : option string) (st : dict) (tm : times) (c : conn (S:=S)) :
  db (srv (snd (fst (respond storage run_workflow importable sid question uid
                       email st tm c))))
  = snd (fst (stream_response storage importable
                (run_workflow question sid uid email st) sid question uid st
                tm (db (srv c)))).
Proof.
  unfold respond, on_store. run_m.
  destruct (stream_response _ _ _ _ _ _ _ _ _) as [[fs db'] [e|v]];
    reflexivity.
Qed.

(** Loading the state from the Databricks store: the state of the first
    row of the session, or the empty state; the store is as it was. *)
Lemma load_state_databricks (sid : string) (c : conn (S:=Databricks.tables)) :
  load_state (Some Databricks.storage) sid c
  = ([], Conn (session_id c)
           match head (session_rows sid (db (srv c))) with
           | Some row => s_state row
           | None => ∅
           end
           (Server (active_connections (srv c)) (db (srv c))), inr tt).
Proof.
  unfold load_state, on_store. run_m. unfold set_state.
  cbn [session_id state srv db active_connections].
  rewrite get_session_run. cbn [fst snd].
  destruct (head (session_rows sid (db (srv c)))); reflexivity.
Qed.

(** Under the invariant, the state loaded for a session has the number of
    its turns as turn number. *)
Lemma loaded_turn_number (sid : string) (t : Databricks.tables) :
  sequential t ->
  py_add_one
    (get match head (session_rows sid t) with
         | Some row => s_state row
         | None => ∅
         end "turn_number" (VInt 0))
  = inr (Z.of_nat (turn_count sid t) + 1).
Proof.
  intros Hseq. destruct (Hseq sid) as [_ [Hrows Hnone]].
  destruct (session_rows sid t) as [|row rows] eqn:Hs; cbn [head].
  - rewrite Hnone by reflexivity. reflexivity.
  - apply List.Forall_inv in Hrows. unfold get. now rewrite Hrows.
Qed.

Lemma turn_effect_sequential (sid question : string) (uid : value)
    (state : dict) (tm : times) (t t' : Databricks.tables) :
  sequential t ->
  py_add_one (get state "turn_number" (VInt 0))
  = inr (Z.of_nat (turn_count sid t) + 1) ->
  turn_effect sid question uid state tm t t' ->
  sequential t'.
Proof.
  intros Hseq Hn [-> | [n [response [snapshot [metadata [Hn' ->]]]]]];
    [exact Hseq |].
  apply store_turn_sequential; [exact Hseq | congruence].
Qed.

(** Handling a frame on [/chat] keeps the invariant of the store. *)
Lemma chat_frame_sequential
    (run_workflow : string -> string -> value -> option string -> dict -> run)
    (importable : bool) (websocket : nat) (data : inbound) (env : message_env)
    (c : conn (S:=Databricks.tables)) :
  sequential (db (srv c)) ->
  sequential
    (db (srv (snd (fst (chat_frame (Some Databricks.storage) run_workflow
                          importable websocket data env c))))).
Proof.
  intros Hseq. unfold chat_frame.
  destruct (str_eq _ "ping"); [exact Hseq |].
  destruct (str_eq _ "message"); [| exact Hseq].
  rewrite !bind_run. cbn [set_session_id]. rewrite !bind_run. unfold lift.
  destruct (py_strip _) as [e|question]; [exact Hseq |].
  destruct (String.eqb question ""); [exact Hseq |].
  match goal with
  | |- context [match ?k with KeyStr _ => _ | KeyList _ => _ | KeyDict _ => _ end] =>
      destruct k as [sid|l|d]
  end; try exact Hseq.
  rewrite !bind_run. cbn [on_registry]. rewrite !bind_run.
  rewrite load_state_databricks. cbn [session_id state srv db active_connections].
  rewrite !bind_run. cbn [read]. rewrite !bind_run. cbn [set_state].
  cbn [session_id state srv db active_connections].
  match goal with
  | |- context [respond ?a ?b ?i ?s ?qq ?u ?e ?st ?tm ?c'] =>
      pose proof (respond_store a b i s qq u e st tm c') as Hr;
      destruct (respond a b i s qq u e st tm c') as [[fs c2] r]
  end.
  cbn [fst snd srv db] in *. rewrite Hr.
  eapply turn_effect_sequential; [exact Hseq | | apply stream_response_store].
  rewrite update_state_turn_number. now apply loaded_turn_number.
Qed.

Lemma chat_loop_sequential
    (run_workflow : string -> string -> value -> option string -> dict -> run)
    (importable : bool) (websocket : nat) (inputs : list received) :
  forall c : conn (S:=Databricks.tables),
    sequential (db (srv c)) ->
    sequential
      (db (srv (snd (fst (chat_loop (Some Databricks.storage) run_workflow
                            importable websocket inputs c))))).
Proof.
  induction inputs as [|[data env|e] rest IH]; intros c Hseq;
    cbn [chat_loop]; try exact Hseq.
  rewrite bind_run.
  pose proof (chat_frame_sequential run_workflow importable websocket data env
                c Hseq) as Hframe.
  destruct (chat_frame _ _ _ _ _ _ c) as [[fs c1] [e|[]]];
    cbn [fst snd] in *; [exact Hframe |].
  specialize (IH c1 Hframe).
  destruct (chat_loop _ _ _ _ rest c1) as [[fs2 c2] r]. exact IH.
Qed.

(** Serving a connection to [/chat] keeps the invariant of the store,
    however the connection ends. *)
Lemma websocket_chat_sequential
    (run_workflow : string -> string -> value -> option string -> dict -> run)
    (importable : bool) (websocket : nat) (inputs : list received)
    (s : server (S:=Databricks.tables)) :
  sequential (db s) ->
  sequential
    (db (snd (fst (websocket_chat (Some Databricks.storage) run_workflow
                     importable websocket inputs s)))).
Proof.
  intros Hseq. unfold websocket_chat, zoom, try_except.
  rewrite bind_run.
  pose proof (chat_loop_sequential run_workflow importable websocket inputs
                (Conn None ∅ s) Hseq) as Hloop.
  destruct (chat_loop _ _ _ _ inputs _) as [[fs c1] [e|[]]];
    cbn [fst snd] in *; [| exact Hloop].
  unfold disconnect_if_set. rewrite !bind_run. cbn [read].
  destruct (session_id c1) as [key|]; [| exact Hloop].
  destruct (truthy (key_value key)); [| exact Hloop].
  destruct key as [sid|l|d]; cbn [disconnect_key]; try exact Hloop;
    rewrite !bind_run; cbn [read];
    destruct (active_connections (srv c1)); exact Hloop.
Qed.

(** On [/chat], whatever the workflow yields and whatever frames arrive,
    for whatever sessions, the turns stored for a session carry the numbers
    1 to N in the order of their saving: no gap, no repeat. *)
Lemma chat_turn_numbers_are_sequential
    (run_workflow : string -> string -> value -> option string -> dict -> run)
    (importable : bool) (websocket : nat) (inputs : list received)
    (registry : ConnectionManager.registry) (sid : string) :
  let served :=
    websocket_chat (Some Databricks.storage) run_workflow importable websocket
      inputs (Server registry Databricks.empty) in
  stored_turn_numbers sid (db (snd (fst served)))
  = numbered (turn_count sid (db (snd (fst served)))).
Proof.
  cbv zeta.
  apply (websocket_chat_sequential run_workflow importable websocket inputs
           (Server registry Databricks.empty) sequential_empty sid).
Qed.

End Sequential.

(** ** The connection registry *)

Section Registry.

Import ConnectionManager.

Lemma lookup_assign (sid : string) (websocket : nat) (r : registry) :
  lookup sid (assign sid websocket r) = Some websocket.
Proof.
  induction r as [|[k w] r IH]; cbn [assign lookup].
  - now rewrite String.eqb_refl.
  - destruct (String.eqb k sid) eqn:Hk; cbn [lookup]; now rewrite Hk.
Qed.

Lemma lookup_assign_ne (sid sid' : string) (websocket : nat) (r : registry) :
  sid' <> sid -> lookup sid' (assign sid websocket r) = lookup sid' r.
Proof.
  intros Hne. induction r as [|[k w] r IH]; cbn [assign lookup].
  - destruct (String.eqb sid sid') eqn:H; [| reflexivity].
    apply String.eqb_eq in H. congruence.
  - destruct (String.eqb k sid) eqn:Hk; cbn [lookup].
    + apply String.eqb_eq in Hk. subst k.
      destruct (String.eqb sid sid') eqn:H; [| reflexivity].
      apply String.eqb_eq in H. congruence.
    + now rewrite IH.
Qed.

Lemma lookup_disconnect_ne (sid sid' : string) (r : registry) :
  sid' <> sid -> lookup sid' (disconnect sid r) = lookup sid' r.
Proof.
  intros Hne. induction r as [|[k w] r IH]; cbn [disconnect lookup];
    [reflexivity |].
  destruct (String.eqb k sid) eqn:Hk; cbn [lookup].
  - apply String.eqb_eq in Hk. subst k.
    destruct (String.eqb sid sid') eqn:H; [| reflexivity].
    apply String.eqb_eq in H. congruence.
  - now rewrite IH.
Qed.

Lemma lookup_none_keys (sid : string) (r : registry) :
  ~ List.In sid (map fst r) -> lookup sid r = None.
Proof.
  induction r as [|[k w] r IH]; cbn [map fst lookup List.In]; [reflexivity |].
  intros Hn. destruct (String.eqb k sid) eqn:Hk.
  - apply String.eqb_eq in Hk. tauto.
  - apply IH. tauto.
Qed.

Lemma keys_assign (sid : string) (websocket : nat) (r : registry) (k : string) :
  List.In k (map fst (assign sid websocket r))
  <-> k = sid \/ List.In k (map fst r).
Proof.
  induction r as [|[k0 w] r IH]; cbn [assign map fst List.In].
  - intuition congruence.
  - destruct (String.eqb k0 sid) eqn:Hk; cbn [map fst List.In].
    + apply String.eqb_eq in Hk. subst k0. intuition congruence.
    + rewrite IH. tauto.
Qed.

Lemma keys_disconnect (sid : string) (r : registry) (k : string) :
  List.In k (map fst (disconnect sid r)) -> List.In k (map fst r).
Proof.
  induction r as [|[k0 w] r IH]; cbn [disconnect map fst List.In]; [tauto |].
  destruct (String.eqb k0 sid); cbn [map fst List.In]; tauto.
Qed.

Lemma nodup_assign (sid : string) (websocket : nat) (r : registry) :
  List.NoDup (map fst r) -> List.NoDup (map fst (assign sid websocket r)).
Proof.
  induction r as [|[k w] r IH]; cbn [assign map fst]; intros Hnd.
  - repeat constructor. intros [].
  - apply List.NoDup_cons_iff in Hnd as [Hk Hnd].
    destruct (String.eqb k sid) eqn:Hks; cbn [map fst].
    + now constructor.
    + constructor; [| now apply IH].
      rewrite keys_assign. intros [-> | Hin]; [| tauto].
      now rewrite String.eqb_refl in Hks.
Qed.

Lemma nodup_disconnect (sid : string) (r : registry) :
  List.NoDup (map fst r) -> List.NoDup (map fst (disconnect sid r)).
Proof.
  induction r as [|[k w] r IH]; cbn [disconnect map fst]; intros Hnd;
    [constructor |].
  apply List.NoDup_cons_iff in Hnd as [Hk Hnd].
  destruct (String.eqb k sid); cbn [map fst]; [assumption |].
  constructor; [| now apply IH].
  intros Hin. apply keys_disconnect in Hin. tauto.
Qed.

Lemma lookup_disconnect (sid : string) (r : registry) :
  List.NoDup (map fst r) -> lookup sid (disconnect sid r) = None.
Proof.
  induction r as [|[k w] r IH]; cbn [disconnect map fst lookup]; intros Hnd;
    [reflexivity |].
  apply List.NoDup_cons_iff in Hnd as [Hk Hnd].
  destruct (String.eqb k sid) eqn:Hks; cbn [lookup].
  - apply String.eqb_eq in Hks. subst k. now apply lookup_none_keys.
  - rewrite Hks. now apply IH.
Qed.

End Registry.

(** X1.  A connection registered under a session id takes the place of the
    one that was there: [send_json] for that id writes to the new websocket
    and to no other, and the entries of the other ids are as they were. *)
Theorem connect_replaces_the_entry
    {A : Type} (writable : nat -> bool) (websocket : nat) (sid : string)
    (data : A) (r : ConnectionManager.registry) :
  ConnectionManager.lookup sid (ConnectionManager.connect websocket sid r)
  = Some websocket
  /\ ConnectionManager.send_json writable sid data
       (ConnectionManager.connect websocket sid r)
     = (if writable websocket then ([(websocket, data)], inr tt)
        else ([], inl WebSocketDisconnect))
  /\ (forall sid', sid' <> sid ->
        ConnectionManager.lookup sid' (ConnectionManager.connect websocket sid r)
        = ConnectionManager.lookup sid' r)
  /\ length (ConnectionManager.connect websocket sid r)
     = match ConnectionManager.lookup sid r with
       | Some _ => length r
       | None => Datatypes.S (length r)
       end.
Proof.
  unfold ConnectionManager.connect, ConnectionManager.send_json.
  rewrite lookup_assign. repeat split.
  - intros sid' Hne. now apply lookup_assign_ne.
  - induction r as [|[k w] r IH];
      cbn [ConnectionManager.assign ConnectionManager.lookup length];
      [reflexivity |].
    destruct (String.eqb k sid); cbn [length]; [reflexivity |].
    rewrite IH. now destruct (ConnectionManager.lookup sid r).
Qed.

(** X2.  A registry built by [connect] and [disconnect] has one entry per
    session id at most, and after [disconnect] a [send_json] for the id is
    dropped: nothing is written and nothing is raised.  The other ids keep
    their entries. *)
Theorem disconnect_drops_later_sends
    {A : Type} (writable : nat -> bool) (websocket : nat) (sid : string)
    (data : A) (r : ConnectionManager.registry) :
  List.NoDup (map fst r) ->
  List.NoDup (map fst (ConnectionManager.connect websocket sid r))
  /\ List.NoDup (map fst (ConnectionManager.disconnect sid r))
  /\ ConnectionManager.lookup sid (ConnectionManager.disconnect sid r) = None
  /\ ConnectionManager.send_json writable sid data
       (ConnectionManager.disconnect sid r)
     = ([], inr tt)
  /\ (forall sid', sid' <> sid ->
        ConnectionManager.lookup sid' (ConnectionManager.disconnect sid r)
        = ConnectionManager.lookup sid' r).
Proof.
  intros Hnd. unfold ConnectionManager.connect, ConnectionManager.send_json.
  rewrite lookup_disconnect by assumption.
  repeat split.
  - now apply nodup_assign.
  - now apply nodup_disconnect.
  - intros sid' Hne. now apply lookup_disconnect_ne.
Qed.

Lemma disconnect_drops_later_sends_witness :
  let r := ConnectionManager.connect 1 "b" (ConnectionManager.connect 0 "a" []) in
  List.NoDup (map fst (ConnectionManager.connect 2 "a" r))
  /\ List.NoDup (map fst (ConnectionManager.disconnect "a" r))
  /\ ConnectionManager.lookup "a" (ConnectionManager.disconnect "a" r) = None
  /\ ConnectionManager.send_json (fun _ => true) "a" "hello"
       (ConnectionManager.disconnect "a" r)
     = ([], inr tt)
  /\ (forall sid', sid' <> "a" ->
        ConnectionManager.lookup sid' (ConnectionManager.disconnect "a" r)
        = ConnectionManager.lookup sid' r).
Proof.
  intros r.
  apply (disconnect_drops_later_sends (fun _ => true) 2 "a" "hello" r).
  repeat constructor; cbn; intuition discriminate.
Defined.

(** ** The receive loops *)

Section Loops.

Context {S : Type}.
Variable storage : option (StorageBackend S).
Variable run_workflow : string -> string -> value -> option string -> dict -> run.
Variable workflow_importable : bool.

Lemma chat_frame_ping (websocket : nat) (data : inbound) (env : message_env)
    (c : conn (S:=S)) :
  chat_frame storage run_workflow workflow_importable websocket
    (with_type (Some (VStr "ping")) data) env c
  = ([Pong], c, inr tt).
Proof. reflexivity. Qed.

Lemma session_frame_ping (sid : string) (data : inbound) (env : message_env)
    (c : conn (S:=S)) :
  session_frame storage run_workflow workflow_importable sid
    (with_type (Some (VStr "ping")) data) env c
  = ([Pong], c, inr tt).
Proof. reflexivity. Qed.

(** The loop stops at the first receive that raises: what comes after is
    not looked at. *)
Lemma chat_loop_stops (websocket : nat) (before rest : list received)
    (e : exn) :
  forall c : conn (S:=S),
    chat_loop storage run_workflow workflow_importable websocket
      (before ++ ReceiveRaises e :: rest) c
    = chat_loop storage run_workflow workflow_importable websocket
        (before ++ [ReceiveRaises e]) c
    /\ exists e', snd (chat_loop storage run_workflow workflow_importable
                         websocket (before ++ [ReceiveRaises e]) c) = inl e'.
Proof.
  induction before as [|[data env|e0] before IH]; intros c; cbn [app chat_loop].
  - split; [reflexivity | eauto].
  - rewrite !bind_run.
    destruct (chat_frame _ _ _ _ data env c) as [[fs c1] [e1|[]]].
    + split; [reflexivity | eauto].
    + destruct (IH c1) as [-> [e' He']].
      destruct (chat_loop _ _ _ _ _ c1) as [[fs2 c2] r2].
      split; [reflexivity | cbn [snd] in *; eauto].
  - split; [reflexivity | eauto].
Qed.

Lemma session_loop_stops (sid : string) (before rest : list received)
    (e : exn) :
  forall c : conn (S:=S),
    session_loop storage run_workflow workflow_importable sid
      (before ++ ReceiveRaises e :: rest) c
    = session_loop storage run_workflow workflow_importable sid
        (before ++ [ReceiveRaises e]) c
    /\ exists e', snd (session_loop storage run_workflow workflow_importable
                         sid (before ++ [ReceiveRaises e]) c) = inl e'.
Proof.
  induction before as [|[data env|e0] before IH]; intros c;
    cbn [app session_loop].
  - split; [reflexivity | eauto].
  - rewrite !bind_run.
    destruct (session_frame _ _ _ _ data env c) as [[fs c1] [e1|[]]].
    + split; [reflexivity | eauto].
    + destruct (IH c1) as [-> [e' He']].
      destruct (session_loop _ _ _ _ _ c1) as [[fs2 c2] r2].
      split; [reflexivity | cbn [snd] in *; eauto].
  - split; [reflexivity | eauto].
Qed.

(** Answering changes neither the local [session_id] nor the registry. *)
Lemma respond_session_id (sid question : string) (uid : value)
    (email : option string) (st : dict) (tm : times) (c : conn (S:=S)) :
  session_id (snd (fst (respond storage run_workflow workflow_importable sid
                          question uid email st tm c)))
  = session_id c.
Proof.
  unfold respond, try_except. rewrite bind_run. unfold on_store, zoom.
  destruct (stream_response _ _ _ _ _ _ _ _ _) as [[fs db'] [e|v]];
    reflexivity.
Qed.

(** A frame leaves the local [session_id] as it is, or assigns the session
    id chosen for the frame. *)
Lemma chat_frame_session_id (websocket : nat) (data : inbound)
    (env : message_env) (c : conn (S:=S)) :
  let c' := snd (fst (chat_frame storage run_workflow workflow_importable
                        websocket data env c)) in
  session_id c' = session_id c
  \/ session_id c' = Some (chosen_session_id data env).
Proof.
  cbv zeta. unfold chat_frame. fold (chosen_session_id data env).
  destruct (str_eq _ "ping"); [now left |].
  destruct (str_eq _ "message"); [| now left].
  right. rewrite !bind_run. cbn [set_session_id]. rewrite !bind_run.
  unfold lift.
  destruct (py_strip _) as [e|question]; [reflexivity |].
  destruct (String.eqb question ""); [reflexivity |].
  destruct (chosen_session_id data env) as [sid|l|d]; try reflexivity.
  rewrite !bind_run. cbn [on_registry]. rewrite !bind_run.
  match goal with
  | |- context [load_state storage ?s ?c'] =>
      destruct (load_state_run storage s c') as [st' [db' ->]]
  end.
  rewrite !bind_run. cbn [read]. rewrite !bind_run.
  unfold set_state. cbn beta iota.
  match goal with
  | |- context [respond ?a ?b ?i ?s ?qq ?u ?e ?st ?tm ?c'] =>
      pose proof (respond_session_id s qq u e st tm c') as Hr;
      destruct (respond a b i s qq u e st tm c') as [[fs c2] r]
  end.
  cbn [fst snd session_id] in *. exact Hr.
Qed.

(** After the loop the local [session_id] is the one it began with, or the
    one chosen for one of the frames. *)
Lemma chat_loop_session_id (websocket : nat) (inputs : list received) :
  forall c : conn (S:=S),
    let c' := snd (fst (chat_loop storage run_workflow workflow_importable
                          websocket inputs c)) in
    session_id c' = session_id c
    \/ exists data env,
         In (Receive data env) inputs
         /\ session_id c' = Some (chosen_session_id data env).
Proof.
  cbv zeta.
  induction inputs as [|[data env|e] rest IH]; intros c; cbn [chat_loop];
    try (now left).
  rewrite bind_run.
  pose proof (chat_frame_session_id websocket data env c) as Hframe.
  cbv zeta in Hframe.
  destruct (chat_frame _ _ _ _ data env c) as [[fs c1] [e|[]]];
    cbn [fst snd] in *.
  - destruct Hframe as [-> | ->]; [now left | right].
    exists data, env. split; [now left | reflexivity].
  - specialize (IH c1).
    destruct (chat_loop _ _ _ _ rest c1) as [[fs2 c2] r]. cbn [fst snd] in *.
    destruct IH as [-> | (data' & env' & Hin & ->)].
    + destruct Hframe as [-> | ->]; [now left | right].
      exists data, env. split; [now left | reflexivity].
    + right. exists data', env'. split; [now right | reflexivity].
Qed.

(** The handler of [websocket_chat] raises only [TypeError], and only for
    a session id that cannot be hashed. *)
Lemma disconnect_if_set_run (c : conn (S:=S)) :
  match snd (disconnect_if_set c) with
  | inr _ => True
  | inl e' =>
      e' = TypeError
      /\ exists key, session_id c = Some key
                     /\ match key with KeyStr _ => False | _ => True end
  end.
Proof.
  unfold disconnect_if_set. rewrite bind_run. cbn [read].
  destruct (session_id c) as [key|]; [| exact I].
  destruct (truthy (key_value key)); [| exact I].
  destruct key as [sid|l|d]; cbn [disconnect_key]; try exact I;
    rewrite bind_run; cbn [read];
    (destruct (active_connections (srv c)); [exact I |]);
    cbn; split; try reflexivity; eexists; split; try reflexivity; exact I.
Qed.

End Loops.

(** X3.  Any number of [ping] frames, on either endpoint, gets as many
    [pong] frames and nothing else: the registry and the store are as they
    were and the connection stays open. *)
Theorem pings_get_pongs
    {S : Type} (storage : option (StorageBackend S))
    (run_workflow : string -> string -> value -> option string -> dict -> run)
    (importable : bool) (websocket : nat) (sid : string)
    (frames : list (inbound * message_env)) (s : server (S:=S))
    (c : conn (S:=S)) :
  let pings :=
    map (fun f => Receive (with_type (Some (VStr "ping")) (fst f)) (snd f))
      frames in
  websocket_chat storage run_workflow importable websocket pings s
  = (map (fun _ => Pong) frames, s, inr Open)
  /\ session_loop storage run_workflow importable sid pings c
     = (map (fun _ => Pong) frames, c, inr tt).
Proof.
  cbv zeta. split.
  - unfold websocket_chat, zoom, try_except. rewrite bind_run.
    assert (H : forall c0 : conn (S:=S),
               chat_loop storage run_workflow importable websocket
                 (map (fun f => Receive (with_type (Some (VStr "ping")) (fst f))
                                  (snd f)) frames) c0
               = (map (fun _ => Pong) frames, c0, inr tt)).
    { induction frames as [|[data env] frames IH]; intros c0; [reflexivity |].
      cbn [map chat_loop fst snd]. rewrite bind_run, chat_frame_ping, IH.
      reflexivity. }
    rewrite H. cbn. now rewrite app_nil_r.
  - revert c. induction frames as [|[data env] frames IH]; intros c;
      [reflexivity |].
    cbn [map session_loop fst snd]. rewrite bind_run, session_frame_ping, IH.
    reflexivity.
Qed.

(** X4.  When a receive raises on [/chat] (the client is gone, or the
    frame is not JSON) the frames that would follow are not handled.  If the
    session ids of the frames before it were strings, or missing, the
    connection is closed.  The coroutine ends by returning unless a frame
    carried a session id that cannot be hashed, an array or an object: the
    only exception that leaves it is the [TypeError] that
    [manager.disconnect] raises for such an id inside the [except]
    handler. *)
Theorem failed_receive_closes_the_connection
    {S : Type} (storage : option (StorageBackend S))
    (run_workflow : string -> string -> value -> option string -> dict -> run)
    (importable : bool) (websocket : nat) (before rest : list received)
    (e : exn) (s : server (S:=S)) :
  websocket_chat storage run_workflow importable websocket
    (before ++ ReceiveRaises e :: rest) s
  = websocket_chat storage run_workflow importable websocket
      (before ++ [ReceiveRaises e]) s
  /\ ((forall data env,
          In (Receive data env) before ->
          hashable (chosen_session_id data env) = true) ->
      snd (websocket_chat storage run_workflow importable websocket
             (before ++ ReceiveRaises e :: rest) s) = inr Closed)
  /\ (forall inputs,
        match snd (websocket_chat storage run_workflow importable websocket
                     inputs s) with
        | inr _ => True
        | inl raised =>
            raised = TypeError
            /\ exists data env,
                 In (Receive data env) inputs
                 /\ hashable (chosen_session_id data env) = false
        end).
Proof.
  destruct (chat_loop_stops storage run_workflow importable websocket before
              rest e (Conn None ∅ s)) as [Heq [e' He']].
  assert (Hsame : websocket_chat storage run_workflow importable websocket
                    (before ++ ReceiveRaises e :: rest) s
                  = websocket_chat storage run_workflow importable websocket
                      (before ++ [ReceiveRaises e]) s).
  { unfold websocket_chat, zoom, try_except. rewrite !bind_run.
    now rewrite Heq. }
  assert (Hraises : forall inputs,
    match snd (websocket_chat storage run_workflow importable websocket
                 inputs s) with
    | inr _ => True
    | inl raised =>
        raised = TypeError
        /\ exists data env,
             In (Receive data env) inputs
             /\ hashable (chosen_session_id data env) = false
    end).
  { intros inputs. unfold websocket_chat, zoom, try_except. rewrite bind_run.
    pose proof (chat_loop_session_id storage run_workflow importable websocket
                  inputs (Conn None ∅ s)) as Hid.
    cbv zeta in Hid.
    destruct (chat_loop _ _ _ _ inputs _) as [[fs c1] [e1|[]]];
      cbn [fst snd session_id] in *; [| exact I].
    rewrite bind_run.
    pose proof (disconnect_if_set_run c1) as Hd.
    destruct (disconnect_if_set c1) as [[fs2 c2] [e2|[]]]; cbn [snd] in *;
      [| exact I].
    destruct Hd as [-> (key & Hkey & Hbad)].
    split; [reflexivity |].
    destruct Hid as [Hnone | (data & env & Hin & Hchosen)]; [congruence |].
    exists data, env. split; [exact Hin |].
    rewrite Hkey in Hchosen. injection Hchosen as <-.
    now destruct key. }
  split; [exact Hsame | split; [| exact Hraises]].
  intros Hkeys.
  specialize (Hraises (before ++ [ReceiveRaises e])).
  rewrite Hsame.
  unfold websocket_chat, zoom, try_except in Hraises |- *.
  rewrite !bind_run in Hraises |- *.
  destruct (chat_loop _ _ _ _ (before ++ [ReceiveRaises e]) _)
    as [[fs c1] r]. cbn [snd] in He'. subst r.
  rewrite bind_run in Hraises |- *.
  destruct (disconnect_if_set c1) as [[fs2 c2] [e2|[]]]; cbn [snd] in *;
    [| reflexivity].
  destruct Hraises as [_ (data & env & Hin & Hbad)].
  apply List.in_app_or in Hin as [Hin | [Hin | []]]; [| discriminate].
  rewrite (Hkeys data env Hin) in Hbad. discriminate.
Qed.

(** X5.  A [message] frame (typed or untyped) whose question is not a
    string, for instance [null], ends the [/chat] connection: [strip]
    raises, no frame is sent, not even an [error] frame, and the frames
    that follow are not handled.  The [except] handler then removes the
    session id of the frame from the registry, even though this connection
    had not registered it, and the connection is closed; when that session
    id is an array or an object and some connection is registered,
    [manager.disconnect] raises [TypeError] and this exception leaves the
    coroutine.  On [/chat/{session_id}] the loop is left with the exception
    of [strip]. *)
Theorem question_that_is_not_a_string_closes_the_connection
    {S : Type} (storage : option (StorageBackend S))
    (run_workflow : string -> string -> value -> option string -> dict -> run)
    (importable : bool) (websocket : nat) (sid : string) (data : inbound)
    (env : message_env) (rest : list received) (e : exn)
    (s : server (S:=S)) (c : conn (S:=S)) :
  str_eq (default (VStr "message") (in_type data)) "message" = true ->
  question_text data = inl e ->
  websocket_chat storage run_workflow importable websocket
    (Receive data env :: rest) s
  = match chosen_session_id data env with
    | KeyStr id =>
        ([],
         Server (if String.eqb id "" then active_connections s
                 else ConnectionManager.disconnect id (active_connections s))
           (db s),
         inr Closed)
    | KeyList _ | KeyDict _ =>
        ([], s,
         match active_connections s with
         | [] => inr Closed
         | _ :: _ => inl TypeError
         end)
    end
  /\ session_loop storage run_workflow importable sid
       (Receive data env :: rest) c
     = ([], c, inl e).
Proof.
  intros Htype Hq. unfold question_text in Hq.
  assert (Hping : str_eq (default (VStr "message") (in_type data)) "ping" = false).
  { destruct (default (VStr "message") (in_type data)) as [| | |t| |];
      try discriminate.
    cbn in Htype |- *. apply String.eqb_eq in Htype. now subst t. }
  split.
  - assert (Htruthy : hashable (chosen_session_id data env) = false ->
                      truthy (key_value (chosen_session_id data env)) = true).
    { unfold chosen_session_id.
      destruct (in_session_id data) as [key|]; [| discriminate].
      destruct (truthy (key_value key)) eqn:Hk; [| discriminate].
      intros _. exact Hk. }
    unfold websocket_chat, zoom, try_except. cbn [chat_loop].
    rewrite !bind_run. unfold chat_frame. rewrite Hping, Htype.
    rewrite !bind_run. cbn [set_session_id]. rewrite !bind_run.
    unfold lift. rewrite Hq.
    unfold disconnect_if_set. rewrite !bind_run. cbn [read session_id].
    fold (chosen_session_id data env).
    destruct (chosen_session_id data env) as [id|l|d].
    + cbn [key_value truthy disconnect_key on_registry].
      destruct (String.eqb id ""); destruct s; reflexivity.
    + rewrite (Htruthy eq_refl). cbn [disconnect_key].
      rewrite !bind_run. cbn [read srv].
      destruct s as [[|entry registry] store]; reflexivity.
    + rewrite (Htruthy eq_refl). cbn [disconnect_key].
      rewrite !bind_run. cbn [read srv].
      destruct s as [[|entry registry] store]; reflexivity.
  - cbn [session_loop]. rewrite !bind_run. unfold session_frame.
    rewrite Hping, Htype. rewrite !bind_run. cbn [read].
    rewrite !bind_run. unfold lift. rewrite Hq. reflexivity.
Qed.

(** A frame with the question [null] and the session id [[1]], while
    another session is registered. *)
Lemma question_that_is_not_a_string_closes_the_connection_witness :
  let data :=
    Inbound (Some (VStr "message")) (Some (KeyList [VInt 1])) None None
      (Some VNone) in
  let s := Server [("s1", 7%nat)] Databricks.empty in
  websocket_chat (Some Databricks.storage) answering true 0
    (Receive data an_env :: [Receive (message_frame (Some "s1") "hello") an_env]) s
  = match chosen_session_id data an_env with
    | KeyStr id =>
        ([],
         Server (if String.eqb id "" then active_connections s
                 else ConnectionManager.disconnect id (active_connections s))
           (db s),
         inr Closed)
    | KeyList _ | KeyDict _ =>
        ([], s,
         match active_connections s with
         | [] => inr Closed
         | _ :: _ => inl TypeError
         end)
    end
  /\ session_loop (Some Databricks.storage) answering true "s1"
       (Receive data an_env :: [Receive (message_frame (Some "s1") "hello") an_env])
       (Conn None ∅ s)
     = ([], Conn None ∅ s, inl AttributeError).
Proof.
  intros data s.
  apply (question_that_is_not_a_string_closes_the_connection
           (Some Databricks.storage) answering true 0 "s1" data an_env
           [Receive (message_frame (Some "s1") "hello") an_env] AttributeError s
           (Conn None ∅ s));
    reflexivity.
Defined.

(** ** Reading and writing the store *)

Section StoreOperations.

Lemma insert_turn_perm (row : turn) (sorted : list turn) :
  Permutation (Databricks.insert_turn row sorted) (row :: sorted).
Proof.
  induction sorted as [|r rest IH]; cbn [Databricks.insert_turn];
    [reflexivity |].
  destruct (t_turn_number row <? t_turn_number r); [reflexivity |].
  rewrite IH. apply perm_swap.
Qed.

Lemma insert_turn_sorted (row : turn) (sorted : list turn) :
  StronglySorted turn_le sorted ->
  StronglySorted turn_le (Databricks.insert_turn row sorted).
Proof.
  induction 1 as [|r rest Hrest IH Hall]; cbn [Databricks.insert_turn].
  - repeat constructor.
  - destruct (t_turn_number row <? t_turn_number r) eqn:Hlt.
    + apply Z.ltb_lt in Hlt. constructor; [now constructor |].
      constructor; [unfold turn_le; lia |].
      eapply List.Forall_impl; [| exact Hall].
      unfold turn_le. intros a Ha. lia.
    + apply Z.ltb_ge in Hlt. constructor; [exact IH |].
      eapply Permutation_Forall; [symmetry; apply insert_turn_perm |].
      constructor; [exact Hlt | exact Hall].
Qed.

Lemma order_by_turn_number_spec (l : list turn) :
  StronglySorted turn_le (Databricks.order_by_turn_number l)
  /\ Permutation (Databricks.order_by_turn_number l) l.
Proof.
  unfold Databricks.order_by_turn_number.
  assert (H : forall acc,
             StronglySorted turn_le acc ->
             StronglySorted turn_le
               (fold_left (fun sorted row => Databricks.insert_turn row sorted) l acc)
             /\ Permutation
                  (fold_left (fun sorted row => Databricks.insert_turn row sorted) l acc)
                  (acc ++ l)).
  { induction l as [|row l IH]; intros acc Hacc; cbn [fold_left].
    - rewrite app_nil_r. now split.
    - destruct (IH (Databricks.insert_turn row acc)
                  (insert_turn_sorted row acc Hacc)) as [Hs Hp].
      split; [exact Hs |].
      etransitivity; [exact Hp |].
      etransitivity;
        [apply Permutation_app_tail, insert_turn_perm |].
      apply Permutation_middle. }
  destruct (H [] (SSorted_nil _)) as [Hs Hp]. now split.
Qed.

Lemma get_turns_run (sid : string) (limit : option Z) (t : Databricks.tables) :
  get_turns Databricks.storage sid limit t
  = (t, inr match limit with
            | Some n =>
                if n =? 0 then ordered_turns sid t
                else firstn (Z.to_nat n) (ordered_turns sid t)
            | None => ordered_turns sid t
            end).
Proof.
  destruct limit as [n|]; [| reflexivity].
  change (get_turns Databricks.storage)
    with (Databricks.get_turns Databricks.warehouse).
  unfold Databricks.get_turns. destruct (n =? 0); reflexivity.
Qed.

Lemma save_turn_run (sid : string) (n : Z) (question : string)
    (response : value) (snapshot : dict) (metadata : option dict)
    (now : string) (t : Databricks.tables) :
  save_turn Databricks.storage sid n question response snapshot metadata now t
  = match response with
    | VStr r =>
        (Databricks.Tables (Databricks.sessions t)
           (Databricks.turns t
            ++ [Turn sid n question r snapshot (default ∅ metadata) now]),
         inr tt)
    | _ => (t, inl AttributeError)
    end.
Proof. destruct response; reflexivity. Qed.

Lemma head_merge_update (sid title : string) (st : dict) (now : string)
    (rows : list session) :
  head (List.filter (Databricks.has_id sid)
          (map (Databricks.merge_update sid title st now) rows))
  = option_map (Databricks.merge_update sid title st now)
      (head (List.filter (Databricks.has_id sid) rows)).
Proof.
  induction rows as [|row rows IH]; [reflexivity |].
  cbn [map List.filter]. rewrite merge_update_id.
  destruct (Databricks.has_id sid row); [reflexivity | exact IH].
Qed.

Lemma filter_none_of (sid : string) (rows : list session) :
  existsb (Databricks.has_id sid) rows = false ->
  List.filter (Databricks.has_id sid) rows = [].
Proof.
  induction rows as [|r l IH]; [reflexivity |].
  cbn [existsb List.filter]. intros H.
  apply orb_false_iff in H as [-> Hl]. now apply IH.
Qed.

Lemma session_ids_merge (sid title : string) (st : dict) (now : string)
    (rows : list session) :
  map s_session_id (map (Databricks.merge_update sid title st now) rows)
  = map s_session_id rows.
Proof.
  induction rows as [|row rows IH]; [reflexivity |].
  cbn [map]. rewrite IH. f_equal.
  unfold Databricks.merge_update. now destruct (Databricks.has_id sid row).
Qed.

Lemma existsb_has_id (sid : string) (rows : list session) :
  existsb (Databricks.has_id sid) rows = true
  <-> List.In sid (map s_session_id rows).
Proof.
  rewrite List.existsb_exists, List.in_map_iff. unfold Databricks.has_id.
  split.
  - intros [row [Hin Hid]]. exists row.
    apply String.eqb_eq in Hid. tauto.
  - intros [row [Hid Hin]]. exists row.
    split; [assumption |]. now apply String.eqb_eq.
Qed.

Lemma one_row_per_id (sid : string) (rows : list session) :
  List.NoDup (map s_session_id rows) ->
  List.In sid (map s_session_id rows) ->
  length (List.filter (Databricks.has_id sid) rows) = 1%nat.
Proof.
  induction rows as [|row rows IH]; cbn [map List.In List.filter]; [tauto |].
  intros Hnd Hin. apply List.NoDup_cons_iff in Hnd as [Hrow Hnd].
  destruct (Databricks.has_id sid row) eqn:Hid.
  - unfold Databricks.has_id in Hid. apply String.eqb_eq in Hid. subst sid.
    cbn [length]. f_equal.
    rewrite filter_none_of; [reflexivity |].
    destruct (existsb _ rows) eqn:Hex; [| reflexivity].
    apply existsb_has_id in Hex. tauto.
  - apply IH; [assumption |].
    destruct Hin as [Heq | Hin]; [| assumption].
    unfold Databricks.has_id in Hid. rewrite Heq, String.eqb_refl in Hid.
    discriminate.
Qed.

Lemma filter_keeps_others {A} (p q : A -> bool) (l : list A) :
  (forall x, p x = true -> q x = false) ->
  List.filter p (List.filter (fun x => negb (q x)) l) = List.filter p l.
Proof.
  intros H. induction l as [|x l IH]; [reflexivity |].
  cbn [List.filter]. destruct (q x) eqn:Hq; cbn [negb List.filter].
  - destruct (p x) eqn:Hp; [| exact IH].
    apply H in Hp. congruence.
  - now rewrite IH.
Qed.

End StoreOperations.


(** X7.  [save_session] never adds a second row for a session id: when
    the session ids of the table are distinct they are still distinct
    afterwards, and the session saved has exactly one row.  The rows of the
    other sessions and all the turns are as they were. *)
Theorem save_session_keeps_one_row_per_session
    (sid : string) (uid : value) (st : dict) (title : option string)
    (now : string) (t : Databricks.tables) :
  List.NoDup (map s_session_id (Databricks.sessions t)) ->
  let t' := after (save_session Databricks.storage sid uid st title now) t in
  List.NoDup (map s_session_id (Databricks.sessions t'))
  /\ length (session_rows sid t') = 1%nat
  /\ Databricks.turns t' = Databricks.turns t
  /\ (forall sid', sid' <> sid -> session_rows sid' t' = session_rows sid' t).
Proof.
  intros Hnd. cbv zeta. unfold after. rewrite save_session_run.
  cbn [fst Databricks.run_statement]. unfold session_rows.
  destruct (existsb (Databricks.has_id sid) (Databricks.sessions t)) eqn:Hex;
    cbn [fst Databricks.sessions Databricks.turns].
  - rewrite session_ids_merge. repeat split; [assumption | |].
    + apply one_row_per_id; rewrite session_ids_merge;
        [assumption | now apply existsb_has_id].
    + intros sid' Hne. now apply merge_update_other.
  - rewrite map_app. cbn [map s_session_id]. repeat split.
    + apply List.NoDup_app; repeat split;
        [assumption | repeat constructor; intros [] | ].
      intros a Ha [<- | []].
      apply existsb_has_id in Ha. congruence.
    + rewrite List.filter_app, (filter_none_of sid _ Hex).
      cbn [app List.filter]. unfold Databricks.has_id. cbn [s_session_id].
      now rewrite String.eqb_refl.
    + intros sid' Hne. rewrite List.filter_app. cbn [List.filter].
      unfold Databricks.has_id at 2. cbn [s_session_id].
      destruct (String.eqb sid sid') eqn:He.
      * apply String.eqb_eq in He. congruence.
      * now rewrite app_nil_r.
Qed.

Lemma save_session_keeps_one_row_per_session_witness :
  let t := after (save_session Databricks.storage "s2" (VStr "u2") ∅ None "t0")
             Databricks.empty in
  let t' := after (save_session Databricks.storage "s1" (VStr "u1") ∅
                     (Some "Hello") "t1") t in
  List.NoDup (map s_session_id (Databricks.sessions t'))
  /\ length (session_rows "s1" t') = 1%nat
  /\ Databricks.turns t' = Databricks.turns t
  /\ (forall sid', sid' <> "s1" -> session_rows sid' t' = session_rows sid' t).
Proof.
  intros t.
  apply (save_session_keeps_one_row_per_session "s1" (VStr "u1") ∅
           (Some "Hello") "t1" t).
  repeat constructor. intros [].
Defined.

(** X8.  After [delete_session] the session is gone: [get_session] finds
    nothing and [get_turns] returns no turn, whatever the limit.  The rows
    and the turns of the other sessions are as they were. *)
Theorem nothing_is_read_after_delete_session
    (sid : string) (limit : option Z) (t : Databricks.tables) :
  let t' := after (delete_session Databricks.storage sid) t in
  result (get_session Databricks.storage sid) t' = inr None
  /\ result (get_turns Databricks.storage sid limit) t' = inr []
  /\ (forall sid', sid' <> sid ->
        session_rows sid' t' = session_rows sid' t
        /\ turn_rows sid' t' = turn_rows sid' t).
Proof.
  cbv zeta. unfold after, result.
  rewrite delete_session_run, get_session_run, get_turns_run.
  cbn [fst snd]. unfold ordered_turns, session_rows, turn_rows.
  cbn [Databricks.sessions Databricks.turns].
  rewrite !filter_out. repeat split.
  - now destruct limit as [n|]; [destruct (n =? 0); [| destruct (Z.to_nat n)] |].
  - apply filter_keeps_others. intros row Hrow.
    unfold Databricks.has_id in *. apply String.eqb_eq in Hrow.
    destruct (String.eqb (s_session_id row) sid) eqn:He; [| reflexivity].
    apply String.eqb_eq in He. congruence.
  - apply filter_keeps_others. intros row Hrow.
    unfold Databricks.of_session in *. apply String.eqb_eq in Hrow.
    destruct (String.eqb (t_session_id row) sid) eqn:He; [| reflexivity].
    apply String.eqb_eq in He. congruence.
Qed.

(** X9.  [get_turns] changes nothing and returns turns of the session
    only, in ascending order of turn number.  Without a limit, and with the
    limit 0, which counts as no limit, these are all the turns of the
    session; with a limit [n > 0] they are the first [n] of them. *)
Theorem get_turns_are_ascending
    (sid : string) (limit : option Z) (t : Databricks.tables) :
  after (get_turns Databricks.storage sid limit) t = t
  /\ result (get_turns Databricks.storage sid limit) t
     = inr match limit with
           | Some n =>
               if n =? 0 then ordered_turns sid t
               else firstn (Z.to_nat n) (ordered_turns sid t)
           | None => ordered_turns sid t
           end
  /\ StronglySorted turn_le (ordered_turns sid t)
  /\ Permutation (ordered_turns sid t) (turn_rows sid t)
  /\ List.Forall (fun row => t_session_id row = sid) (ordered_turns sid t).
Proof.
  unfold after, result. rewrite get_turns_run. cbn [fst snd].
  destruct (order_by_turn_number_spec (turn_rows sid t)) as [Hs Hp].
  repeat split; try assumption.
  eapply Permutation_Forall; [symmetry; exact Hp |].
  apply List.Forall_forall. intros row Hin.
  apply List.filter_In in Hin as [_ Hid].
  now apply String.eqb_eq in Hid.
Qed.

(** X10.  [save_turn] with a response that is a string appends one turn
    row, which [get_turns] then returns among the turns of the session, and
    leaves the sessions as they are; with a response that is not a string it
    raises and stores nothing. *)
Theorem save_turn_appends_one_row
    (sid : string) (n : Z) (question : string) (response : value)
    (snapshot : dict) (metadata : option dict) (now : string)
    (t : Databricks.tables) :
  let saved := save_turn Databricks.storage sid n question response snapshot
                 metadata now t in
  match response with
  | VStr r =>
      let row := Turn sid n question r snapshot (default ∅ metadata) now in
      snd saved = inr tt
      /\ Databricks.turns (fst saved) = Databricks.turns t ++ [row]
      /\ Databricks.sessions (fst saved) = Databricks.sessions t
      /\ Permutation (ordered_turns sid (fst saved)) (row :: turn_rows sid t)
  | _ => saved = (t, inl AttributeError)
  end.
Proof.
  cbv zeta. rewrite save_turn_run. destruct response; try reflexivity.
  cbn [fst snd Databricks.turns Databricks.sessions]. repeat split.
  destruct (order_by_turn_number_spec
              (turn_rows sid
                 (Databricks.Tables (Databricks.sessions t)
                    (Databricks.turns t
                     ++ [Turn sid n question s snapshot (default ∅ metadata) now]))))
    as [_ Hp].
  unfold ordered_turns. etransitivity; [exact Hp |].
  unfold turn_rows. cbn [Databricks.turns].
  rewrite List.filter_app. cbn [List.filter].
  unfold Databricks.of_session at 2. cbn [t_session_id].
  rewrite String.eqb_refl. symmetry. apply Permutation_cons_append.
Qed.

(** ** Resuming a session *)

(** X11.  A connection to [/chat/{session_id}] is registered under the
    session id; for a stored session one [history] frame is sent before any
    frame is handled, with the questions and responses of its turns in
    ascending order of turn number, and the loop starts from the stored
    state; for a session that is not stored nothing is sent and the loop
    starts from the empty state.  The store is not changed by this. *)
Theorem resumed_session_gets_its_history
    (run_workflow : string -> string -> value -> option string -> dict -> run)
    (importable : bool) (websocket : nat) (sid : string)
    (inputs : list received) (s : server (S:=Databricks.tables)) :
  let opened :=
    Conn (Some (KeyStr sid)) (resumed_state sid (db s))
      (Server (ConnectionManager.assign sid websocket (active_connections s))
         (db s)) in
  let served :=
    session_loop (Some Databricks.storage) run_workflow importable sid inputs
      opened in
  websocket_chat_session (Some Databricks.storage) run_workflow importable
    websocket sid [] s
  = (resumed_history sid (db s), srv opened, inr Open)
  /\ fst (fst (websocket_chat_session (Some Databricks.storage) run_workflow
                 importable websocket sid inputs s))
     = resumed_history sid (db s) ++ fst (fst served)
  /\ StronglySorted Z.le
       (map (fun h => fst (fst h)) (history_of (ordered_turns sid (db s)))).
Proof.
  cbv zeta.
  assert (Hopen :
    forall inputs',
      websocket_chat_session (Some Databricks.storage) run_workflow importable
        websocket sid inputs' s
      = match session_loop (Some Databricks.storage) run_workflow importable
                sid inputs'
                (Conn (Some (KeyStr sid)) (resumed_state sid (db s))
                   (Server (ConnectionManager.assign sid websocket
                              (active_connections s)) (db s))) with
        | (fs, c, inr _) => (resumed_history sid (db s) ++ fs, srv c, inr Open)
        | (fs, c, inl _) =>
            (resumed_history sid (db s) ++ fs,
             Server (ConnectionManager.disconnect sid (active_connections (srv c)))
               (db (srv c)), inr Closed)
        end).
  { intros inputs'. unfold websocket_chat_session, resumed_state,
      resumed_history, on_store, on_registry, set_state.
    run_m. cbn [session_id state srv db active_connections].
    rewrite get_session_run. cbn [fst snd].
    destruct (head (session_rows sid (db s))) as [row|];
      cbn beta; cbn [fst snd session_id state srv db active_connections];
      rewrite ?get_turns_run;
      cbn [fst snd session_id state srv db active_connections];
      destruct (session_loop _ _ _ _ inputs' _) as [[fs c] [e|[]]];
      cbn [app]; rewrite ?app_nil_r; reflexivity. }
  repeat split.
  - rewrite Hopen. cbn [session_loop]. run_m. now rewrite app_nil_r.
  - rewrite Hopen.
    now destruct (session_loop _ _ _ _ inputs _) as [[fs c] [e|[]]].
  - destruct (order_by_turn_number_spec (turn_rows sid (db s))) as [Hs _].
    unfold ordered_turns, history_of. rewrite List.map_map. cbn [fst].
    induction Hs as [|row rows Hrows IH Hall]; cbn [map]; constructor;
      [exact IH |].
    apply List.Forall_map. exact Hall.
Qed.

(** ** What the client sees of a turn *)

Section Visible.

Context {S : Type}.

(** The event loop does not look at the store: with any store it sends the
    same frames, assigns the same values and ends the same way. *)
Lemma relay_event_forget (event : dict) (st : locals (S:=S)) :
  relay_event event (forget_store st)
  = match relay_event event st with
    | (fs, st', r) => (fs, forget_store st', r)
    end.
Proof.
  unfold relay_event, relay_workflow_end, forget_store.
  repeat case_match;
    cbv beta iota zeta delta
      [mbind mret M_bind M_ret bind ret send_json lift raise fst snd
       set_full_response set_final_state] in *;
    repeat case_match; rewrite ?stream_words_run in *; simplify_eq; cbn;
    reflexivity.
Qed.

Lemma for_each_forget (events : list dict) :
  forall st : locals (S:=S),
    for_each events relay_event (forget_store st)
    = match for_each events relay_event st with
      | (fs, st', r) => (fs, forget_store st', r)
      end.
Proof.
  induction events as [|event events IH]; intros st; [reflexivity |].
  cbn [for_each]. rewrite !bind_run, relay_event_forget.
  destruct (relay_event event st) as [[fs st1] [e|[]]]; [reflexivity |].
  rewrite IH. now destruct (for_each events relay_event st1) as [[fs2 st2] r].
Qed.

Lemma relay_events_forget (r : run) (st : locals (S:=S)) :
  relay_events r (forget_store st)
  = match relay_events r st with
    | (fs, st', res) => (fs, forget_store st', res)
    end.
Proof.
  unfold relay_events. rewrite !bind_run, for_each_forget.
  destruct (for_each (run_events r) relay_event st) as [[fs st1] [e|[]]];
    [reflexivity |].
  destruct (run_raises r); reflexivity.
Qed.

Lemma turn_frames_forget (r : run) (sid : string) (state : dict) (tm : times)
    (db : S) :
  turn_frames r sid state tm db = turn_frames r sid state tm tt.
Proof.
  unfold turn_frames.
  change (Locals (VStr "") state tt)
    with (forget_store (Locals (VStr "") state db)).
  rewrite relay_events_forget.
  now destruct (relay_events r (Locals (VStr "") state db)) as [[fs st] [e|[]]].
Qed.

End Visible.

(** X12.  The frames of a workflow turn do not depend on the storage: with
    no storage, with one whose calls fail, or with one that works, and
    whatever is stored, the client receives the same frames.  A failure of
    persistence is not visible to the client. *)
Theorem frames_do_not_depend_on_storage
    {S S' : Type} (storage : option (StorageBackend S))
    (storage' : option (StorageBackend S')) (r : run) (sid question : string)
    (uid : value) (state : dict) (tm : times) (db : S) (db' : S') :
  fst (fst (stream_response_workflow storage r sid question uid state tm db))
  = fst (fst (stream_response_workflow storage' r sid question uid state tm db'))
  /\ fst (fst (stream_response_workflow storage r sid question uid state tm db))
     = turn_frames r sid state tm tt.
Proof.
  rewrite !stream_response_workflow_frames.
  now rewrite (turn_frames_forget r sid state tm db),
    (turn_frames_forget r sid state tm db').
Qed.

(** ** The placeholder *)

Section Strip.

Import PyStr PyStrFacts.

Lemma rstrip_nospace (w : string) : nospace w = true -> rstrip w = w.
Proof.
  induction w as [|c w IH]; [reflexivity |].
  cbn [nospace rstrip]. intros H.
  apply andb_prop in H as [Hc Hw]. apply negb_true_iff in Hc.
  rewrite (IH Hw), Hc. now destruct w.
Qed.

Lemma rstrip_app_space (s : string) : rstrip (s +:+ " ") = rstrip s.
Proof.
  induction s as [|c s IH]; [reflexivity |].
  rewrite append_cons. cbn [rstrip]. now rewrite IH.
Qed.

(** [rstrip] leaves a string that ends with a word as it is. *)
Lemma rstrip_app_word (a w : string) :
  is_word w -> rstrip (a +:+ w) = a +:+ w.
Proof.
  intros [Hne Hns]. induction a as [|c a IH].
  - rewrite append_nil_l. now apply rstrip_nospace.
  - rewrite append_cons. cbn [rstrip]. rewrite IH.
    destruct a as [|c' a].
    + rewrite append_nil_l. destruct w; [congruence | reflexivity].
    + now rewrite append_cons.
Qed.

(** [lstrip] leaves a string that begins with a word as it is. *)
Lemma lstrip_word_app (w rest : string) :
  is_word w -> lstrip (w +:+ rest) = w +:+ rest.
Proof.
  intros [Hne Hns]. destruct w as [|c w]; [congruence |].
  cbn [nospace] in Hns. apply andb_prop in Hns as [Hc _].
  apply negb_true_iff in Hc.
  rewrite append_cons. cbn [lstrip]. now rewrite Hc.
Qed.

Lemma join_cons (w w' : string) (ws : list string) :
  join " " (w :: w' :: ws) = w +:+ " " +:+ join " " (w' :: ws).
Proof. reflexivity. Qed.

Lemma join_first (w : string) (ws : list string) :
  exists rest, join " " (w :: ws) = w +:+ rest.
Proof.
  destruct ws as [|w' ws].
  - exists "". cbn [join]. now rewrite append_nil_r.
  - eexists. apply join_cons.
Qed.

Lemma join_last (ws : list string) :
  ws <> [] -> List.Forall is_word ws ->
  exists a w, join " " ws = a +:+ w /\ is_word w.
Proof.
  induction ws as [|w ws IH]; intros Hne Hws; [congruence |].
  apply List.Forall_cons_iff in Hws as [Hw Hws].
  destruct ws as [|w' ws].
  - exists "", w. split; [reflexivity | exact Hw].
  - destruct IH as (a & wl & Heq & Hwl); [discriminate | exact Hws |].
    exists (w +:+ " " +:+ a), wl. split; [| exact Hwl].
    now rewrite join_cons, Heq, !append_assoc.
Qed.

(** Stripping the concatenated tokens gives the words joined by single
    spaces: the last token's space is all that [strip] removes. *)
Lemma strip_concat_spaced (ws : list string) :
  List.Forall is_word ws -> strip (concat (spaced ws)) = join " " ws.
Proof.
  intros Hws. destruct ws as [|w ws]; [reflexivity |].
  rewrite concat_spaced_join by discriminate. unfold strip.
  destruct (join_first w ws) as [rest Hrest].
  rewrite Hrest, append_assoc, lstrip_word_app
    by (now apply List.Forall_cons_iff in Hws as [Hw _]).
  rewrite <- append_assoc, <- Hrest, rstrip_app_space.
  destruct (join_last (w :: ws)) as (a & wl & -> & Hwl);
    [discriminate | exact Hws |].
  now apply rstrip_app_word.
Qed.

End Strip.

(** The frames and the result of the placeholder, with any storage. *)
Lemma stream_response_placeholder_frames
    {S : Type} (storage : option (StorageBackend S)) (sid question : string)
    (uid : value) (state : dict) (tm : times) (db : S) :
  let out := stream_response_placeholder storage sid question uid state tm db in
  fst (fst out)
  = processing
    :: map (fun word => Stream (word +:+ " ") false) (placeholder_words question)
    ++ [Stream "" true;
        Complete (VStr (PyStr.join " " (placeholder_words question))) sid
          (get state "turn_number" (VInt 1)) (placeholder_metadata tm)]
  /\ snd out = inr (VStr (PyStr.join " " (placeholder_words question))).
Proof.
  cbv zeta. unfold placeholder_words, stream_response_placeholder.
  rewrite strip_concat_spaced by apply PyStrFacts.split_words.
  run_m. rewrite stream_words_run.
  destruct storage as [sb|]; [| cbn; now rewrite ?app_nil_r].
  destruct (py_add_one _) as [e|n]; [cbn; now rewrite ?app_nil_r |].
  unfold storage_call, zoom, silent.
  cbn [store full_response final_state].
  destruct (save_turn sb _ _ _ _ _ _ _ _) as [db1 [e|[]]];
    [cbn; now rewrite ?app_nil_r |].
  cbn [store full_response final_state].
  destruct (save_session sb _ _ _ _ _ _) as [db2 [e|[]]];
    cbn; now rewrite ?app_nil_r.
Qed.

(** X13.  The placeholder answers with the words of its text joined by
    single spaces: it sends the [processing] status, one token per word,
    the closing [stream] frame and one [complete] frame whose response is
    that string, and returns it, with any storage or none.  The response
    splits into the words that were streamed. *)
Theorem placeholder_response_is_the_words_joined
    {S : Type} (storage : option (StorageBackend S)) (sid question : string)
    (uid : value) (state : dict) (tm : times) (db : S) :
  let words := placeholder_words question in
  let text := PyStr.join " " words in
  let out := stream_response_placeholder storage sid question uid state tm db in
  fst (fst out)
  = processing
    :: map (fun word => Stream (word +:+ " ") false) words
    ++ [Stream "" true;
        Complete (VStr text) sid (get state "turn_number" (VInt 1))
          (placeholder_metadata tm)]
  /\ snd out = inr (VStr text)
  /\ PyStr.split text = words.
Proof.
  cbv zeta.
  destruct (stream_response_placeholder_frames storage sid question uid state
              tm db) as [Hfs Hres].
  split; [exact Hfs | split; [exact Hres |]].
  apply PyStrFacts.split_join, PyStrFacts.split_words.
Qed.

(** X14.  The placeholder announces one turn number and stores another:
    when the state has the turn number [n], the [complete] frame carries
    [n], the number of the turn before, while the turn stored and the state
    of the session carry [n + 1]. *)
Theorem placeholder_announces_the_turn_before
    (sid question : string) (uid : value) (state : dict) (tm : times)
    (t : Databricks.tables) (n : Z) :
  state !! "turn_number" = Some (VInt n) ->
  let out :=
    stream_response_placeholder (Some Databricks.storage) sid question uid
      state tm t in
  completed_turn_numbers (fst (fst out)) = [VInt n]
  /\ snd (fst out)
     = store_turn sid question uid (n + 1)
         (PyStr.join " " (placeholder_words question)) state
         placeholder_turn_metadata tm t
  /\ stored_turn_numbers sid (snd (fst out))
     = stored_turn_numbers sid t ++ [n + 1].
Proof.
  intros Hn. cbv zeta.
  assert (Hget : forall dflt, get state "turn_number" dflt = VInt n).
  { intros dflt. unfold get. now rewrite Hn. }
  assert (Hstore :
    snd (fst (stream_response_placeholder (Some Databricks.storage) sid
                question uid state tm t))
    = store_turn sid question uid (n + 1)
        (PyStr.join " " (placeholder_words question)) state
        placeholder_turn_metadata tm t).
  { unfold stream_response_placeholder, placeholder_words.
    rewrite strip_concat_spaced by apply PyStrFacts.split_words.
    run_m. rewrite stream_words_run.
    unfold storage_call, zoom, silent.
    change (save_turn Databricks.storage)
      with (Databricks.save_turn Databricks.warehouse).
    change (save_session Databricks.storage)
      with (Databricks.save_session Databricks.warehouse).
    unfold Databricks.save_turn, Databricks.save_session, Databricks.warehouse.
    cbv beta iota zeta delta
      [mbind mret Db_bind Db_ret db_bind db_ret db_lift M_ret M_bind bind ret
       lift].
    rewrite Hget. cbn [py_add_one fst snd store].
    unfold store_turn, placeholder_turn_metadata.
    cbn [Databricks.run_statement fst snd Databricks.sessions Databricks.turns
         store full_response final_state].
    destruct (existsb (Databricks.has_id sid) (Databricks.sessions t));
      reflexivity. }
  split; [| split].
  - destruct (stream_response_placeholder_frames
                (Some Databricks.storage) sid question uid state tm t) as [-> _].
    rewrite Hget. unfold completed_turn_numbers, processing.
    cbn [flat_map]. rewrite flat_map_app. cbn [flat_map app].
    clear Hstore.
    induction (placeholder_words question) as [|w ws IH]; [reflexivity |].
    exact IH.
  - exact Hstore.
  - rewrite Hstore. unfold stored_turn_numbers, turn_rows.
    rewrite store_turn_turns, List.filter_app, map_app.
    cbn [List.filter]. unfold Databricks.of_session at 2.
    cbn [t_session_id]. now rewrite String.eqb_refl.
Qed.

Lemma placeholder_announces_the_turn_before_witness :
  let state : dict := {["turn_number" := VInt 1]} in
  let out :=
    stream_response_placeholder (Some Databricks.storage) "s1" "hello"
      (VStr "u1") state (Times "t0" "t1" "t2") Databricks.empty in
  completed_turn_numbers (fst (fst out)) = [VInt 1]
  /\ snd (fst out)
     = store_turn "s1" "hello" (VStr "u1") (1 + 1)
         (PyStr.join " " (placeholder_words "hello")) state
         placeholder_turn_metadata (Times "t0" "t1" "t2") Databricks.empty
  /\ stored_turn_numbers "s1" (snd (fst out))
     = stored_turn_numbers "s1" Databricks.empty ++ [1 + 1].
Proof.
  intros state.
  apply (placeholder_announces_the_turn_before "s1" "hello" (VStr "u1") state
           (Times "t0" "t1" "t2") Databricks.empty 1).
  reflexivity.
Defined.

(** ** Completion and persistence of a workflow turn *)

Section Completion.

Context {S : Type}.

Lemma completed_app (fs gs : list frame) :
  completed_turn_numbers (fs ++ gs)
  = completed_turn_numbers fs ++ completed_turn_numbers gs.
Proof. apply flat_map_app. Qed.

Lemma stream_words_no_complete (words : list string) :
  completed_turn_numbers (map (fun word => Stream (word +:+ " ") false) words)
  = [].
Proof. induction words as [|w ws IH]; [reflexivity | exact IH]. Qed.

(** The event loop sends no [complete] frame. *)
Lemma relay_event_no_complete (event : dict) (st : locals (S:=S)) :
  completed_turn_numbers (fst (fst (relay_event event st))) = [].
Proof.
  unfold relay_event, relay_workflow_end.
  repeat case_match; run_m; unfold set_full_response, set_final_state;
    repeat case_match; rewrite ?stream_words_run in *; simplify_eq;
    cbn [fst snd app]; rewrite ?app_nil_r, ?stream_words_no_complete;
    try reflexivity.
Qed.

Lemma for_each_no_complete (events : list dict) :
  forall st : locals (S:=S),
    completed_turn_numbers (fst (fst (for_each events relay_event st))) = [].
Proof.
  induction events as [|event events IH]; intros st; [reflexivity |].
  cbn [for_each]. rewrite bind_run.
  pose proof (relay_event_no_complete event st) as H.
  destruct (relay_event event st) as [[fs st1] [e|[]]]; cbn [fst snd] in *;
    [exact H |].
  specialize (IH st1).
  destruct (for_each events relay_event st1) as [[fs2 st2] r].
  cbn [fst snd] in *. now rewrite completed_app, H, IH.
Qed.

Lemma relay_events_no_complete (r : run) (st : locals (S:=S)) :
  completed_turn_numbers (fst (fst (relay_events r st))) = [].
Proof.
  unfold relay_events. rewrite bind_run.
  pose proof (for_each_no_complete (run_events r) st) as H.
  destruct (for_each (run_events r) relay_event st) as [[fs st1] [e|[]]];
    cbn [fst snd] in *; [exact H |].
  destruct (run_raises r); cbn [raise mret M_ret ret fst snd];
    now rewrite app_nil_r.
Qed.

End Completion.

(** The whole of a workflow turn: frames, store and result. *)
Lemma stream_response_workflow_run
    {S : Type} (storage : option (StorageBackend S)) (r : run)
    (sid question : string) (uid : value) (state : dict) (tm : times) (db : S) :
  stream_response_workflow storage r sid question uid state tm db
  = match relay_events r (Locals (VStr "") state db) with
    | (fs, st, inr _) =>
        match py_add_one (get state "turn_number" (VInt 0)) with
        | inr n =>
            (processing
             :: fs ++ [Stream "" true;
                       Complete (full_response st) sid (VInt n)
                         (complete_metadata (at_complete tm) (final_state st))],
             store (snd (fst (persist storage sid question uid n
                                (full_response st) (final_state st) tm st))),
             inr (full_response st))
        | inl e =>
            (processing :: fs ++ [Stream "" true; Error (ErrStr e)], db,
             inr (full_response st))
        end
    | (fs, st, inl e) =>
        (processing :: fs ++ [Error (ErrStr e)], db, inr (full_response st))
    end.
Proof.
  unfold stream_response_workflow, workflow_turn, processing.
  pose proof (relay_events_store r (Locals (VStr "") state db)) as Hdb.
  run_m.
  destruct (relay_events r _) as [[fs st] [e|[]]]; cbn [fst snd store] in Hdb.
  - cbn [app]. now rewrite !app_nil_r, Hdb.
  - destruct (py_add_one _) as [e|n].
    + cbn [app]. rewrite ?app_nil_r, <- ?app_assoc, Hdb. reflexivity.
    + destruct (persist_run storage sid question uid n (full_response st)
                  (final_state st) tm st) as [db' ->].
      cbn [app fst snd store full_response].
      rewrite ?app_nil_r, <- ?app_assoc. reflexivity.
Qed.

(** X15.  A workflow turn sends at most one [complete] frame.  When it
    sends none, the turn ended with an [error] frame and the store is as it
    was, whatever the storage; when it sends one, its turn number is one
    more than the turn number of the state the turn was given. *)
Theorem turn_without_complete_stores_nothing
    {S : Type} (storage : option (StorageBackend S)) (r : run)
    (sid question : string) (uid : value) (state : dict) (tm : times) (db : S) :
  let out := stream_response_workflow storage r sid question uid state tm db in
  match completed_turn_numbers (fst (fst out)) with
  | [] =>
      snd (fst out) = db
      /\ exists e, last (fst (fst out)) = Some (Error (ErrStr e))
  | [n] =>
      exists k,
        n = VInt k /\ py_add_one (get state "turn_number" (VInt 0)) = inr k
  | _ => False
  end.
Proof.
  cbv zeta. rewrite stream_response_workflow_run.
  pose proof (relay_events_no_complete r (Locals (VStr "") state db)) as Hno.
  destruct (relay_events r _) as [[fs st] [e|[]]]; cbn [fst snd] in *.
  - unfold processing at 1. cbn [completed_turn_numbers flat_map app].
    fold (completed_turn_numbers (fs ++ [Error (ErrStr e)])).
    rewrite completed_app, Hno. cbn. split; [reflexivity |].
    exists e. rewrite app_comm_cons. apply last_snoc.
  - destruct (py_add_one _) as [e|n]; cbn [fst snd].
    + unfold processing at 1. cbn [completed_turn_numbers flat_map app].
      fold (completed_turn_numbers (fs ++ [Stream "" true; Error (ErrStr e)])).
      rewrite completed_app, Hno. cbn. split; [reflexivity |].
      exists e.
      change (fs ++ [Stream "" true; Error (ErrStr e)])
        with (fs ++ [Stream "" true] ++ [Error (ErrStr e)]).
      rewrite app_assoc, app_comm_cons. apply last_snoc.
    + unfold processing at 1. cbn [completed_turn_numbers flat_map app].
      match goal with
      | |- context [flat_map _ (fs ++ ?l)] =>
          fold (completed_turn_numbers (fs ++ l))
      end.
      rewrite completed_app, Hno. cbn. now exists n.
Qed.

(** The state of a session after a turn was stored for it. *)
Lemma resumed_state_store_turn (sid question : string) (uid : value) (n : Z)
    (response : string) (snapshot metadata : dict) (tm : times)
    (t : Databricks.tables) :
  resumed_state sid
    (store_turn sid question uid n response snapshot metadata tm t)
  = <["turn_number" := VInt n]> snapshot.
Proof.
  unfold resumed_state, session_rows. rewrite store_turn_sessions.
  destruct (existsb (Databricks.has_id sid) (Databricks.sessions t)) eqn:Hex.
  - rewrite head_merge_update.
    destruct (List.filter (Databricks.has_id sid) (Databricks.sessions t))
      as [|row rows] eqn:Hf.
    + apply filter_nil_existsb in Hf. congruence.
    + cbn [head option_map]. unfold Databricks.merge_update.
      assert (Hin : List.In row (List.filter (Databricks.has_id sid)
                                   (Databricks.sessions t)))
        by (rewrite Hf; now left).
      apply List.filter_In in Hin as [_ Hid]. now rewrite Hid.
  - rewrite List.filter_app, (filter_none_of sid _ Hex).
    cbn [app List.filter]. unfold Databricks.has_id at 1. cbn [s_session_id].
    now rewrite String.eqb_refl.
Qed.

Lemma turn_rows_store_turn (sid question : string) (uid : value) (n : Z)
    (response : string) (snapshot metadata : dict) (tm : times)
    (t : Databricks.tables) :
  turn_rows sid (store_turn sid question uid n response snapshot metadata tm t)
  = turn_rows sid t
    ++ [Turn sid n question response snapshot metadata (at_save_turn tm)].
Proof.
  unfold turn_rows. rewrite store_turn_turns, List.filter_app.
  cbn [List.filter]. unfold Databricks.of_session at 2.
  cbn [t_session_id]. now rewrite String.eqb_refl.
Qed.

(** X16.  A workflow turn that completes stores what it announces: the
    turn row appended for the session has the turn number and the response
    of the [complete] frame, with the question and the final state, and the
    state from which the session is resumed is the final state with that
    turn number.  The coroutine returns the response.  When the response is
    not a string the [complete] frame is sent all the same and nothing is
    stored. *)
Theorem workflow_turn_stores_what_it_announces
    (r : run) (sid question : string) (uid : value) (state : dict)
    (tm : times) (t : Databricks.tables) (sent : list frame)
    (st1 : locals (S:=Databricks.tables)) (n : Z) :
  relay_events r (Locals (VStr "") state t) = (sent, st1, inr tt) ->
  py_add_one (get state "turn_number" (VInt 0)) = inr n ->
  let out :=
    stream_response_workflow (Some Databricks.storage) r sid question uid
      state tm t in
  fst (fst out)
  = processing
    :: sent ++ [Stream "" true;
                Complete (full_response st1) sid (VInt n)
                  (complete_metadata (at_complete tm) (final_state st1))]
  /\ snd out = inr (full_response st1)
  /\ match full_response st1 with
     | VStr response =>
         turn_rows sid (snd (fst out))
         = turn_rows sid t
           ++ [Turn sid n question response (final_state st1)
                 {["workflow" := VBool true]} (at_save_turn tm)]
         /\ resumed_state sid (snd (fst out))
            = <["turn_number" := VInt n]> (final_state st1)
     | _ => snd (fst out) = t
     end.
Proof.
  intros Hev Hn. cbv zeta.
  pose proof (relay_events_store r (Locals (VStr "") state t)) as Hdb.
  rewrite stream_response_workflow_run, Hev, Hn, persist_databricks.
  rewrite Hev in Hdb. cbn [fst snd store] in Hdb |- *. rewrite Hdb.
  split; [reflexivity | split; [reflexivity |]].
  destruct (full_response st1); try reflexivity.
  split; [apply turn_rows_store_turn | apply resumed_state_store_turn].
Qed.

Lemma workflow_turn_stores_what_it_announces_witness :
  let r := answering "What is total spend?" "s1" (VStr "u1") None ∅ in
  let tm := Times "t0" "t1" "t2" in
  let relayed := relay_events r (Locals (VStr "") ∅ Databricks.empty) in
  let out :=
    stream_response_workflow (Some Databricks.storage) r "s1"
      "What is total spend?" (VStr "u1") ∅ tm Databricks.empty in
  fst (fst out)
  = processing
    :: fst (fst relayed)
       ++ [Stream "" true;
           Complete (full_response (snd (fst relayed))) "s1" (VInt 1)
             (complete_metadata (at_complete tm)
                (final_state (snd (fst relayed))))]
  /\ snd out = inr (full_response (snd (fst relayed)))
  /\ match full_response (snd (fst relayed)) with
     | VStr response =>
         turn_rows "s1" (snd (fst out))
         = turn_rows "s1" Databricks.empty
           ++ [Turn "s1" 1 "What is total spend?" response
                 (final_state (snd (fst relayed)))
                 {["workflow" := VBool true]} (at_save_turn tm)]
         /\ resumed_state "s1" (snd (fst out))
            = <["turn_number" := VInt 1]> (final_state (snd (fst relayed)))
     | _ => snd (fst out) = Databricks.empty
     end.
Proof.
  intros r tm relayed.
  apply (workflow_turn_stores_what_it_announces r "s1" "What is total spend?"
           (VStr "u1") ∅ tm Databricks.empty (fst (fst relayed))
           (snd (fst relayed)) 1);
    reflexivity.
Defined.

(** X17.  An event whose handling raises ends the turn: the frames sent
    so far are followed by one [error] frame with the text of the
    exception, the events after it are not handled, the closing [stream]
    frame and the [complete] frame are not sent, and nothing is stored,
    whatever the storage.  A [narrative] event whose content is true and
    not a string is such an event: [split] raises after the content was
    assigned to the response, which the coroutine then returns. *)
Theorem event_that_raises_ends_the_turn
    {S : Type} (storage : option (StorageBackend S))
    (before later : list dict) (bad : dict) (raises : option exn)
    (sid question : string) (uid : value) (state : dict) (tm : times) (db : S)
    (sent : list frame) (st1 : locals (S:=S)) (e : exn) :
  for_each before relay_event (Locals (VStr "") state db)
  = (sent, st1, inr tt) ->
  snd (relay_event bad st1) = inl e ->
  stream_response_workflow storage (Run (before ++ bad :: later) raises) sid
    question uid state tm db
  = (processing :: sent ++ frames_of_event bad st1 ++ [Error (ErrStr e)], db,
     inr (full_response (snd (fst (relay_event bad st1)))))
  /\ (forall (content : value) (rest : dict) (st : locals (S:=S)),
        truthy content = true ->
        py_split content = inl AttributeError ->
        relay_event (narrative_event content rest) st
        = ([], Locals content (final_state st) (store st), inl AttributeError)).
Proof.
  intros Hev Hbad. split.
  - rewrite stream_response_workflow_run.
    unfold relay_events, frames_of_event. cbn [run_events run_raises].
    rewrite bind_run, (for_each_app_run _ _ _ _ _ _ Hev).
    cbn [for_each]. rewrite bind_run.
    destruct (relay_event bad st1) as [[fs st2] [e'|[]]];
      cbn [fst snd] in *; [| discriminate].
    injection Hbad as ->. now rewrite <- app_assoc.
  - intros content rest st Htrue Hsplit.
    unfold relay_event, narrative_event.
    rewrite get_insert. cbv zeta.
    replace (get (<["type" := VStr "narrative"]> (<["content" := content]> rest))
               "content" (VStr "")) with content
      by (rewrite get_insert_ne by discriminate; now rewrite get_insert).
    cbn [str_eq String.eqb Ascii.eqb Bool.eqb andb]. rewrite Htrue.
    run_m. unfold set_full_response. now rewrite Hsplit.
Qed.

Lemma event_that_raises_ends_the_turn_witness :
  let bad := narrative_event (VInt 5) ∅ in
  let st1 := Locals (VStr "") ∅ Databricks.empty in
  stream_response_workflow (Some Databricks.storage)
    (Run ([workflow_start_event] ++ bad :: [narrative_event (VStr "late") ∅])
       None)
    "s1" "spend" (VStr "u1") ∅ (Times "t0" "t1" "t2") Databricks.empty
  = (processing
     :: [Status "started" (Msg (VStr "Workflow started...")) None]
     ++ frames_of_event bad st1 ++ [Error (ErrStr AttributeError)],
     Databricks.empty,
     inr (full_response (snd (fst (relay_event bad st1)))))
  /\ (forall (content : value) (rest : dict)
        (st : locals (S:=Databricks.tables)),
        truthy content = true ->
        py_split content = inl AttributeError ->
        relay_event (narrative_event content rest) st
        = ([], Locals content (final_state st) (store st), inl AttributeError)).
Proof.
  intros bad st1.
  apply (event_that_raises_ends_the_turn (Some Databricks.storage)
           [workflow_start_event] [narrative_event (VStr "late") ∅] bad None
           "s1" "spend" (VStr "u1") ∅ (Times "t0" "t1" "t2") Databricks.empty
           [Status "started" (Msg (VStr "Workflow started...")) None] st1
           AttributeError);
    reflexivity.
Defined.

(** ** The title of a session *)






(** ** The query executor: outcomes that are not retried *)

Section Outcomes.

Import QueryExecutor.

Variable net : nat -> http.

(** An attempt that does not raise [ClientError] is the last one. *)
Lemma attempt_decides (timeout : Z) (c : client) :
  snd (submit_and_poll net timeout c) <> inl ClientError ->
  execute_sql net timeout c = submit_and_poll net timeout c.
Proof.
  intros H. unfold execute_sql, max_retries. rewrite attempts_step.
  destruct (submit_and_poll net timeout c) as [c1 [e|rows]]; [| reflexivity].
  destruct e; try reflexivity. now cbn in H.
Qed.

Lemma pending_not_final (state : value) :
  pending state = true ->
  str_eq state "SUCCEEDED" = false /\ str_eq state "FAILED" = false.
Proof.
  unfold pending. destruct state as [| | |s| |]; cbn; try discriminate.
  intros H. apply orb_true_iff in H as [H|H]; apply String.eqb_eq in H;
    subst s; split; reflexivity.
Qed.

Lemma outcome_error (state : value) (status result : dict) :
  outcome state status result <> inl ClientError.
Proof.
  unfold outcome.
  destruct (str_eq state "SUCCEEDED").
  - destruct (parse_rows result) as [e|rows] eqn:H; [| discriminate].
    apply parse_rows_error in H. congruence.
  - destruct (str_eq state "FAILED"); discriminate.
Qed.

(** An attempt whose submission is answered with a state that is not
    pending. *)
Lemma settled_attempt (timeout : Z) (c : client) (result status : dict) :
  net (requests c) = Responds 200 result ->
  get result "status" (VDict ∅) = VDict status ->
  pending (get status "state" (VStr "")) = false ->
  submit_and_poll net timeout c
  = (posted c, outcome (get status "state" (VStr "")) status result).
Proof.
  intros Hnet Hstatus Hpending. unfold submit_and_poll, posted, outcome.
  cbv beta iota zeta delta
    [mbind mret Db_bind Db_ret db_bind db_ret db_lift db_raise request fst snd].
  rewrite Hnet. cbn [negb Z.eqb Pos.eqb fst snd].
  unfold status_field. rewrite Hstatus.
  destruct (Z.to_nat (timeout / 2)) as [|k]; cbn [poll]; rewrite Hpending;
    cbv beta iota zeta delta [mret Db_ret db_ret fst snd];
    destruct (str_eq _ "SUCCEEDED");
    try (destruct (parse_rows result); reflexivity);
    destruct (str_eq _ "FAILED"); rewrite ?Hstatus; reflexivity.
Qed.

(** Polling a statement that stays pending uses up the budget. *)
Lemma poll_pending (results : nat -> dict) (states : nat -> value)
    (id : value) :
  (forall n, net n = Responds 200 (results n)
             /\ status_field (results n) "state" (VStr "") = inr (states n)
             /\ pending (states n) = true) ->
  forall (k : nat) (state : value) (result : dict) (c : client),
    pending state = true ->
    poll net k id state result c
    = (Client (requests c + k) (log c ++ polls_of id k),
       inr match k with
           | O => (state, result)
           | Datatypes.S k' =>
               (states (requests c + k')%nat, results (requests c + k')%nat)
           end).
Proof.
  intros Hnet. induction k as [|k IH]; intros state result c Hp.
  - cbn [poll]. rewrite Hp. unfold polls_of. cbn.
    rewrite Nat.add_0_r, app_nil_r. now destruct c.
  - cbn [poll]. rewrite Hp.
    cbv beta iota zeta delta
      [mbind mret Db_bind Db_ret db_bind db_ret db_lift request sleep fst snd].
    cbn [requests log].
    destruct (Hnet (requests c)) as (-> & -> & Hp').
    rewrite (IH _ _ _ Hp'). cbn [requests log].
    unfold polls_of. cbn [List.repeat List.concat].
    rewrite <- !app_assoc. cbn [app].
    replace (Datatypes.S (requests c) + k)%nat
      with (requests c + Datatypes.S k)%nat by lia.
    do 2 f_equal.
    destruct k as [|k']; [now rewrite Nat.add_0_r |].
    now replace (Datatypes.S (requests c) + k')%nat
      with (requests c + Datatypes.S k')%nat by lia.
Qed.

End Outcomes.

(** X19.  A submission answered with a status code other than 200 is not
    retried and not polled: [_execute_sql] raises the API error with the
    body of the response after that one request, without sleeping. *)
Theorem api_error_is_not_retried
    (net : nat -> QueryExecutor.http) (timeout : Z) (c : QueryExecutor.client)
    (status : Z) (result : dict) :
  net (QueryExecutor.requests c) = QueryExecutor.Responds status result ->
  status <> 200 ->
  QueryExecutor.execute_sql net timeout c
  = (posted c, inl (SqlApiError (VDict result))).
Proof.
  intros Hnet Hstatus.
  assert (H : QueryExecutor.submit_and_poll net timeout c
              = (posted c, inl (SqlApiError (VDict result)))).
  { unfold QueryExecutor.submit_and_poll, posted.
    cbv beta iota zeta delta
      [mbind mret Db_bind Db_ret db_bind db_ret db_lift db_raise
       QueryExecutor.request fst snd].
    rewrite Hnet. cbn [fst snd].
    destruct (status =? 200) eqn:E; [apply Z.eqb_eq in E; congruence |].
    reflexivity. }
  rewrite attempt_decides; rewrite H; [reflexivity | discriminate].
Qed.

Lemma api_error_is_not_retried_witness :
  QueryExecutor.execute_sql
    (fun _ => QueryExecutor.Responds 403 {["message" := VStr "forbidden"]})
    300 QueryExecutor.start
  = (posted QueryExecutor.start,
     inl (SqlApiError (VDict {["message" := VStr "forbidden"]}))).
Proof.
  apply (api_error_is_not_retried
           (fun _ => QueryExecutor.Responds 403 {["message" := VStr "forbidden"]})
           300 QueryExecutor.start 403 {["message" := VStr "forbidden"]});
    [reflexivity | lia].
Defined.

(** X20.  A submission answered with a state that is neither [PENDING]
    nor [RUNNING] is settled by that one request, without a poll, a sleep or
    a retry: [SUCCEEDED] gives the rows of the response, [FAILED] raises with
    the error of the status, and any other state, the missing one included,
    raises as unexpected. *)
Theorem settled_statement_is_not_polled
    (net : nat -> QueryExecutor.http) (timeout : Z) (c : QueryExecutor.client)
    (result status : dict) :
  net (QueryExecutor.requests c) = QueryExecutor.Responds 200 result ->
  get result "status" (VDict ∅) = VDict status ->
  QueryExecutor.pending (get status "state" (VStr "")) = false ->
  QueryExecutor.execute_sql net timeout c
  = (posted c, outcome (get status "state" (VStr "")) status result).
Proof.
  intros Hnet Hstatus Hpending.
  rewrite attempt_decides;
    rewrite (settled_attempt net timeout c result status Hnet Hstatus Hpending);
    [reflexivity | apply outcome_error].
Qed.

Lemma settled_statement_is_not_polled_witness :
  let failed : dict :=
    {["status" := VDict (<["state" := VStr "FAILED"]>
                           {["error" := VStr "syntax error"]})]} in
  QueryExecutor.execute_sql (fun _ => QueryExecutor.Responds 200 failed) 300
    QueryExecutor.start
  = (posted QueryExecutor.start,
     outcome
       (get (<["state" := VStr "FAILED"]> {["error" := VStr "syntax error"]})
          "state" (VStr ""))
       (<["state" := VStr "FAILED"]> {["error" := VStr "syntax error"]})
       failed).
Proof.
  intros failed.
  apply (settled_statement_is_not_polled
           (fun _ => QueryExecutor.Responds 200 failed) 300
           QueryExecutor.start failed
           (<["state" := VStr "FAILED"]> {["error" := VStr "syntax error"]}));
    reflexivity.
Defined.

(** X21.  A statement that stays pending is polled [timeout // 2] times,
    every poll after a sleep of 2 seconds and for the statement id of the
    submission; then [_execute_sql] raises with the state last seen, and
    does not submit again.  With a timeout below 2 it does not poll at
    all. *)
Theorem pending_statement_uses_the_poll_budget
    (net : nat -> QueryExecutor.http) (timeout : Z) (c : QueryExecutor.client)
    (results : nat -> dict) (states : nat -> value) :
  (forall n, net n = QueryExecutor.Responds 200 (results n)
             /\ QueryExecutor.status_field (results n) "state" (VStr "")
                = inr (states n)
             /\ QueryExecutor.pending (states n) = true) ->
  let k := Z.to_nat (timeout / 2) in
  let first := QueryExecutor.requests c in
  QueryExecutor.execute_sql net timeout c
  = (QueryExecutor.Client (Datatypes.S first + k)
       (QueryExecutor.log c
        ++ QueryExecutor.Post
           :: polls_of (get_none (results first) "statement_id") k),
     inl (UnexpectedSqlState (states (first + k)%nat)))
  /\ (timeout < 2 -> k = 0%nat).
Proof.
  intros Hnet k first. split.
  - assert (H : QueryExecutor.submit_and_poll net timeout c
                = (QueryExecutor.Client (Datatypes.S first + k)
                     (QueryExecutor.log c
                      ++ QueryExecutor.Post
                         :: polls_of (get_none (results first) "statement_id") k),
                   inl (UnexpectedSqlState (states (first + k)%nat)))).
    { unfold QueryExecutor.submit_and_poll.
      cbv beta iota zeta delta
        [mbind mret Db_bind Db_ret db_bind db_ret db_lift db_raise
         QueryExecutor.request].
      destruct (Hnet (QueryExecutor.requests c)) as (Hn & Hs & Hp).
      rewrite Hn. cbn [negb Z.eqb Pos.eqb fst snd]. rewrite Hs.
      rewrite (poll_pending net results states _ Hnet _ _ _ _ Hp).
      cbn [QueryExecutor.requests QueryExecutor.log fst snd].
      fold k. fold first.
      assert (Hfinal :
        fst match k with
            | O => (states first, results first)
            | Datatypes.S k' =>
                (states (Datatypes.S first + k')%nat,
                 results (Datatypes.S first + k')%nat)
            end = states (first + k)%nat).
      { destruct k as [|k']; cbn [fst].
        - now rewrite Nat.add_0_r.
        - f_equal. lia. }
      rewrite Hfinal.
      destruct (Hnet (first + k)%nat) as (_ & _ & Hpk).
      apply pending_not_final in Hpk as [-> ->].
      now rewrite <- app_assoc. }
    rewrite attempt_decides; rewrite H; [reflexivity | discriminate].
  - intros Hlt. subst k.
    assert (timeout / 2 <= 0) by (apply Z.lt_succ_r, Z.div_lt_upper_bound; lia).
    lia.
Qed.

Lemma pending_statement_uses_the_poll_budget_witness :
  let net := fun _ : nat => QueryExecutor.Responds 200 pending_response in
  QueryExecutor.execute_sql net 6 QueryExecutor.start
  = (QueryExecutor.Client (1 + Z.to_nat (6 / 2))
       (QueryExecutor.log QueryExecutor.start
        ++ QueryExecutor.Post
           :: polls_of (get_none pending_response "statement_id")
                (Z.to_nat (6 / 2))),
     inl (UnexpectedSqlState (VStr "PENDING")))
  /\ (6 < 2 -> Z.to_nat (6 / 2) = 0%nat).
Proof.
  intros net.
  apply (pending_statement_uses_the_poll_budget net 6 QueryExecutor.start
           (fun _ => pending_response) (fun _ => VStr "PENDING")).
  intros n. repeat split.
Defined.

(** X22.  When the network fails three submissions in a row,
    [_execute_sql] has submitted three times, slept 2 seconds after the
    first failure and 4 after the second, and raises the [ClientError] of
    the third without sleeping again; it does not return the empty list. *)
Theorem dead_network_gives_up_after_three_submissions
    (net : nat -> QueryExecutor.http) (timeout : Z) (c : QueryExecutor.client) :
  (forall i, (i < 3)%nat ->
             net (QueryExecutor.requests c + i)%nat = QueryExecutor.Fails) ->
  QueryExecutor.execute_sql net timeout c
  = (QueryExecutor.Client (QueryExecutor.requests c + 3)
       (QueryExecutor.log c
        ++ [QueryExecutor.Post; QueryExecutor.Sleep 2; QueryExecutor.Post;
            QueryExecutor.Sleep 4; QueryExecutor.Post]),
     inl ClientError).
Proof.
  intros Hnet.
  pose proof (Hnet 0%nat ltac:(lia)) as H0.
  pose proof (Hnet 1%nat ltac:(lia)) as H1.
  pose proof (Hnet 2%nat ltac:(lia)) as H2.
  rewrite Nat.add_0_r in H0.
  replace (QueryExecutor.requests c + 1)%nat
    with (Datatypes.S (QueryExecutor.requests c)) in H1 by lia.
  replace (QueryExecutor.requests c + 2)%nat
    with (Datatypes.S (Datatypes.S (QueryExecutor.requests c))) in H2 by lia.
  unfold QueryExecutor.execute_sql, QueryExecutor.max_retries.
  rewrite attempts_step, submission_failure_ends_attempt by exact H0.
  cbn [Nat.ltb Nat.leb Nat.sub QueryExecutor.max_retries
       QueryExecutor.requests QueryExecutor.log].
  change (QueryExecutor.base_delay * 2 ^ Z.of_nat 0) with 2.
  rewrite attempts_step, submission_failure_ends_attempt by exact H1.
  cbn [Nat.ltb Nat.leb Nat.sub QueryExecutor.max_retries
       QueryExecutor.requests QueryExecutor.log].
  change (QueryExecutor.base_delay * 2 ^ Z.of_nat 1) with 4.
  rewrite attempts_step, submission_failure_ends_attempt by exact H2.
  cbn [Nat.ltb Nat.leb Nat.sub QueryExecutor.max_retries
       QueryExecutor.requests QueryExecutor.log].
  rewrite <- !app_assoc. cbn [app].
  f_equal. f_equal. lia.
Qed.

Lemma dead_network_gives_up_after_three_submissions_witness :
  QueryExecutor.execute_sql (fun _ => QueryExecutor.Fails) 300
    QueryExecutor.start
  = (QueryExecutor.Client (QueryExecutor.requests QueryExecutor.start + 3)
       (QueryExecutor.log QueryExecutor.start
        ++ [QueryExecutor.Post; QueryExecutor.Sleep 2; QueryExecutor.Post;
            QueryExecutor.Sleep 4; QueryExecutor.Post]),
     inl ClientError).
Proof.
  apply (dead_network_gives_up_after_three_submissions
           (fun _ => QueryExecutor.Fails) 300 QueryExecutor.start).
  intros i Hi. reflexivity.
Defined.

(** ** The rows of a statement *)

Section Rows.

Import QueryExecutor.

Lemma fold_insert_other (pairs : list (string * value)) :
  forall (d : dict) (c : string),
    ~ List.In c (map fst pairs) ->
    fold_left (fun d cv => <[fst cv := snd cv]> d) pairs d !! c = d !! c.
Proof.
  induction pairs as [|[c0 v0] pairs IH]; intros d c Hin; [reflexivity |].
  cbn [fold_left fst snd map List.In] in *.
  rewrite IH by tauto. apply lookup_insert_ne. tauto.
Qed.

Lemma fold_insert_lookup (pairs : list (string * value)) :
  forall (d : dict) (c : string) (v : value),
    List.NoDup (map fst pairs) ->
    List.In (c, v) pairs ->
    fold_left (fun d cv => <[fst cv := snd cv]> d) pairs d !! c = Some v.
Proof.
  induction pairs as [|[c0 v0] pairs IH]; intros d c v Hnd Hin; [destruct Hin |].
  cbn [fold_left fst snd map] in *.
  apply List.NoDup_cons_iff in Hnd as [Hc0 Hnd].
  destruct Hin as [Heq | Hin].
  - injection Heq as -> ->.
    rewrite fold_insert_other by exact Hc0. apply lookup_insert_eq.
  - now apply IH.
Qed.

Lemma combine_keys (columns : list string) :
  forall (row : list value) (c : string),
    List.In c (map fst (combine columns row)) -> List.In c columns.
Proof.
  induction columns as [|c0 columns IH]; intros [|v row] c;
    cbn [combine map fst List.In]; try tauto.
  intros [H | H]; [now left | right; now apply (IH row)].
Qed.

Lemma combine_nodup (columns : list string) :
  forall row : list value,
    List.NoDup columns -> List.NoDup (map fst (combine columns row)).
Proof.
  induction columns as [|c0 columns IH]; intros [|v row] Hnd;
    cbn [combine map fst]; try constructor.
  - apply List.NoDup_cons_iff in Hnd as [Hc0 _].
    intros Hin. apply Hc0. now apply (combine_keys columns row).
  - apply List.NoDup_cons_iff in Hnd as [_ Hnd]. now apply IH.
Qed.

Lemma combine_at (columns : list string) :
  forall (row : list value) (i : nat) (c : string) (v : value),
    columns !! i = Some c -> row !! i = Some v ->
    List.In (c, v) (combine columns row).
Proof.
  induction columns as [|c0 columns IH]; intros [|v0 row] [|i] c v Hc Hv;
    try discriminate.
  - cbn in Hc, Hv. injection Hc as ->. injection Hv as ->. now left.
  - right. now apply (IH row i).
Qed.

(** [dict(zip(columns, row))] for distinct columns: the value of a column
    is the value at its position in the row. *)
Lemma zip_row_lookup (columns : list string) (row : list value) (i : nat)
    (c : string) (v : value) :
  List.NoDup columns ->
  columns !! i = Some c -> row !! i = Some v ->
  zip_row columns row !! c = Some v.
Proof.
  intros Hnd Hc Hv. unfold zip_row.
  apply fold_insert_lookup; [now apply combine_nodup | now apply (combine_at _ _ i)].
Qed.

(** A column for which the row has no value is not a key. *)
Lemma zip_row_missing (columns : list string) (row : list value) (c : string) :
  ~ List.In c (firstn (length row) columns) ->
  zip_row columns row !! c = None.
Proof.
  intros Hin. unfold zip_row. rewrite fold_insert_other; [reflexivity |].
  intros H. apply Hin. clear Hin. revert row H.
  induction columns as [|c0 columns IH]; intros [|v row];
    cbn [combine map fst List.In length firstn]; try tauto.
  intros [H | H]; [now left | right; now apply IH].
Qed.

Lemma column_names_named (names : list string) :
  column_names (map (fun name => VDict {["name" := VStr name]}) names)
  = inr names.
Proof.
  induction names as [|name names IH]; [reflexivity |].
  cbn [map column_names]. rewrite lookup_singleton_eq, IH. reflexivity.
Qed.

Lemma zip_rows_lists (columns : list string) (data : list (list value)) :
  zip_rows columns (map VList data) = inr (map (zip_row columns) data).
Proof.
  induction data as [|row data IH]; [reflexivity |].
  cbn [map zip_rows as_list]. now rewrite IH.
Qed.

Lemma parse_rows_succeeded (names : list string) (data : list (list value)) :
  parse_rows (succeeded_with names data) = inr (map (zip_row names) data).
Proof.
  unfold parse_rows, succeeded_with, sub_dict.
  rewrite get_insert_ne, get_insert by discriminate.
  unfold get at 1. rewrite lookup_singleton_eq. cbn [default from_option id].
  unfold get at 1. rewrite lookup_singleton_eq.
  cbn [default from_option id as_list].
  rewrite column_names_named.
  rewrite !get_insert_ne by discriminate.
  unfold get at 1. rewrite lookup_singleton_eq. cbn [default from_option id].
  unfold get at 1. rewrite lookup_singleton_eq.
  cbn [default from_option id as_list].
  apply zip_rows_lists.
Qed.

End Rows.

(** X23.  A statement that succeeded at once returns one dictionary per
    row of the response, in the order of the rows, after the one request.
    When the column names are distinct, each dictionary gives for a column
    the value at the position of the column in the row, and has no key for
    a column beyond the end of the row. *)
Theorem succeeded_statement_returns_its_rows
    (net : nat -> QueryExecutor.http) (timeout : Z) (c : QueryExecutor.client)
    (names : list string) (data : list (list value)) :
  net (QueryExecutor.requests c)
  = QueryExecutor.Responds 200 (succeeded_with names data) ->
  List.NoDup names ->
  QueryExecutor.execute_sql net timeout c
  = (posted c, inr (map (QueryExecutor.zip_row names) data))
  /\ (forall (row : list value) (i : nat) (name : string) (v : value),
        names !! i = Some name -> row !! i = Some v ->
        QueryExecutor.zip_row names row !! name = Some v)
  /\ (forall (row : list value) (name : string),
        ~ List.In name (firstn (length row) names) ->
        QueryExecutor.zip_row names row !! name = None).
Proof.
  intros Hnet Hnd. split; [| split].
  - assert (H : QueryExecutor.submit_and_poll net timeout c
                = (posted c, inr (map (QueryExecutor.zip_row names) data))).
    { rewrite (settled_attempt net timeout c (succeeded_with names data)
                 {["state" := VStr "SUCCEEDED"]} Hnet);
        try reflexivity.
      unfold outcome.
      rewrite get_lookup with (v := VStr "SUCCEEDED") by reflexivity.
      cbn [str_eq]. rewrite String.eqb_refl.
      now rewrite parse_rows_succeeded. }
    rewrite attempt_decides; rewrite H; [reflexivity | discriminate].
  - intros row i name v. now apply zip_row_lookup.
  - intros row name. apply zip_row_missing.
Qed.

Lemma succeeded_statement_returns_its_rows_witness :
  let names := ["id"; "total"] in
  let data := [[VInt 1; VStr "42"]; [VInt 2]] in
  QueryExecutor.execute_sql
    (fun _ => QueryExecutor.Responds 200 (succeeded_with names data)) 300
    QueryExecutor.start
  = (posted QueryExecutor.start,
     inr (map (QueryExecutor.zip_row names) data))
  /\ (forall (row : list value) (i : nat) (name : string) (v : value),
        names !! i = Some name -> row !! i = Some v ->
        QueryExecutor.zip_row names row !! name = Some v)
  /\ (forall (row : list value) (name : string),
        ~ List.In name (firstn (length row) names) ->
        QueryExecutor.zip_row names row !! name = None).
Proof.
  intros names data.
  apply (succeeded_statement_returns_its_rows
           (fun _ => QueryExecutor.Responds 200 (succeeded_with names data))
           300 QueryExecutor.start names data).
  - reflexivity.
  - repeat constructor; cbn; intuition discriminate.
Defined.

(** ** The workflow service *)

Section Sanitize.

Import WorkflowService.

Lemma sanitize_lookup (state : dict) (k : string) (v : value) :
  sanitize_state_for_response state !! k = Some v
  <-> state !! k = Some v /\ included k = true /\ is_not_none v = true.
Proof.
  unfold sanitize_state_for_response.
  rewrite map_lookup_filter_Some. cbn [fst snd].
  rewrite andb_True, !Is_true_true. tauto.
Qed.

Lemma included_in (k : string) :
  included k = true <-> List.In k include_fields.
Proof.
  unfold included. rewrite List.existsb_exists. split.
  - intros [x [Hin Heq]]. apply String.eqb_eq in Heq. now subst x.
  - intros Hin. exists k. split; [exact Hin | apply String.eqb_refl].
Qed.

Lemma sanitize_drops (state : dict) (k : string) :
  included k = false -> sanitize_state_for_response state !! k = None.
Proof.
  intros Hk. destruct (sanitize_state_for_response state !! k) as [v|] eqn:H;
    [| reflexivity].
  apply sanitize_lookup in H as (_ & Hin & _). congruence.
Qed.

End Sanitize.

(** X24.  The state that [run_workflow] hands out at the end of the
    workflow is a part of the final state: every entry of it is an entry of
    the final state whose key is one of the listed fields and whose value is
    not [None], and every such entry is kept.  Sanitizing twice is
    sanitizing once.  The turn number, the question history, the timestamp
    and the user's email are never handed out. *)
Theorem sanitized_state_has_only_listed_fields (state : dict) :
  let handed := WorkflowService.sanitize_state_for_response state in
  (forall k v,
      handed !! k = Some v
      <-> state !! k = Some v
          /\ List.In k WorkflowService.include_fields /\ v <> VNone)
  /\ handed ⊆ state
  /\ WorkflowService.sanitize_state_for_response handed = handed
  /\ handed !! "turn_number" = None
  /\ handed !! "user_question_history" = None
  /\ handed !! "timestamp" = None
  /\ handed !! "user_email" = None.
Proof.
  cbv zeta. split; [| split; [| split]].
  - intros k v. rewrite sanitize_lookup, included_in.
    assert (Hv : WorkflowService.is_not_none v = true <-> v <> VNone)
      by (destruct v; cbn; split; congruence).
    tauto.
  - apply map_filter_subseteq.
  - apply map_eq. intros k.
    destruct (WorkflowService.sanitize_state_for_response state !! k)
      as [v|] eqn:H.
    + apply sanitize_lookup. split; [exact H |].
      now apply sanitize_lookup in H as (_ & Hin & Hv).
    + destruct (WorkflowService.sanitize_state_for_response
                  (WorkflowService.sanitize_state_for_response state) !! k)
        as [v|] eqn:H2; [| reflexivity].
      apply sanitize_lookup in H2 as (H2 & _). congruence.
  - repeat split; now apply sanitize_drops.
Qed.

Section Service.

Import WorkflowService.

Context {S : Type}.

Lemma get_singleton (k : string) (v dflt : value) :
  get {[k := v]} k dflt = v.
Proof. unfold get. now rewrite lookup_singleton_eq. Qed.

(** The relay of the events that [run_workflow] makes. *)
Lemma relay_error (text : string) (st : locals (S:=S)) :
  relay_event (<["type" := VStr "error"]> {["error" := VStr text]}) st
  = ([Error (ErrValue (VStr text))], st, inr tt).
Proof.
  unfold relay_event. rewrite get_insert. cbn [str_eq String.eqb Ascii.eqb Bool.eqb].
  rewrite get_insert_ne by discriminate. now rewrite get_singleton.
Qed.

End Service.

Section ServiceRelay.

Import WorkflowService.

Context {S : Type}.

Lemma relay_start (rest : dict) (st : locals (S:=S)) :
  relay_event (<["type" := VStr "workflow_start"]> rest) st
  = ([started], st, inr tt).
Proof. unfold relay_event. now rewrite get_insert. Qed.

Lemma relay_node_complete (name message : string) (st : locals (S:=S)) :
  relay_event
    (<["type" := VStr "node_complete"]>
       (<["node" := VStr name]> {["status" := VStr message]})) st
  = ([Status "processing" (Msg (VStr message)) (Some (VStr name))], st, inr tt).
Proof.
  unfold relay_event. rewrite get_insert.
  cbn [str_eq String.eqb Ascii.eqb Bool.eqb].
  rewrite !lookup_insert_ne by discriminate.
  rewrite lookup_singleton_eq. unfold get_none.
  rewrite get_insert_ne by discriminate. now rewrite get_insert.
Qed.

Lemma relay_sql_result (v : value) (st : locals (S:=S)) :
  relay_event (<["type" := VStr "sql_result"]> {["data" := v]}) st
  = ([DataSqlResult v], st, inr tt).
Proof.
  unfold relay_event. rewrite get_insert.
  cbn [str_eq String.eqb Ascii.eqb Bool.eqb]. unfold get_none.
  rewrite get_insert_ne by discriminate. now rewrite get_singleton.
Qed.

Lemma relay_chart (v : value) (st : locals (S:=S)) :
  relay_event (<["type" := VStr "chart"]> {["spec" := v]}) st
  = ([DataChart v], st, inr tt).
Proof.
  unfold relay_event. rewrite get_insert.
  cbn [str_eq String.eqb Ascii.eqb Bool.eqb]. unfold get_none.
  rewrite get_insert_ne by discriminate. now rewrite get_singleton.
Qed.

Lemma relay_narrative (text : string) (st : locals (S:=S)) :
  truthy (VStr text) = true ->
  relay_event (<["type" := VStr "narrative"]> {["content" := VStr text]}) st
  = (map (fun word => Stream (word +:+ " ") false) (PyStr.split text),
     Locals (VStr text) (final_state st) (store st), inr tt).
Proof.
  intros Ht. unfold relay_event. rewrite get_insert.
  cbn [str_eq String.eqb Ascii.eqb Bool.eqb].
  rewrite get_insert_ne by discriminate. rewrite get_singleton. cbv zeta.
  rewrite Ht. rewrite bind_run. cbn [set_full_response py_split].
  rewrite bind_run. cbn [lift]. rewrite stream_words_run. reflexivity.
Qed.

(** The relay of the data events of a node. *)
Lemma relay_data_events (node_data : dict) (st : locals (S:=S)) :
  for_each
    (match present node_data "sql_result" with
     | Some v => [<["type" := VStr "sql_result"]> {["data" := v]}]
     | None => []
     end
     ++ match present node_data "chart_spec" with
        | Some v => [<["type" := VStr "chart"]> {["spec" := v]}]
        | None => []
        end) relay_event st
  = (data_frames node_data, st, inr tt).
Proof.
  unfold data_frames.
  destruct (present node_data "sql_result") as [v|];
    destruct (present node_data "chart_spec") as [w|];
    cbn [app for_each]; rewrite ?bind_run, ?relay_sql_result, ?relay_chart;
    reflexivity.
Qed.

End ServiceRelay.

(** X25.  When the workflow service is not initialised, a turn sends the
    [error] frame with the text of the service and then completes all the
    same: the closing [stream] frame and a [complete] frame with an empty
    response follow, and a turn with the empty response is stored. *)
Theorem uninitialized_service_completes_an_empty_turn
    (astream_events : dict -> string -> WorkflowService.stream) (now : string)
    (sid question : string) (uid : value) (email : option string)
    (state : dict) (tm : times) (t : Databricks.tables) (n : Z) :
  py_add_one (get state "turn_number" (VInt 0)) = inr n ->
  let r :=
    WorkflowService.run_workflow false astream_events now question sid uid
      email state in
  let out :=
    stream_response_workflow (Some Databricks.storage) r sid question uid
      state tm t in
  fst (fst out)
  = [processing; Error (ErrValue not_initialized); Stream "" true;
     Complete (VStr "") sid (VInt n) (complete_metadata (at_complete tm) state)]
  /\ turn_rows sid (snd (fst out))
     = turn_rows sid t
       ++ [Turn sid n question "" state {["workflow" := VBool true]}
             (at_save_turn tm)].
Proof.
  intros Hn. cbv zeta.
  rewrite stream_response_workflow_run.
  unfold WorkflowService.run_workflow, relay_events.
  cbn [negb run_events run_raises for_each].
  rewrite !bind_run, relay_error. cbn [ret mret M_ret app].
  rewrite Hn, persist_databricks.
  cbn [fst snd store full_response final_state app].
  split; [reflexivity | apply turn_rows_store_turn].
Qed.

Lemma uninitialized_service_completes_an_empty_turn_witness :
  let r :=
    WorkflowService.run_workflow false
      (fun _ _ => WorkflowService.Events [] None) "t" "spend" "s1" (VStr "u1")
      None ∅ in
  let tm := Times "t0" "t1" "t2" in
  let out :=
    stream_response_workflow (Some Databricks.storage) r "s1" "spend"
      (VStr "u1") ∅ tm Databricks.empty in
  fst (fst out)
  = [processing; Error (ErrValue not_initialized); Stream "" true;
     Complete (VStr "") "s1" (VInt 1) (complete_metadata (at_complete tm) ∅)]
  /\ turn_rows "s1" (snd (fst out))
     = turn_rows "s1" Databricks.empty
       ++ [Turn "s1" 1 "spend" "" ∅ {["workflow" := VBool true]}
             (at_save_turn tm)].
Proof.
  intros r tm.
  apply (uninitialized_service_completes_an_empty_turn
           (fun _ _ => WorkflowService.Events [] None) "t" "s1" "spend"
           (VStr "u1") None ∅ tm Databricks.empty 1).
  reflexivity.
Defined.

(** X26.  An exception of the workflow does not end the turn with an
    error: [run_workflow] yields it as an [error] event after the events
    that came before, so the client gets the [started] status, the frames of
    those events, an [error] frame with the text of the exception, and then
    the closing [stream] frame and the [complete] frame, with the response
    and the final state reached before the exception. *)
Theorem workflow_exception_is_relayed_and_the_turn_completes
    {S : Type} (storage : option (StorageBackend S))
    (astream_events : dict -> string -> WorkflowService.stream) (now : string)
    (sid question : string) (uid : value) (email : option string)
    (state : dict) (tm : times) (db : S)
    (events : list WorkflowService.stream_event) (text : string)
    (sent : list frame) (st1 : locals (S:=S)) (n : Z) :
  astream_events
    (WorkflowService.build_initial_state question sid uid email (Some state)
       now) sid
  = WorkflowService.Events events (Some text) ->
  for_each (flat_map WorkflowService.yielded events) relay_event
    (Locals (VStr "") state db)
  = (sent, st1, inr tt) ->
  py_add_one (get state "turn_number" (VInt 0)) = inr n ->
  let r :=
    WorkflowService.run_workflow true astream_events now question sid uid
      email state in
  run_raises r = None
  /\ fst (fst (stream_response_workflow storage r sid question uid state tm db))
     = processing :: started
       :: sent
       ++ [Error (ErrValue (VStr text)); Stream "" true;
           Complete (full_response st1) sid (VInt n)
             (complete_metadata (at_complete tm) (final_state st1))].
Proof.
  intros Hstream Hev Hn. cbv zeta. split; [reflexivity |].
  rewrite stream_response_workflow_run.
  unfold WorkflowService.run_workflow, relay_events.
  cbn [negb run_events run_raises]. rewrite Hstream.
  cbn [WorkflowService.stream_events WorkflowService.stream_raises app
       for_each].
  rewrite !bind_run, relay_start.
  rewrite (for_each_app_run _ _ _ _ _ _ Hev).
  cbn [for_each]. rewrite bind_run, relay_error.
  cbn [ret mret M_ret app]. rewrite Hn.
  cbn [fst snd]. rewrite ?app_nil_r, <- ?app_assoc. reflexivity.
Qed.

Lemma workflow_exception_is_relayed_and_the_turn_completes_witness :
  let astream_events :=
    fun (_ : dict) (_ : string) =>
      WorkflowService.Events
        [WorkflowService.StreamEvent "node_end" "router_agent" ∅]
        (Some "warehouse unreachable") in
  let r :=
    WorkflowService.run_workflow true astream_events "t" "spend" "s1"
      (VStr "u1") None ∅ in
  let relayed :=
    for_each
      (flat_map WorkflowService.yielded
         [WorkflowService.StreamEvent "node_end" "router_agent" ∅])
      relay_event (Locals (VStr "") ∅ Databricks.empty) in
  run_raises r = None
  /\ fst (fst (stream_response_workflow (Some Databricks.storage) r "s1"
                 "spend" (VStr "u1") ∅ (Times "t0" "t1" "t2")
                 Databricks.empty))
     = processing :: started
       :: fst (fst relayed)
       ++ [Error (ErrValue (VStr "warehouse unreachable")); Stream "" true;
           Complete (full_response (snd (fst relayed))) "s1" (VInt 1)
             (complete_metadata (at_complete (Times "t0" "t1" "t2"))
                (final_state (snd (fst relayed))))].
Proof.
  intros astream_events r relayed.
  apply (workflow_exception_is_relayed_and_the_turn_completes
           (Some Databricks.storage) astream_events "t" "s1" "spend"
           (VStr "u1") None ∅ (Times "t0" "t1" "t2") Databricks.empty
           [WorkflowService.StreamEvent "node_end" "router_agent" ∅]
           "warehouse unreachable" (fst (fst relayed)) (snd (fst relayed)) 1);
    reflexivity.
Defined.

(** X27.  The end of a node reaches the client as a [status] frame with
    the status message of the node, then the tokens of the narrative when
    the node is the narrative agent, then the SQL result and the chart when
    the node has them, in this order.  The status text is always the one
    [run_workflow] chose; only a narrative that is not empty becomes the
    response. *)
Theorem node_end_is_relayed_in_order
    {S : Type} (name : string) (data : dict) (text : string)
    (st : locals (S:=S)) :
  (if String.eqb name "narrative_agent"
   then get data "narrative_response" (VStr "")
   else VStr "") = VStr text ->
  for_each
    (WorkflowService.yielded (WorkflowService.StreamEvent "node_end" name data))
    relay_event st
  = (node_status name data
     :: map (fun word => Stream (word +:+ " ") false) (PyStr.split text)
     ++ data_frames data,
     Locals (if String.eqb text "" then full_response st else VStr text)
       (final_state st) (store st),
     inr tt).
Proof.
  intros Hnarrative. unfold WorkflowService.yielded.
  cbn [WorkflowService.ev_type WorkflowService.ev_name WorkflowService.ev_data
       String.eqb Ascii.eqb Bool.eqb].
  cbn [app for_each]. rewrite bind_run, relay_node_complete.
  fold (node_status name data).
  destruct (String.eqb name "narrative_agent").
  - rewrite Hnarrative. unfold truthy.
    destruct (String.eqb text "") eqn:Hempty; cbn [negb app].
    + apply String.eqb_eq in Hempty. subst text.
      rewrite relay_data_events. destruct st. reflexivity.
    + cbn [for_each]. rewrite bind_run, relay_narrative
        by (cbn; now rewrite Hempty).
      rewrite relay_data_events.
      cbn [full_response final_state store app]. reflexivity.
  - injection Hnarrative as <-. cbn [app String.eqb PyStr.split map].
    rewrite relay_data_events. destruct st. reflexivity.
Qed.

Lemma node_end_is_relayed_in_order_witness :
  let data : dict :=
    <["narrative_response" := VStr "Total spend is 42."]>
      {["sql_result" := VList [VInt 42]]} in
  let st := Locals (VStr "") ∅ Databricks.empty in
  for_each
    (WorkflowService.yielded
       (WorkflowService.StreamEvent "node_end" "narrative_agent" data))
    relay_event st
  = (node_status "narrative_agent" data
     :: map (fun word => Stream (word +:+ " ") false)
          (PyStr.split "Total spend is 42.")
     ++ data_frames data,
     Locals (if String.eqb "Total spend is 42." "" then full_response st
             else VStr "Total spend is 42.")
       (final_state st) (store st),
     inr tt).
Proof.
  intros data st.
  apply (node_end_is_relayed_in_order "narrative_agent" data
           "Total spend is 42." st).
  reflexivity.
Defined.

Section FinalState.

Import WorkflowService.

Context {S : Type}.

(** A loop that raises does not go on to the events that follow. *)
Lemma for_each_app_raise (xs ys : list dict) (st : locals (S:=S)) (e : exn) :
  snd (for_each xs relay_event st) = inl e ->
  snd (for_each (xs ++ ys) relay_event st) = inl e.
Proof.
  revert st. induction xs as [|x xs IH]; intros st H; [discriminate |].
  cbn [app for_each] in *. rewrite bind_run in *.
  destruct (relay_event x st) as [[f1 s1] [e1|[]]]; [exact H |].
  specialize (IH s1).
  destruct (for_each xs relay_event s1) as [[f2 s2] r2].
  destruct (for_each (xs ++ ys) relay_event s1) as [[f3 s3] r3].
  cbn [snd] in *. now apply IH.
Qed.

Lemma relay_workflow_end_final_state (fs : dict) (st : locals (S:=S)) :
  final_state (snd (fst (relay_workflow_end fs st))) = final_state st.
Proof.
  rewrite relay_workflow_end_run.
  destruct (selected fs) as [[field [kind|]]|]; try reflexivity.
  destruct (py_split (get_none fs field)); reflexivity.
Qed.

(** After a [workflow_end] event that was handled, the final state is the
    state of the event. *)
Lemma for_each_ends_with_workflow_end (events : list dict) (fs : dict)
    (st st1 : locals (S:=S)) (sent : list frame) :
  for_each
    (events ++ [<["type" := VStr "workflow_end"]> {["state" := VDict fs]}])
    relay_event st
  = (sent, st1, inr tt) ->
  final_state st1 = fs.
Proof.
  change (<["type" := VStr "workflow_end"]> {["state" := VDict fs]})
    with (workflow_end_event fs ∅).
  destruct (for_each events relay_event st) as [[f0 s0] [e|[]]] eqn:Hev.
  - intros H.
    pose proof (for_each_app_raise events [workflow_end_event fs ∅] st e) as Hr.
    rewrite Hev, H in Hr. specialize (Hr eq_refl). discriminate.
  - rewrite (for_each_app_run _ _ _ _ _ _ Hev).
    cbn [for_each]. rewrite bind_run, relay_event_end, bind_run.
    cbn [set_final_state].
    pose proof (relay_workflow_end_final_state fs
                  (Locals (full_response s0) fs (store s0))) as Hfs.
    destruct (relay_workflow_end fs _) as [[f1 s1] [e1|[]]];
      cbn [fst snd final_state] in *; [discriminate |].
    intros H. injection H as _ <-. exact Hfs.
Qed.

Lemma update_state_truthy (question sid : string) (uid : value) (st : dict) :
  truthy (VDict (update_state question sid uid st)) = true.
Proof.
  cbn [truthy]. apply negb_true_iff, Nat.eqb_neq. intros Hsize.
  apply map_size_empty_iff in Hsize. unfold update_state in Hsize.
  now apply insert_non_empty in Hsize.
Qed.

(** A state without question history gets the empty history. *)
Lemma build_initial_state_history (question sid : string) (uid : value)
    (email : option string) (existing : dict) (now : string) :
  truthy (VDict existing) = true ->
  existing !! "user_question_history" = None ->
  build_initial_state question sid uid email (Some existing) now
    !! "user_question_history"
  = Some (VList []).
Proof.
  intros Htrue Hnone. unfold build_initial_state. rewrite Htrue. cbv zeta.
  rewrite !lookup_insert_ne by discriminate. rewrite Hnone.
  destruct (_ !! "errors").
  - apply lookup_insert_eq.
  - rewrite lookup_insert_ne by discriminate. apply lookup_insert_eq.
Qed.

End FinalState.

(** X28.  After a workflow turn that ended with the workflow's final
    state, the state stored for the session is the sanitized final state
    with the turn number: it has no key outside the listed fields and
    [turn_number].  The question history is therefore not stored, and the
    workflow starts the next turn of the session with an empty history. *)
Theorem stored_state_is_the_sanitized_state
    (astream_events : dict -> string -> WorkflowService.stream) (now : string)
    (sid question : string) (uid : value) (email : option string)
    (state : dict) (tm : times) (t : Databricks.tables)
    (events : list WorkflowService.stream_event) (name : string) (data : dict)
    (sent : list frame) (st1 : locals (S:=Databricks.tables)) (n : Z)
    (response : string) :
  astream_events
    (WorkflowService.build_initial_state question sid uid email (Some state)
       now) sid
  = WorkflowService.Events
      (events ++ [WorkflowService.StreamEvent "workflow_end" name data]) None ->
  relay_events
    (WorkflowService.run_workflow true astream_events now question sid uid
       email state)
    (Locals (VStr "") state t)
  = (sent, st1, inr tt) ->
  py_add_one (get state "turn_number" (VInt 0)) = inr n ->
  full_response st1 = VStr response ->
  let r :=
    WorkflowService.run_workflow true astream_events now question sid uid
      email state in
  let out :=
    stream_response_workflow (Some Databricks.storage) r sid question uid
      state tm t in
  let stored := resumed_state sid (snd (fst out)) in
  stored
  = <["turn_number" := VInt n]>
      (WorkflowService.sanitize_state_for_response data)
  /\ (forall k, is_Some (stored !! k) ->
                k = "turn_number" \/ List.In k WorkflowService.include_fields)
  /\ stored !! "user_question_history" = None
  /\ (forall question' uid' email' now',
        WorkflowService.build_initial_state question' sid uid' email'
          (Some (update_state question' sid uid' stored)) now'
          !! "user_question_history"
        = Some (VList [])).
Proof.
  intros Hstream Hev Hn Hresp r out stored. fold r in Hev.
  assert (Hfinal : final_state st1
                   = WorkflowService.sanitize_state_for_response data).
  { revert Hev. unfold r, WorkflowService.run_workflow, relay_events.
    cbn [negb run_events run_raises]. rewrite Hstream.
    cbn [WorkflowService.stream_events WorkflowService.stream_raises].
    rewrite flat_map_app, app_nil_r. cbn [flat_map].
    unfold WorkflowService.yielded at 2.
    cbn [WorkflowService.ev_type WorkflowService.ev_data String.eqb Ascii.eqb
         Bool.eqb app].
    rewrite bind_run, app_comm_cons.
    destruct (for_each _ relay_event _) as [[f0 s0] [e|[]]] eqn:Hfor;
      [discriminate |].
    cbn [mret M_ret ret]. intros H. injection H as _ <-.
    now apply for_each_ends_with_workflow_end in Hfor. }
  assert (Hstored : stored
                    = <["turn_number" := VInt n]>
                        (WorkflowService.sanitize_state_for_response data)).
  { subst stored out.
    pose proof (relay_events_store r (Locals (VStr "") state t)) as Hdb.
    rewrite stream_response_workflow_run, Hev, Hn, persist_databricks, Hresp.
    rewrite Hev in Hdb. cbn [fst snd store] in Hdb |- *.
    now rewrite resumed_state_store_turn, Hfinal. }
  assert (Hhistory : stored !! "user_question_history" = None).
  { rewrite Hstored, lookup_insert_ne by discriminate.
    now apply sanitize_drops. }
  split; [exact Hstored | split; [| split; [exact Hhistory |]]].
  - intros k [v Hk]. rewrite Hstored in Hk.
    destruct (decide (k = "turn_number")) as [-> | Hne]; [now left | right].
    rewrite lookup_insert_ne in Hk by congruence.
    apply sanitize_lookup in Hk as (_ & Hin & _). now apply included_in.
  - intros question' uid' email' now'.
    apply build_initial_state_history; [apply update_state_truthy |].
    unfold update_state. now rewrite !lookup_insert_ne by discriminate.
Qed.

Lemma stored_state_is_the_sanitized_state_witness :
  let data : dict :=
    <["question_type" := VStr "what"]>
      {["user_question_history" := VList [VStr "What is total spend?"]]} in
  let astream_events :=
    fun (_ : dict) (_ : string) =>
      WorkflowService.Events
        ([WorkflowService.StreamEvent "node_end" "router_agent" ∅]
         ++ [WorkflowService.StreamEvent "workflow_end" "" data])
        None in
  let r :=
    WorkflowService.run_workflow true astream_events "t" "spend" "s1"
      (VStr "u1") None ∅ in
  let out :=
    stream_response_workflow (Some Databricks.storage) r "s1" "spend"
      (VStr "u1") ∅ (Times "t0" "t1" "t2") Databricks.empty in
  let stored := resumed_state "s1" (snd (fst out)) in
  stored
  = <["turn_number" := VInt 1]>
      (WorkflowService.sanitize_state_for_response data)
  /\ (forall k, is_Some (stored !! k) ->
                k = "turn_number" \/ List.In k WorkflowService.include_fields)
  /\ stored !! "user_question_history" = None
  /\ (forall question' uid' email' now',
        WorkflowService.build_initial_state question' "s1" uid' email'
          (Some (update_state question' "s1" uid' stored)) now'
          !! "user_question_history"
        = Some (VList [])).
Proof.
  intros data astream_events r.
  apply (stored_state_is_the_sanitized_state astream_events "t" "s1" "spend"
           (VStr "u1") None ∅ (Times "t0" "t1" "t2") Databricks.empty
           [WorkflowService.StreamEvent "node_end" "router_agent" ∅] "" data
           (fst (fst (relay_events r (Locals (VStr "") ∅ Databricks.empty))))
           (snd (fst (relay_events r (Locals (VStr "") ∅ Databricks.empty))))
           1 "");
    reflexivity.
Defined.

(** ** The REST endpoints of the sessions *)

Section Rest.

Lemma delete_endpoint_run (sid : string) (t : Databricks.tables) :
  SessionsRouter.delete_session (Some Databricks.storage) sid t
  = match head (session_rows sid t) with
    | None => (t, inl (SessionsRouter.not_found sid))
    | Some _ =>
        (fst (delete_session Databricks.storage sid t),
         inr (SessionsRouter.MkDeleteResponse true
                ("Session " +:+ sid +:+ " deleted successfully")))
    end.
Proof.
  unfold SessionsRouter.delete_session, SessionsRouter.get_storage.
  cbv beta iota zeta delta
    [mbind mret SessionsRouter.Ep_bind SessionsRouter.Ep_ret
     SessionsRouter.ep_bind SessionsRouter.ep_ret SessionsRouter.ep_raise
     SessionsRouter.call SessionsRouter.guarded].
  rewrite get_session_run.
  destruct (head (session_rows sid t)); [| reflexivity].
  now rewrite delete_session_run.
Qed.

Lemma session_rows_deleted (sid : string) (t : Databricks.tables) :
  session_rows sid (fst (delete_session Databricks.storage sid t)) = [].
Proof.
  rewrite delete_session_run. unfold session_rows.
  cbn [fst Databricks.sessions]. apply filter_out.
Qed.

End Rest.

(** X29.  [DELETE /{session_id}] looks the session up first.  For a
    session that is not stored it answers 404 and changes nothing, also when
    turns are stored under that id.  For a stored session it answers with
    success, the session and its turns are gone and the other sessions are
    as they were; deleting it a second time answers 404.  Without a storage
    the answer is 503. *)
Theorem delete_endpoint_checks_the_session
    (sid : string) (t : Databricks.tables) :
  let out := SessionsRouter.delete_session (Some Databricks.storage) sid t in
  match head (session_rows sid t) with
  | None => out = (t, inl (SessionsRouter.not_found sid))
  | Some _ =>
      snd out
      = inr (SessionsRouter.MkDeleteResponse true
               ("Session " +:+ sid +:+ " deleted successfully"))
      /\ session_rows sid (fst out) = []
      /\ turn_rows sid (fst out) = []
      /\ (forall sid', sid' <> sid ->
            session_rows sid' (fst out) = session_rows sid' t
            /\ turn_rows sid' (fst out) = turn_rows sid' t)
      /\ SessionsRouter.delete_session (Some Databricks.storage) sid (fst out)
         = (fst out, inl (SessionsRouter.not_found sid))
  end
  /\ SessionsRouter.delete_session (S:=Databricks.tables) None sid t
     = (t, inl (SessionsRouter.HTTPException 503
                  (ErrValue (VStr "Storage not initialized")))).
Proof.
  cbv zeta. split; [| reflexivity].
  rewrite delete_endpoint_run.
  destruct (head (session_rows sid t)) as [row|]; [| reflexivity].
  cbn [fst snd]. split; [reflexivity |].
  split; [apply session_rows_deleted |].
  split; [rewrite delete_session_run; unfold turn_rows;
          cbn [fst Databricks.turns]; apply filter_out |].
  split.
  - intros sid' Hne. rewrite delete_session_run.
    unfold session_rows, turn_rows. cbn [fst Databricks.sessions Databricks.turns].
    split; apply filter_keeps_others; intros x Hx.
    + unfold Databricks.has_id in *. apply String.eqb_eq in Hx.
      destruct (String.eqb (s_session_id x) sid) eqn:He; [| reflexivity].
      apply String.eqb_eq in He. congruence.
    + unfold Databricks.of_session in *. apply String.eqb_eq in Hx.
      destruct (String.eqb (t_session_id x) sid) eqn:He; [| reflexivity].
      apply String.eqb_eq in He. congruence.
  - rewrite delete_endpoint_run, session_rows_deleted. reflexivity.
Qed.

(** X30.  The endpoints for the history, the deletion and the state of a
    session raise nothing but an [HTTPException] with status 404, 500 or
    503, with any storage.  An exception of the storage at the lookup of the
    session becomes the status 500 with the text of the exception, and the
    404 of a session that is not stored is not turned into a 500. *)
Theorem endpoints_raise_only_http_errors
    {S : Type} (storage : option (StorageBackend S)) (sid : string)
    (limit : option Z) (db : S) :
  answers_with [404; 500; 503]
    (snd (SessionsRouter.get_session_history storage sid limit db))
  /\ answers_with [404; 500; 503]
       (snd (SessionsRouter.delete_session storage sid db))
  /\ answers_with [404; 500; 503]
       (snd (SessionsRouter.get_session_state storage sid db))
  /\ (forall sb db1 e,
        storage = Some sb ->
        get_session sb sid db = (db1, inl e) ->
        SessionsRouter.get_session_history storage sid limit db
        = (db1, inl (SessionsRouter.HTTPException 500 (ErrStr e)))
        /\ SessionsRouter.delete_session storage sid db
           = (db1, inl (SessionsRouter.HTTPException 500 (ErrStr e)))
        /\ SessionsRouter.get_session_state storage sid db
           = (db1, inl (SessionsRouter.HTTPException 500 (ErrStr e))))
  /\ (forall sb db1,
        storage = Some sb ->
        get_session sb sid db = (db1, inr None) ->
        SessionsRouter.get_session_history storage sid limit db
        = (db1, inl (SessionsRouter.not_found sid))
        /\ SessionsRouter.delete_session storage sid db
           = (db1, inl (SessionsRouter.not_found sid))
        /\ SessionsRouter.get_session_state storage sid db
           = (db1, inl (SessionsRouter.not_found sid))).
Proof.
  unfold SessionsRouter.get_session_history, SessionsRouter.delete_session,
    SessionsRouter.get_session_state, SessionsRouter.get_storage,
    SessionsRouter.not_found.
  cbv beta iota zeta delta
    [mbind mret SessionsRouter.Ep_bind SessionsRouter.Ep_ret
     SessionsRouter.ep_bind SessionsRouter.ep_ret SessionsRouter.ep_raise
     SessionsRouter.call SessionsRouter.guarded].
  destruct storage as [sb|]; [| cbn; repeat split; try tauto; discriminate].
  destruct (get_session sb sid db) as [db1 [e|[row|]]] eqn:Hget.
  - cbn. repeat split; try tauto; intros; simplify_eq; congruence.
  - destruct (get_turns sb sid limit db1) as [db2 [e|turns]];
      destruct (delete_session sb sid db1) as [db3 [e'|b]];
      cbn; repeat split; try tauto; intros; simplify_eq; congruence.
  - cbn. repeat split; try tauto; intros; simplify_eq; congruence.
Qed.
